(** * Download/SentinelHub/download_data.py: a shallow embedding

    The script is a linear sequence of calls into the operating system
    ([open], [os.path.exists], [os.mkdir], [input], [print], [sys.exit])
    and into the sentinelhub client library.  The embedding keeps the
    script's control flow as it is written and threads an explicit world
    (file system, standard input, persisted client configuration) through
    a small state / exception / trace monad.  The behaviour of the remote
    service is a parameter ([Env]); every theorem quantifies over it.

    The client library is known by what the script asks of it: each
    call answers with a value or with an exception, as [Env] says; the
    construction of the request is one such call, since
    [SentinelHubRequest.input_data] reads the time interval and raises
    when it cannot.  The profile file the client loads and saves is kept
    as the configuration it holds, apart from the tree of the file
    system.

    Outside the model: the imports and the logging set-up of lines 23-57,
    the text encoding of the credential file (a file is its decoded text,
    line ends already translated to line feeds), permissions and symbolic
    links in the file system, and [KeyboardInterrupt].  Paths are the
    strings the script builds, under the POSIX [os.path]. *)

From Stdlib Require Import ZArith QArith Ascii String List Bool Lia.
From stdpp Require Import base option strings gmap.

Local Open Scope string_scope.
Local Open Scope list_scope.

(** ** Python strings

    A character is a code point below 256; a Python [str] is a [string]. *)

Module PyStr.

Definition nl : ascii := "010"%char.
Definition slash : ascii := "/"%char.

(** [str.isspace] on the code points below 256: TAB, LF, VT, FF, CR,
    FS, GS, RS, US, SPACE, NEL and NBSP. *)
Definition isspace (c : ascii) : bool :=
  let n := nat_of_ascii c in
  ((9 <=? n)%nat && (n <=? 13)%nat) || ((28 <=? n)%nat && (n <=? 32)%nat)
  || (n =? 133)%nat || (n =? 160)%nat.

Definition is_empty (s : string) : bool :=
  match s with EmptyString => true | String _ _ => false end.

Fixpoint lstrip (s : string) : string :=
  match s with
  | EmptyString => EmptyString
  | String c s' => if isspace c then lstrip s' else s
  end.

Fixpoint rstrip (s : string) : string :=
  match s with
  | EmptyString => EmptyString
  | String c s' =>
      let r := rstrip s' in
      if isspace c && is_empty r then EmptyString else String c r
  end.

(** [s.strip()] with no argument. *)
Definition strip (s : string) : string := rstrip (lstrip s).

(** [file.readline()] on a text stream whose remaining content is [s]:
    the line up to and including the first line feed (the whole rest
    when there is none, the empty string at end of file), and the
    content left in the stream. *)
Fixpoint readline (s : string) : string * string :=
  match s with
  | EmptyString => (EmptyString, EmptyString)
  | String c s' =>
      if Ascii.eqb c nl then (String c EmptyString, s')
      else let '(l, r) := readline s' in (String c l, r)
  end.

Definition startswith_sep (s : string) : bool :=
  match s with
  | String c _ => Ascii.eqb c slash
  | EmptyString => false
  end.

Fixpoint endswith_sep (s : string) : bool :=
  match s with
  | EmptyString => false
  | String c EmptyString => Ascii.eqb c slash
  | String _ s' => endswith_sep s'
  end.

(** [os.path.join(a, b)] of posixpath. *)
Definition os_path_join (a b : string) : string :=
  if startswith_sep b then b
  else if is_empty a || endswith_sep a then a +:+ b
  else a +:+ "/" +:+ b.

(** [s[0:n]] *)
Definition slice_to (n : nat) (s : string) : string := substring 0 n s.

Fixpoint no_newline (s : string) : bool :=
  match s with
  | EmptyString => true
  | String c s' => negb (Ascii.eqb c nl) && no_newline s'
  end.

End PyStr.

(** ** Data model *)

(** The exceptions the script can meet.  All of them are subclasses of
    Python's [Exception]; [SystemExit] is not and is an outcome of its own. *)
Inductive OSErrorKind :=
  | FileNotFoundError | FileExistsError | NotADirectoryError
  | IsADirectoryError | PermissionError.

Inductive exn :=
  | OSError (kind : OSErrorKind) (path : string)
  | EOFError
  | SHError (msg : string).   (* any failure inside the sentinelhub client *)

Inductive Outcome (A : Type) :=
  | Ret (a : A)
  | Raise (e : exn)
  | SysExit (code : option Z).
Arguments Ret {A} a.
Arguments Raise {A} e.
Arguments SysExit {A} code.

(** Exit status of the interpreter: 0 when the script runs off its end,
    1 when an exception reaches the top level, and for [sys.exit(arg)]
    0 when [arg] is [None] (the default) and [arg] itself when it is an
    integer. *)
Definition exit_status {A} (o : Outcome A) : Z :=
  match o with
  | Ret _ => 0
  | Raise _ => 1
  | SysExit None => 0
  | SysExit (Some n) => n
  end.

Inductive node := Dir | File (content : string).

Abbreviation filesystem := (gmap string node).

(** [SHConfig]: the three credential fields the script assigns, and the
    remaining settings the constructor loads from the saved profile. *)
Record SHConfig := mkSHConfig {
  instance_id : string;
  sh_client_id : string;
  sh_client_secret : string;
  other_settings : list (string * string)
}.

Inductive CRS := WGS84 | POP_WEB | UTM (zone : nat) (north : bool).

Record BBox := mkBBox {
  bb_x1 : Q; bb_y1 : Q; bb_x2 : Q; bb_y2 : Q; bb_crs : CRS
}.

Inductive DataCollection :=
  | SENTINEL2_L1C | SENTINEL2_L2A | SENTINEL1 | LANDSAT_OT_L2.

Inductive MimeType := TIFF | PNG | JPG | JSON.

Inductive MosaickingOrder := MOST_RECENT | LEAST_RECENT | LEAST_CC.

(** A record of the catalog: the script reads [result['id']] and
    [result['properties']['datetime']]. *)
Record SceneRecord := mkScene {
  sc_id : string;
  sc_datetime : string;
  sc_cloud_cover : Q
}.

(** The keyword arguments of [catalog.search]. *)
Record SearchQuery := mkQuery {
  q_collection : DataCollection;
  q_bbox : BBox;
  q_time : string * string;
  q_filter : string;
  q_include : list string;
  q_exclude : list string
}.

(** [SentinelHubRequest.input_data(...)] *)
Record InputData := mkInputData {
  in_data_collection : DataCollection;
  in_time_interval : string * string;
  in_maxcc : Q;
  in_mosaicking_order : MosaickingOrder
}.

(** [SentinelHubRequest(...)] *)
Record Request := mkRequest {
  rq_data_folder : string;
  rq_evalscript : string;
  rq_input_data : list InputData;
  rq_responses : list (string * MimeType);
  rq_bbox : BBox;
  rq_size : Z * Z;
  rq_config : SHConfig
}.

(** The world the script runs in.  [fs] is the tree the script reads
    and the downloads are stored in.  The profile file of the client
    (its [config.toml]) is kept apart from it, as the configuration it
    holds: [saved_config] is what [SHConfig()] loads and what
    [config.save()] rewrites. *)
Record World := mkWorld {
  fs : filesystem;                  (* path |-> directory or file *)
  stdin : list string;              (* the lines [input()] will read *)
  saved_config : SHConfig;          (* the content of the profile file *)
  save_failure : option exn         (* why [config.save()] fails, if it does *)
}.

(** The sentinelhub client and the remote service behind it. *)
Record Env := mkEnv {
  catalog_get_info : SHConfig -> exn + string;
  catalog_search : SHConfig -> SearchQuery -> exn + list SceneRecord;
  bbox_to_dimensions : BBox -> Z -> exn + Z * Z;
  (* what building the request answers: [inl e] when
     [SentinelHubRequest.input_data] or the [SentinelHubRequest]
     constructor raises [e] for these arguments (a time interval that
     does not parse, for one) *)
  accept_request : Request -> exn + unit;
  (* the entries (folders and files, named relative to the request's
     data folder) that [get_data(save_data=True)] stores, in order *)
  process : Request -> exn + list (string * node)
}.

(** What the script prints. *)
Inductive Printed :=
  | PStr (s : string)
  | PParameters (instance client secret : string)   (* pprint.pformat(parameters) *)
  | PExn (e : exn)
  | PInfo (info : string)
  | PTotal (label : string) (n : nat)
  | PScene (r : SceneRecord)
  | PSize (size : Z * Z).

(** Observable actions, in program order. *)
Inductive Event :=
  | EvPrint (p : Printed)
  | EvInput (prompt : string) (answer : option string)   (* None: end of input *)
  | EvOpen (path mode : string)
  | EvConfigSave (c : SHConfig)
  | EvCatalogInfo (c : SHConfig)
  | EvCatalogSearch (c : SHConfig) (q : SearchQuery)
  | EvDownloadCall (id date : string)      (* entry into download_data *)
  | EvMkdir (path : string) (err : option OSErrorKind)
  | EvRequest (r : Request)
  | EvGetData (r : Request)
  | EvWrite (path : string).

(** An event together with the file system it happened in. *)
Record Obs := mkObs { at_fs : filesystem; ev : Event }.

(** ** The monad: state, exceptions and a trace *)

Record Res (A : Type) := mkRes {
  outcome : Outcome A;
  world : World;
  log : list Obs
}.
Arguments mkRes {A} outcome world log.
Arguments outcome {A} r.
Arguments world {A} r.
Arguments log {A} r.

Definition M (A : Type) : Type := World -> Res A.

Definition ret {A} (a : A) : M A := fun w => mkRes (Ret a) w [].

Definition bind {A B} (m : M A) (k : A -> M B) : M B :=
  fun w =>
    let r := m w in
    match outcome r with
    | Ret a => let r' := k a (world r) in
               mkRes (outcome r') (world r') (log r ++ log r')
    | Raise e => mkRes (Raise e) (world r) (log r)
    | SysExit c => mkRes (SysExit c) (world r) (log r)
    end.

Declare Scope py_scope.
Delimit Scope py_scope with py.
Notation "x <- m ;; k" := (bind m (fun x => k))
  (at level 100, m at next level, right associativity) : py_scope.
Notation "m ;;; k" := (bind m (fun _ => k))
  (at level 100, right associativity) : py_scope.
Local Open Scope py_scope.

Definition raise {A} (e : exn) : M A := fun w => mkRes (Raise e) w [].

(** [sys.exit(code)] raises [SystemExit]. *)
Definition sys_exit {A} (code : option Z) : M A := fun w => mkRes (SysExit code) w [].

Definition emit (e : Event) : M unit :=
  fun w => mkRes (Ret tt) w [mkObs (fs w) e].

Definition print (p : Printed) : M unit := emit (EvPrint p).

(** [try: body except Exception as e: handler(e)].  [SystemExit] is not
    an [Exception] and passes through. *)
Definition try_except {A} (body : M A) (handler : exn -> M A) : M A :=
  fun w =>
    let r := body w in
    match outcome r with
    | Raise e => let r' := handler e (world r) in
                 mkRes (outcome r') (world r') (log r ++ log r')
    | _ => r
    end.

(** Lifting a result of the client library. *)
Definition lift_lib {A} (r : exn + A) : M A :=
  match r with inl e => raise e | inr a => ret a end.

(** [input(prompt)]: writes the prompt, reads one line without its line
    feed; [EOFError] at end of input. *)
Definition input (prompt : string) : M string :=
  fun w =>
    match stdin w with
    | [] => mkRes (Raise EOFError) w [mkObs (fs w) (EvInput prompt None)]
    | a :: rest =>
        mkRes (Ret a) (mkWorld (fs w) rest (saved_config w) (save_failure w))
              [mkObs (fs w) (EvInput prompt (Some a))]
    end.

(** ** The file system calls *)

Module Os.

(** [os.path.exists] *)
Definition path_exists (f : filesystem) (p : string) : bool :=
  match f !! p with Some _ => true | None => false end.

Definition isdir (f : filesystem) (p : string) : bool :=
  match f !! p with Some Dir => true | _ => false end.

Definition isfile (f : filesystem) (p : string) : bool :=
  match f !! p with Some (File _) => true | _ => false end.

(** The text before the last separator, [None] when there is none. *)
Fixpoint head_of (p : string) : option string :=
  match p with
  | EmptyString => None
  | String c p' =>
      match head_of p' with
      | Some h => Some (String c h)
      | None => if Ascii.eqb c PyStr.slash then Some EmptyString else None
      end
  end.

Fixpoint rstrip_sep (s : string) : string :=
  match s with
  | EmptyString => EmptyString
  | String c s' =>
      let r := rstrip_sep s' in
      if Ascii.eqb c PyStr.slash && PyStr.is_empty r then EmptyString
      else String c r
  end.

(** [os.path.dirname] of posixpath: the head keeps its separators only
    when it consists of nothing else. *)
Definition dirname (p : string) : string :=
  match head_of p with
  | None => EmptyString
  | Some h => let h' := h +:+ "/" in
              if PyStr.is_empty (rstrip_sep h') then h' else rstrip_sep h'
  end.

(** The directory an entry is created in must exist; the empty
    directory name stands for the current directory. *)
Definition parent_check (f : filesystem) (p : string) : option OSErrorKind :=
  let d := dirname p in
  if PyStr.is_empty d then None
  else match f !! d with
       | Some Dir => None
       | Some (File _) => Some NotADirectoryError
       | None => Some FileNotFoundError
       end.

(** [os.mkdir] on the tree, with the failures the tree decides: the name
    is taken, the parent is missing, the parent is a regular file.
    Paths are the strings the script builds, compared as written; a
    refusal for another reason (permissions, a name the system does not
    take) has no counterpart here. *)
Definition mkdir_fs (f : filesystem) (p : string) : OSErrorKind + filesystem :=
  match f !! p with
  | Some _ => inl FileExistsError
  | None =>
      match parent_check f p with
      | Some k => inl k
      | None => inr (<[p := Dir]> f)
      end
  end.

Definition set_fs (w : World) (f : filesystem) : World :=
  mkWorld f (stdin w) (saved_config w) (save_failure w).

(** [os.mkdir(p)] *)
Definition mkdir (p : string) : M unit :=
  fun w =>
    match mkdir_fs (fs w) p with
    | inl k => mkRes (Raise (OSError k p)) w [mkObs (fs w) (EvMkdir p (Some k))]
    | inr f' => mkRes (Ret tt) (set_fs w f') [mkObs (fs w) (EvMkdir p None)]
    end.

(** [os.path.exists(p)] as a step of the script. *)
Definition exists_ (p : string) : M bool :=
  fun w => mkRes (Ret (path_exists (fs w) p)) w [].

(** [open(p, "r+")]: the text of an existing regular file. *)
Definition open_rw (p : string) : M string :=
  fun w =>
    let o := [mkObs (fs w) (EvOpen p "r+")] in
    match fs w !! p with
    | Some (File c) => mkRes (Ret c) w o
    | Some Dir => mkRes (Raise (OSError IsADirectoryError p)) w o
    | None => mkRes (Raise (OSError FileNotFoundError p)) w o
    end.

Definition under (top p : string) : bool :=
  String.prefix (if PyStr.endswith_sep top then top else top +:+ "/") p.

(** The regular files [os.walk(top)] reaches, each as
    [os.path.join(folder, filename)]; they come in the order of the
    map, which need not be the order [os.walk] visits them in. *)
Definition walk_files (f : filesystem) (top : string) : list string :=
  if isdir f top
  then List.filter (fun p => isfile f p && under top p) (map fst (map_to_list f))
  else [].

End Os.

(** ** The script *)

Definition dq : string := String "034"%char EmptyString.
Definition nl_str : string := String PyStr.nl EmptyString.

(** The triple-quoted literal of [download_data], line by line. *)
Definition evalscript_all_bands : string :=
  String.concat nl_str
    [ "";
      "        //VERSION=3";
      "        function setup() {";
      "            return {";
      "                input: [{";
      "                    bands: [" +:+ dq +:+ "B02" +:+ dq +:+ "," +:+ dq +:+ "B03" +:+ dq
        +:+ "," +:+ dq +:+ "B04" +:+ dq +:+ "],";
      "                    units: " +:+ dq +:+ "DN" +:+ dq;
      "                }],";
      "                output: {";
      "                    bands: 3,";
      "                    sampleType: " +:+ dq +:+ "INT16" +:+ dq;
      "                }";
      "            };";
      "        }";
      "";
      "        function evaluatePixel(sample) {";
      "            return [sample.B02,";
      "                    sample.B03,";
      "                    sample.B04];";
      "        }";
      "    " ].

(** [for x in l: body(x)] *)
Fixpoint for_each {A} (l : list A) (body : A -> M unit) : M unit :=
  match l with
  | [] => ret tt
  | x :: l' => body x;;; for_each l' body
  end.

(** [SHConfig()]: the constructor loads the saved profile. *)
Definition SHConfig_new : M SHConfig :=
  fun w => mkRes (Ret (saved_config w)) w [].

(** [config.save()]: the profile file is rewritten with [c], or the
    call fails; no entry of [fs] is involved. *)
Definition config_save (c : SHConfig) : M unit :=
  fun w =>
    let o := [mkObs (fs w) (EvConfigSave c)] in
    match save_failure w with
    | Some e => mkRes (Raise e) w o
    | None => mkRes (Ret tt) (mkWorld (fs w) (stdin w) c (save_failure w)) o
    end.

Definition set_instance_id (c : SHConfig) (v : string) : SHConfig :=
  mkSHConfig v (sh_client_id c) (sh_client_secret c) (other_settings c).
Definition set_sh_client_id (c : SHConfig) (v : string) : SHConfig :=
  mkSHConfig (instance_id c) v (sh_client_secret c) (other_settings c).
Definition set_sh_client_secret (c : SHConfig) (v : string) : SHConfig :=
  mkSHConfig (instance_id c) (sh_client_id c) v (other_settings c).

(** Lines 72-76: the three [readline().strip()] of the [parameters] dict,
    evaluated in the order they are written. *)
Definition read_parameters (file : string) : string * string * string :=
  let '(l1, file) := PyStr.readline file in
  let '(l2, file) := PyStr.readline file in
  let '(l3, file) := PyStr.readline file in
  (PyStr.strip l1, PyStr.strip l2, PyStr.strip l3).

(** Lines 78-98 of [authenticate]: what it does with the three fields
    once they are read. *)
Definition authenticate_with (p_instance_id p_client_id p_client_secret : string)
  : M SHConfig :=
  print (PParameters p_instance_id p_client_id p_client_secret);;;
  config <- SHConfig_new;;
  let config := set_instance_id config p_instance_id in
  let config := set_sh_client_id config p_client_id in
  let config := set_sh_client_secret config p_client_secret in
  config_save config;;;
  if PyStr.is_empty (sh_client_id config) || PyStr.is_empty (sh_client_secret config)
  then
    print (PStr "ATTENTION! To use SentinelHub API, you need to provide an OAuth client ID and client secret.");;;
    v1 <- input "OAuth instance ID: ";;
    let config := set_instance_id config v1 in
    v2 <- input "OAuth client ID: ";;
    let config := set_sh_client_id config v2 in
    v3 <- input "OAuth client secret: ";;
    let config := set_sh_client_secret config v3 in
    ret config
  else ret config.

(** [authenticate(file)]; [file] is the text the stream still holds. *)
Definition authenticate (file : string) : M SHConfig :=
  let '(p_instance_id, p_client_id, p_client_secret) := read_parameters file in
  authenticate_with p_instance_id p_client_id p_client_secret.

(** One entry stored by the client under the data folder: folders are
    made if absent, files are created or overwritten. *)
Definition store (folder : string) (entry : string * node) : M unit :=
  fun w =>
    let p := PyStr.os_path_join folder (fst entry) in
    let o := [mkObs (fs w) (EvWrite p)] in
    match Os.parent_check (fs w) p with
    | Some k => mkRes (Raise (OSError k p)) w o
    | None =>
        match snd entry, fs w !! p with
        | Dir, Some Dir => mkRes (Ret tt) w o
        | Dir, Some (File _) => mkRes (Raise (OSError FileExistsError p)) w o
        | Dir, None => mkRes (Ret tt) (Os.set_fs w (<[p := Dir]> (fs w))) o
        | File _, Some Dir => mkRes (Raise (OSError IsADirectoryError p)) w o
        | File c, _ => mkRes (Ret tt) (Os.set_fs w (<[p := File c]> (fs w))) o
        end
    end.

Definition accept_token (keep_it : string) : bool :=
  String.eqb keep_it "yes" || String.eqb keep_it "y"
  || String.eqb keep_it "oui" || String.eqb keep_it "o".

Definition abort_token (keep_it : string) : bool :=
  String.eqb keep_it "exit" || String.eqb keep_it "e".

Section Script.

Context (env : Env).

(** [get_catalog_info(config)] *)
Definition get_catalog_info (config : SHConfig) : M unit :=
  emit (EvCatalogInfo config);;;
  info <- lift_lib (catalog_get_info env config);;
  print (PInfo info).

(** The query [search_data] builds. *)
Definition search_query (bbox : BBox) (time_interval : string * string) : SearchQuery :=
  mkQuery SENTINEL2_L2A bbox time_interval
          "eo:cloud_cover < 2"
          ["id"; "properties.datetime"; "properties.eo:cloud_cover"] [].

(** [search_data(bbox, time_interval, config)]: [list(search_iterator)]
    drains the iterator, so the remote answer is taken whole. *)
Definition search_data (bbox : BBox) (time_interval : string * string)
           (config : SHConfig) : M (list SceneRecord) :=
  let q := search_query bbox time_interval in
  emit (EvCatalogSearch config q);;;
  result_search <- lift_lib (catalog_search env config q);;
  ret result_search.

(** [request.get_data(save_data=True)] *)
Definition get_data (r : Request) : M unit :=
  emit (EvGetData r);;;
  entries <- lift_lib (process env r);;
  for_each entries (store (rq_data_folder r)).

(** Lines 136-142. *)
Definition make_folders (path id : string) : M string :=
  e1 <- Os.exists_ (PyStr.os_path_join path "data");;
  (if negb e1 then Os.mkdir (PyStr.os_path_join path "data") else ret tt);;;
  e2 <- Os.exists_ (PyStr.os_path_join (PyStr.os_path_join path "data") id);;
  (if negb e2 then Os.mkdir (PyStr.os_path_join (PyStr.os_path_join path "data") id)
   else ret tt);;;
  ret (PyStr.os_path_join (PyStr.os_path_join path "data") id).

(** The arguments of the [SentinelHubRequest] of lines 172-187. *)
Definition build_request (config : SHConfig) (data_folder : string) (bbox : BBox)
           (new_date : string) (size : Z * Z) : Request :=
  mkRequest data_folder evalscript_all_bands
            [mkInputData SENTINEL2_L2A (new_date, new_date) 0.2 LEAST_CC]
            [("default", TIFF)]
            bbox size config.

(** Lines 144-198: the size, the request, the download and the listing
    of what was stored.  The request exists once the client has accepted
    its arguments. *)
Definition request_and_save (config : SHConfig) (data_folder : string) (bbox : BBox)
           (new_date : string) : M unit :=
  size <- lift_lib (bbox_to_dimensions env bbox 10);;
  print (PSize size);;;
  let request_all_bands := build_request config data_folder bbox new_date size in
  lift_lib (accept_request env request_all_bands);;;
  emit (EvRequest request_all_bands);;;
  get_data request_all_bands;;;
  print (PStr ("An output folder has been created, and a TIFF file with 13 bands has been created with the following format:" +:+ nl_str));;;
  fun w => for_each (Os.walk_files (fs w) (rq_data_folder request_all_bands))
                    (fun p => print (PStr p)) w.

(** [download_data(config, path, id, bbox, new_date)] *)
Definition download_data (config : SHConfig) (path id : string) (bbox : BBox)
           (new_date : string) : M unit :=
  emit (EvDownloadCall id new_date);;;
  data_folder <- make_folders path id;;
  request_and_save config data_folder bbox new_date.

(** The body of the selection loop, lines 225-233. *)
Definition select_scene (config : SHConfig) (path : string) (bbox : BBox)
           (result : SceneRecord) : M unit :=
  print (PScene result);;;
  keep_it <- input "Do you want to keep it? (yes/no/exit) ";;
  (if accept_token keep_it
   then let id := sc_id result in
        let new_date := PyStr.slice_to 10 (sc_datetime result) in
        download_data config path id bbox new_date
   else ret tt);;;
  (if abort_token keep_it then sys_exit None else ret tt).

(** The [__main__] block.  [your_path] and the four coordinates are the
    names the script leaves for its user to fill in. *)
Definition main (your_path : string) (x_min y_min x_max y_max : Q) : M unit :=
  let path := your_path in
  let path_txt := PyStr.os_path_join path "parameters.txt" in
  config <- try_except
              (file <- Os.open_rw path_txt;; authenticate file)
              (fun e => print (PExn e);;; sys_exit None);;
  get_catalog_info config;;;
  let bbox := mkBBox x_min y_min x_max y_max WGS84 in
  let time_interval := ("first-date", "second-date") in
  result_search <- search_data bbox time_interval config;;
  print (PTotal "Total number of results: " (length result_search));;;
  for_each result_search (select_scene config path bbox).

End Script.

(** ** Reading the trace *)

Definition events {A} (r : Res A) : list Event := map ev (log r).

Definition is_request (e : Event) : bool :=
  match e with EvRequest _ => true | _ => false end.
Definition is_get_data (e : Event) : bool :=
  match e with EvGetData _ => true | _ => false end.
Definition is_write (e : Event) : bool :=
  match e with EvWrite _ => true | _ => false end.
Definition is_mkdir (e : Event) : bool :=
  match e with EvMkdir _ _ => true | _ => false end.
Definition is_prompt (e : Event) : bool :=
  match e with EvInput _ _ => true | _ => false end.
Definition is_download_call (e : Event) : bool :=
  match e with EvDownloadCall _ _ => true | _ => false end.
Definition is_search (e : Event) : bool :=
  match e with EvCatalogSearch _ _ => true | _ => false end.
Definition is_config_save (e : Event) : bool :=
  match e with EvConfigSave _ => true | _ => false end.

Definition count (p : Event -> bool) (l : list Event) : nat :=
  length (List.filter p l).

(** The scene ids [download_data] was entered with, in order. *)
Fixpoint download_calls (l : list Event) : list string :=
  match l with
  | [] => []
  | EvDownloadCall id _ :: l' => id :: download_calls l'
  | _ :: l' => download_calls l'
  end.

(** A reading of the filter text [name < digits] the catalog receives:
    the property compared and the bound. *)
Fixpoint digits_value (acc : N) (s : string) : option N :=
  match s with
  | EmptyString => Some acc
  | String c s' =>
      let n := N_of_ascii c in
      if ((48 <=? n) && (n <=? 57))%N then digits_value (acc * 10 + (n - 48))%N s'
      else None
  end.

Fixpoint cql_less_than (s : string) : option (string * N) :=
  match s with
  | EmptyString => None
  | String c s' =>
      if String.prefix " < " s
      then match substring 3 (String.length s - 3) s with
           | EmptyString => None
           | ds => option_map (fun n => (EmptyString, n)) (digits_value 0 ds)
           end
      else option_map (fun '(name, n) => (String c name, n)) (cql_less_than s')
  end.

(** The [bands] array of the script's [input] section. *)
Fixpoint after (marker s : string) : option string :=
  match s with
  | EmptyString => None
  | String _ s' =>
      if String.prefix marker s
      then Some (substring (String.length marker) (String.length s - String.length marker) s)
      else after marker s'
  end.

Fixpoint until (c : ascii) (s : string) : string :=
  match s with
  | EmptyString => EmptyString
  | String d s' => if Ascii.eqb c d then EmptyString else String d (until c s')
  end.

Fixpoint split_on (c : ascii) (cur s : string) : list string :=
  match s with
  | EmptyString => [cur]
  | String d s' =>
      if Ascii.eqb c d then cur :: split_on c EmptyString s'
      else split_on c (cur +:+ String d EmptyString) s'
  end.

Definition unquote (s : string) : string :=
  match s with
  | String q s' =>
      if Ascii.eqb q "034"%char
      then substring 0 (String.length s' - 1) s'
      else s
  | EmptyString => EmptyString
  end.

Definition evalscript_input_bands (script : string) : option (list string) :=
  option_map (fun s => map unquote (split_on ","%char EmptyString (until "]"%char s)))
             (after "bands: [" script).

Definition evalscript_sample_type (script : string) : option string :=
  option_map (fun s => unquote (until PyStr.nl s)) (after "sampleType: " script).

(** * The vocabulary of the statements *)

(** The two ends of a string, and strings made of white space only. *)
Definition first_char (s : string) : option ascii :=
  match s with String c _ => Some c | EmptyString => None end.

Fixpoint last_char (s : string) : option ascii :=
  match s with
  | EmptyString => None
  | String c EmptyString => Some c
  | String _ s' => last_char s'
  end.

Fixpoint all_space (s : string) : bool :=
  match s with
  | EmptyString => true
  | String c s' => PyStr.isspace c && all_space s'
  end.

(** The result of a continuation, with the events that came before it. *)
Definition prepend {A} (l : list Obs) (r : Res A) : Res A :=
  mkRes (outcome r) (world r) (l ++ log r).

(** A computation whose file systems stay [R]-related to the initial
    one and whose events all satisfy [P]. *)
Definition respects (R : filesystem -> filesystem -> Prop) (P : Event -> Prop)
           {A} (m : M A) : Prop :=
  forall w,
    R (fs w) (fs (world (m w)))
    /\ Forall (fun o => R (fs w) (at_fs o) /\ P (ev o)) (log (m w)).

(** Entries are never removed and directories stay directories. *)
Definition fs_grows (f f' : filesystem) : Prop :=
  forall q, (Os.path_exists f q = true -> Os.path_exists f' q = true)
            /\ (Os.isdir f q = true -> Os.isdir f' q = true).

(** No regular file appears. *)
Definition files_kept (f f' : filesystem) : Prop :=
  forall q, Os.isfile f' q = true -> Os.isfile f q = true.

(** The events of [download_data] after the folders are made: no
    [mkdir], no second entry, no prompt. *)
Definition transfer_event (e : Event) : Prop :=
  is_mkdir e = false /\ is_download_call e = false /\ is_prompt e = false.

(** The guarded creation the script performs for each of the two levels. *)
Definition ensure (p : string) : M unit :=
  e <- Os.exists_ p;; if negb e then Os.mkdir p else ret tt.

(** The three ways the guarded creation can go. *)
Inductive ensure_case (p : string) (w : World) : Res unit -> Prop :=
  | ensure_present :
      Os.path_exists (fs w) p = true ->
      ensure_case p w (mkRes (Ret tt) w [])
  | ensure_made :
      fs w !! p = None -> Os.parent_check (fs w) p = None ->
      ensure_case p w (mkRes (Ret tt) (Os.set_fs w (<[p := Dir]> (fs w)))
                             [mkObs (fs w) (EvMkdir p None)])
  | ensure_failed k :
      fs w !! p = None -> Os.parent_check (fs w) p = Some k ->
      ensure_case p w (mkRes (Raise (OSError k p)) w
                             [mkObs (fs w) (EvMkdir p (Some k))]).

(** A mkdir event of the script: made on a path that did not exist, and
    so never answered with [FileExistsError]. *)
Definition fresh_mkdir (o : Obs) : Prop :=
  exists p k, ev o = EvMkdir p k /\ k <> Some FileExistsError
              /\ Os.path_exists (at_fs o) p = false.

(** What is emitted while the entries are stored and listed. *)
Definition storage_event (e : Event) : Prop :=
  (exists p, e = EvWrite p) \/ (exists s, e = EvPrint (PStr s)).

(** The relation that holds of any two file systems. *)
Definition any_fs (f g : filesystem) : Prop := True.

(** The prompt of line 226. *)
Definition prompt_text : string := "Do you want to keep it? (yes/no/exit) ".

(** The two events every iteration starts with. *)
Definition asked (result : SceneRecord) (tok : string) (w : World) : list Obs :=
  [mkObs (fs w) (EvPrint (PScene result));
   mkObs (fs w) (EvInput prompt_text (Some tok))].

(** The world after the answer is read. *)
Definition answered (w : World) (rest : list string) : World :=
  mkWorld (fs w) rest (saved_config w) (save_failure w).

(** A computation that never raises [SystemExit]. *)
Definition no_exit {A} (m : M A) : Prop :=
  forall w c, outcome (m w) <> SysExit c.

(** The guarded part of [__main__]. *)
Definition attempt (path : string) : M SHConfig :=
  file <- Os.open_rw (PyStr.os_path_join path "parameters.txt");; authenticate file.

(** The last event of a trace. *)
Definition last_event (l : list Event) : option Event :=
  List.last (map Some l) None.

(** An answer to the selection prompt. *)
Definition selection_answer (e : Event) : Prop :=
  exists a, e = EvInput prompt_text a.

(** Any other event. *)
Definition not_selection_answer (e : Event) : Prop := ~ selection_answer e.

(** Why [open(path, "r+")] fails, if it does. *)
Definition open_error (f : filesystem) (p : string) : option exn :=
  match f !! p with
  | Some (File _) => None
  | Some Dir => Some (OSError IsADirectoryError p)
  | None => Some (OSError FileNotFoundError p)
  end.

Section Vocabulary.

Context (env : Env).

(** What follows the [EvGetData] event: the entries are stored, then
    the folder is listed. *)
Definition store_and_list (rq : Request) : M unit :=
  (entries <- lift_lib (process env rq);;
   for_each entries (store (rq_data_folder rq)));;;
  print (PStr ("An output folder has been created, and a TIFF file with 13 bands has been created with the following format:" +:+ nl_str));;;
  fun w => for_each (Os.walk_files (fs w) (rq_data_folder rq))
                    (fun p => print (PStr p)) w.

(** The events of [download_data] after the size is printed: none when
    the client refuses the arguments of the request. *)
Definition submitted (rq : Request) (w : World) : list Event :=
  match accept_request env rq with
  | inl _ => []
  | inr _ => EvRequest rq :: EvGetData rq :: events (store_and_list rq w)
  end.

(** What [download_data] can emit after its entry: the [mkdir]s, the
    size, the request of lines 172-187 once it is accepted, and what the
    storing and the listing emit. *)
Definition download_event (config : SHConfig) (path id : string) (bbox : BBox)
           (new_date : string) (e : Event) : Prop :=
  is_mkdir e = true
  \/ (exists size, e = EvPrint (PSize size))
  \/ (exists size,
        bbox_to_dimensions env bbox 10 = inr size
        /\ accept_request env
             (build_request config (PyStr.os_path_join (PyStr.os_path_join path "data") id)
                            bbox new_date size) = inr tt
        /\ (e = EvRequest
                  (build_request config (PyStr.os_path_join (PyStr.os_path_join path "data") id)
                                 bbox new_date size)
            \/ e = EvGetData
                     (build_request config
                                    (PyStr.os_path_join (PyStr.os_path_join path "data") id)
                                    bbox new_date size)))
  \/ storage_event e.

(** What [__main__] does once it holds a configuration. *)
Definition after_authenticate (path : string) (bbox : BBox) (config : SHConfig) : M unit :=
  get_catalog_info env config;;;
  result_search <- search_data env bbox ("first-date", "second-date") config;;
  print (PTotal "Total number of results: " (length result_search));;;
  for_each result_search (select_scene env config path bbox).

(** Every iteration of the selection loop over [rs] goes through: an
    answer is there to be read, it is no abort token, and the download
    of an accepted scene returns. *)
Fixpoint loop_returns (config : SHConfig) (path : string) (bbox : BBox)
         (rs : list SceneRecord) (w : World) : Prop :=
  match rs with
  | [] => True
  | result :: more =>
      match stdin w with
      | [] => False
      | tok :: rest =>
          abort_token tok = false
          /\ (if accept_token tok
              then let d := download_data env config path (sc_id result) bbox
                                          (PyStr.slice_to 10 (sc_datetime result))
                                          (answered w rest) in
                   outcome d = Ret tt /\ loop_returns config path bbox more (world d)
              else loop_returns config path bbox more (answered w rest))
      end
  end.

End Vocabulary.

(** ** A concrete run: two scenes over Berlin *)

Module Scenario.

Definition S1 : SceneRecord := mkScene "S1" "2023-06-01T10:20:31Z" 0.4.
Definition S2 : SceneRecord := mkScene "S2" "2023-06-11T10:20:29Z" 1.2.

Definition bbox : BBox := mkBBox 13 52 13.5 52.5 WGS84.

Definition stored : list (string * node) :=
  [("a1b2", Dir); ("a1b2/request.json", File "{}"); ("a1b2/response.tiff", File "II*")].

Definition env : Env :=
  mkEnv (fun _ => inr "catalog")
        (fun _ _ => inr [S1; S2])
        (fun _ _ => inr (3406%Z, 5567%Z))
        (fun _ => inr tt)
        (fun _ => inr stored).

Definition env_catalog_down : Env :=
  mkEnv (fun _ => inl (SHError "503"))
        (fun _ _ => inr [S1; S2])
        (fun _ _ => inr (3406%Z, 5567%Z))
        (fun _ => inr tt)
        (fun _ => inr stored).

Definition credentials : string :=
  "my-instance" +:+ nl_str +:+ " my-client-id " +:+ nl_str +:+ "my-secret" +:+ nl_str.

Definition only_instance : string := "my-instance" +:+ nl_str.

Definition no_profile : SHConfig := mkSHConfig "" "" "" [].
Definition profile : SHConfig := mkSHConfig "my-instance" "my-client-id" "my-secret" [].

Definition bare : filesystem := <["/w" := Dir]> ∅.
Definition home : filesystem := <["/w/parameters.txt" := File credentials]> bare.
Definition home_S1 : filesystem := <["/w/data/S1" := Dir]> (<["/w/data" := Dir]> home).

Definition at_home (answers : list string) : World :=
  mkWorld home answers no_profile None.
Definition without_file : World := mkWorld bare [] no_profile None.
Definition read_only_profile : World :=
  mkWorld home [] no_profile (Some (OSError PermissionError "config.toml")).

Definition run (w : World) : Res unit := main env "/w" 13 52 13.5 52.5 w.

End Scenario.

(** ** Frames, paths and selections *)

(** A computation whose final world is [R]-related to the initial one. *)
Definition steady (R : World -> World -> Prop) {A} (m : M A) : Prop :=
  forall w, R w (world (m w)).

(** Standard input and the saved profile, with its failure mode. *)
Definition io_state (w : World) : list string * SHConfig * option exn :=
  (stdin w, saved_config w, save_failure w).

(** Nothing is read and the profile is not touched. *)
Definition same_io (w w' : World) : Prop := io_state w' = io_state w.

(** The file system is left as it is. *)
Definition same_fs (w w' : World) : Prop := fs w' = fs w.

(** Nothing is removed from the file system. *)
Definition grown_fs (w w' : World) : Prop := fs_grows (fs w) (fs w').

(** The scene ids the answers select, in order: an accept token selects
    the record, an abort token ends the selection, the end of the answers
    too. *)
Fixpoint accepted_ids (rs : list SceneRecord) (answers : list string) : list string :=
  match rs, answers with
  | r :: rs', a :: answers' =>
      if accept_token a then sc_id r :: accepted_ids rs' answers'
      else if abort_token a then []
      else accepted_ids rs' answers'
  | _, _ => []
  end.

(** A single path component: no separator in it. *)
Fixpoint no_slash (s : string) : bool :=
  match s with
  | EmptyString => true
  | String c s' => negb (Ascii.eqb c PyStr.slash) && no_slash s'
  end.

(** A root the script can append to with a separator: not empty and not
    ending in one. *)
Definition plain_root (path : string) : bool :=
  negb (PyStr.is_empty path) && negb (PyStr.endswith_sep path).

(** Why nothing can be created inside [path]: it is absent, or not a
    directory. *)
Definition root_error (f : filesystem) (path : string) : option OSErrorKind :=
  match f !! path with
  | Some Dir => None
  | Some (File _) => Some NotADirectoryError
  | None => Some FileNotFoundError
  end.

(** A credential field as the loader leaves it: on one line, with no
    white space at either end. *)
Definition clean (s : string) : Prop :=
  PyStr.no_newline s = true
  /\ (forall c, first_char s = Some c -> PyStr.isspace c = false)
  /\ (forall c, last_char s = Some c -> PyStr.isspace c = false).

(** The saved profile is not touched. *)
Definition same_profile (w w' : World) : Prop := saved_config w' = saved_config w.

(** The events [authenticate] and the opening of the file can emit. *)
Definition credential_event (e : Event) : Prop :=
  match e with
  | EvOpen _ _ | EvPrint _ | EvConfigSave _ | EvInput _ _ => True
  | _ => False
  end.

(** An event that carries a configuration or a bounding box to the
    client carries these ones. *)
Definition uses (config : SHConfig) (bbox : BBox) (e : Event) : Prop :=
  match e with
  | EvCatalogInfo c => c = config
  | EvCatalogSearch c q => c = config /\ q_bbox q = bbox
  | EvRequest rq | EvGetData rq => rq_config rq = config /\ rq_bbox rq = bbox
  | _ => True
  end.

(** ** Further concrete worlds *)

Module Edge.

Definition env_nothing_found : Env :=
  mkEnv (fun _ => inr "catalog")
        (fun _ _ => inr [])
        (fun _ _ => inr (3406%Z, 5567%Z))
        (fun _ => inr tt)
        (fun _ => inr Scenario.stored).

(** A client that refuses a time interval whose ends are not ten
    characters long, and a scene whose record has no [datetime]. *)
Definition env_strict_dates : Env :=
  mkEnv (fun _ => inr "catalog")
        (fun _ _ => inr [Scenario.S1])
        (fun _ _ => inr (3406%Z, 5567%Z))
        (fun rq =>
           if forallb (fun i => (String.length (fst (in_time_interval i)) =? 10)%nat
                                && (String.length (snd (in_time_interval i)) =? 10)%nat)
                      (rq_input_data rq)
           then inr tt
           else inl (SHError "time_interval"))
        (fun _ => inr Scenario.stored).

Definition undated : SceneRecord := mkScene "S3" "" 0.1.

(** A credential file that stops after the instance id. *)
Definition home_short : filesystem :=
  <["/w/parameters.txt" := File Scenario.only_instance]> Scenario.bare.

Definition at_home_short (answers : list string) : World :=
  mkWorld home_short answers Scenario.no_profile None.

(** A second directory, outside the root of the run. *)
Definition with_tmp (answers : list string) : World :=
  mkWorld (<["/tmp" := Dir]> Scenario.home) answers Scenario.no_profile None.

End Edge.

(** * Properties *)

(** ** The model on concrete inputs *)

Example strip_ex : PyStr.strip "  ab c  " = "ab c".
Proof. reflexivity. Qed.

Example join_ex : PyStr.os_path_join (PyStr.os_path_join "/home/u" "data") "S1" = "/home/u/data/S1".
Proof. reflexivity. Qed.

Example slice_ex : PyStr.slice_to 10 "2023-06-01T10:20:31Z" = "2023-06-01"
                   /\ PyStr.slice_to 10 "2023" = "2023".
Proof. split; reflexivity. Qed.

Example dirname_ex :
  Os.dirname "/home/u/data" = "/home/u" /\ Os.dirname "/data" = "/"
  /\ Os.dirname "data" = "" /\ Os.dirname "a//b" = "a".
Proof. repeat split; reflexivity. Qed.

Example cql_ex : cql_less_than "eo:cloud_cover < 2" = Some ("eo:cloud_cover", 2%N).
Proof. reflexivity. Qed.

Example bands_ex :
  evalscript_input_bands evalscript_all_bands = Some ["B02"; "B03"; "B04"]
  /\ evalscript_sample_type evalscript_all_bands = Some "INT16".
Proof. split; reflexivity. Qed.

(** ** Text streams and trimming *)

Lemma readline_terminated (l rest : string) :
  PyStr.no_newline l = true ->
  PyStr.readline (l +:+ String PyStr.nl rest) = (l +:+ nl_str, rest).
Proof.
  induction l as [|c l IH]; simpl; intros H.
  - reflexivity.
  - apply andb_prop in H as [Hc Hl].
    apply negb_true_iff in Hc. rewrite Hc, (IH Hl). reflexivity.
Qed.

Lemma readline_unterminated (l : string) :
  PyStr.no_newline l = true -> PyStr.readline l = (l, EmptyString).
Proof.
  induction l as [|c l IH]; simpl; intros H.
  - reflexivity.
  - apply andb_prop in H as [Hc Hl].
    apply negb_true_iff in Hc. rewrite Hc, (IH Hl). reflexivity.
Qed.

Lemma rstrip_line_feed (s : string) :
  PyStr.rstrip (s +:+ nl_str) = PyStr.rstrip s.
Proof.
  induction s as [|c s IH]; simpl.
  - reflexivity.
  - rewrite IH. reflexivity.
Qed.

Lemma strip_line_feed (l : string) :
  PyStr.strip (l +:+ nl_str) = PyStr.strip l.
Proof.
  unfold PyStr.strip.
  induction l as [|c l IH].
  - reflexivity.
  - change (String c l +:+ nl_str) with (String c (l +:+ nl_str)).
    cbn [PyStr.lstrip].
    destruct (PyStr.isspace c).
    + exact IH.
    + apply (rstrip_line_feed (String c l)).
Qed.

Lemma lstrip_first (s : string) (c : ascii) :
  first_char (PyStr.lstrip s) = Some c -> PyStr.isspace c = false.
Proof.
  induction s as [|d s IH]; simpl; intros H.
  - discriminate.
  - destruct (PyStr.isspace d) eqn:Hd.
    + exact (IH H).
    + simpl in H. injection H as <-. exact Hd.
Qed.

Lemma rstrip_first (s : string) (c : ascii) :
  first_char (PyStr.rstrip s) = Some c -> first_char s = Some c.
Proof.
  destruct s as [|d s]; simpl; [discriminate|].
  destruct (PyStr.isspace d && PyStr.is_empty (PyStr.rstrip s)); simpl; [discriminate|].
  exact (fun H => H).
Qed.

Lemma rstrip_last (s : string) (c : ascii) :
  last_char (PyStr.rstrip s) = Some c -> PyStr.isspace c = false.
Proof.
  induction s as [|d s IH]; simpl; intros H.
  - discriminate.
  - destruct (PyStr.rstrip s) as [|e r] eqn:Hr.
    + rewrite andb_true_r in H. destruct (PyStr.isspace d) eqn:Hd; simpl in H.
      * discriminate.
      * injection H as <-. exact Hd.
    + rewrite andb_false_r in H. apply IH. exact H.
Qed.

Lemma strip_trimmed (s : string) :
  (forall c, first_char (PyStr.strip s) = Some c -> PyStr.isspace c = false)
  /\ (forall c, last_char (PyStr.strip s) = Some c -> PyStr.isspace c = false).
Proof.
  unfold PyStr.strip. split; intros c H.
  - apply (lstrip_first s), rstrip_first, H.
  - apply (rstrip_last _ _ H).
Qed.

Lemma lstrip_decompose (s : string) :
  exists a, s = a +:+ PyStr.lstrip s /\ all_space a = true.
Proof.
  induction s as [|c s [a [Ha Hs]]]; simpl.
  - exists EmptyString. split; reflexivity.
  - destruct (PyStr.isspace c) eqn:Hc.
    + exists (String c a). simpl. rewrite Hc, Hs.
      split; [exact (f_equal (String c) Ha) | reflexivity].
    + exists EmptyString. split; reflexivity.
Qed.

Lemma rstrip_decompose (s : string) :
  exists b, s = PyStr.rstrip s +:+ b /\ all_space b = true.
Proof.
  induction s as [|c s [b [Hb Hs]]]; simpl.
  - exists EmptyString. split; reflexivity.
  - destruct (PyStr.isspace c && PyStr.is_empty (PyStr.rstrip s)) eqn:Hc.
    + apply andb_prop in Hc as [Hc He].
      destruct (PyStr.rstrip s); [|discriminate].
      change (s = b) in Hb. subst b.
      exists (String c s). simpl. rewrite Hc, Hs. split; reflexivity.
    + exists b. split; [exact (f_equal (String c) Hb) | exact Hs].
Qed.

(** [strip] removes white space only, and only at the two ends. *)
Lemma strip_decompose (s : string) :
  exists a b, s = a +:+ PyStr.strip s +:+ b /\ all_space a = true /\ all_space b = true.
Proof.
  destruct (lstrip_decompose s) as [a [Ha Hsa]].
  destruct (rstrip_decompose (PyStr.lstrip s)) as [b [Hb Hsb]].
  exists a, b. unfold PyStr.strip. rewrite <- Hb, <- Ha. auto.
Qed.

(** ** Running a sequence step by step *)

Lemma bind_unfold {A B} (m : M A) (k : A -> M B) (w : World) :
  bind m k w
  = match outcome (m w) with
    | Ret a => prepend (log (m w)) (k a (world (m w)))
    | Raise e => mkRes (Raise e) (world (m w)) (log (m w))
    | SysExit c => mkRes (SysExit c) (world (m w)) (log (m w))
    end.
Proof. reflexivity. Qed.

Lemma bind_ret_step {A B} (m : M A) (k : A -> M B) (w w' : World) (a : A) (l : list Obs) :
  m w = mkRes (Ret a) w' l -> bind m k w = prepend l (k a w').
Proof. intros H. rewrite bind_unfold, H. reflexivity. Qed.

Lemma bind_raise_step {A B} (m : M A) (k : A -> M B) (w w' : World) (e : exn) (l : list Obs) :
  m w = mkRes (Raise e) w' l -> bind m k w = mkRes (Raise e) w' l.
Proof. intros H. rewrite bind_unfold, H. reflexivity. Qed.

Lemma bind_exit_step {A B} (m : M A) (k : A -> M B) (w w' : World) (c : option Z) (l : list Obs) :
  m w = mkRes (SysExit c) w' l -> bind m k w = mkRes (SysExit c) w' l.
Proof. intros H. rewrite bind_unfold, H. reflexivity. Qed.

Lemma bind_emit {B} (e : Event) (k : unit -> M B) (w : World) :
  bind (emit e) k w = prepend [mkObs (fs w) e] (k tt w).
Proof. reflexivity. Qed.

Lemma bind_print {B} (p : Printed) (k : unit -> M B) (w : World) :
  bind (print p) k w = prepend [mkObs (fs w) (EvPrint p)] (k tt w).
Proof. reflexivity. Qed.

Lemma bind_ret {A B} (a : A) (k : A -> M B) (w : World) :
  bind (ret a) k w = prepend [] (k a w).
Proof. reflexivity. Qed.

Lemma bind_input {B} (prompt : string) (k : string -> M B) (w : World) (a : string) (rest : list string) :
  stdin w = a :: rest ->
  bind (input prompt) k w
  = prepend [mkObs (fs w) (EvInput prompt (Some a))]
            (k a (mkWorld (fs w) rest (saved_config w) (save_failure w))).
Proof. intros H. unfold bind, input. rewrite H. reflexivity. Qed.

Lemma bind_input_eof {B} (prompt : string) (k : string -> M B) (w : World) :
  stdin w = [] ->
  bind (input prompt) k w
  = mkRes (Raise EOFError) w [mkObs (fs w) (EvInput prompt None)].
Proof. intros H. unfold bind, input. rewrite H. reflexivity. Qed.

Lemma outcome_prepend {A} (l : list Obs) (r : Res A) : outcome (prepend l r) = outcome r.
Proof. reflexivity. Qed.

Lemma world_prepend {A} (l : list Obs) (r : Res A) : world (prepend l r) = world r.
Proof. reflexivity. Qed.

Lemma log_prepend {A} (l : list Obs) (r : Res A) : log (prepend l r) = l ++ log r.
Proof. reflexivity. Qed.

Lemma events_prepend {A} (l : list Obs) (r : Res A) :
  events (prepend l r) = map ev l ++ events r.
Proof. apply map_app. Qed.

(** ** authenticate *)

Lemma read_parameters_lines (l1 l2 l3 tail : string) :
  PyStr.no_newline l1 = true -> PyStr.no_newline l2 = true ->
  PyStr.no_newline l3 = true ->
  tail = EmptyString \/ (exists rest, tail = String PyStr.nl rest) ->
  read_parameters (l1 +:+ nl_str +:+ l2 +:+ nl_str +:+ l3 +:+ tail)
  = (PyStr.strip l1, PyStr.strip l2, PyStr.strip l3).
Proof.
  intros H1 H2 H3 Ht. unfold read_parameters, nl_str.
  change (l1 +:+ String PyStr.nl EmptyString +:+ l2 +:+ String PyStr.nl EmptyString +:+ l3 +:+ tail)
    with (l1 +:+ String PyStr.nl (l2 +:+ String PyStr.nl (l3 +:+ tail))).
  rewrite (readline_terminated l1 _ H1), (readline_terminated l2 _ H2).
  rewrite !strip_line_feed.
  destruct Ht as [-> | [rest ->]].
  - replace (l3 +:+ EmptyString) with l3
      by (clear; induction l3 as [|c l IH]; [reflexivity | exact (f_equal (String c) IH)]).
    rewrite (readline_unterminated l3 H3). reflexivity.
  - rewrite (readline_terminated l3 _ H3), strip_line_feed. reflexivity.
Qed.

Lemma authenticate_unfold (file a b c : string) :
  read_parameters file = (a, b, c) -> authenticate file = authenticate_with a b c.
Proof. intros H. unfold authenticate. rewrite H. reflexivity. Qed.

Lemma bind_config_save {B} (cfg : SHConfig) (k : unit -> M B) (w : World) :
  bind (config_save cfg) k w
  = match save_failure w with
    | Some e => mkRes (Raise e) w [mkObs (fs w) (EvConfigSave cfg)]
    | None => prepend [mkObs (fs w) (EvConfigSave cfg)]
                      (k tt (mkWorld (fs w) (stdin w) cfg (save_failure w)))
    end.
Proof. unfold bind, config_save. destruct (save_failure w); reflexivity. Qed.

Lemma authenticate_with_steps (a b c : string) (w : World) :
  let cfg := mkSHConfig a b c (other_settings (saved_config w)) in
  authenticate_with a b c w
  = prepend [mkObs (fs w) (EvPrint (PParameters a b c))]
      match save_failure w with
      | Some e => mkRes (Raise e) w [mkObs (fs w) (EvConfigSave cfg)]
      | None =>
          prepend [mkObs (fs w) (EvConfigSave cfg)]
            ((if PyStr.is_empty b || PyStr.is_empty c
              then
                print (PStr "ATTENTION! To use SentinelHub API, you need to provide an OAuth client ID and client secret.");;;
                v1 <- input "OAuth instance ID: ";;
                v2 <- input "OAuth client ID: ";;
                v3 <- input "OAuth client secret: ";;
                ret (mkSHConfig v1 v2 v3 (other_settings (saved_config w)))
              else ret cfg)
               (mkWorld (fs w) (stdin w) cfg (save_failure w)))
      end.
Proof.
  intros cfg. unfold authenticate_with.
  rewrite bind_print. f_equal.
  rewrite (bind_ret_step SHConfig_new _ w w (saved_config w) [] eq_refl).
  unfold prepend at 1. rewrite bind_config_save.
  destruct (save_failure w); reflexivity.
Qed.

(** What [authenticate] does first, whatever the file holds: it prints
    the three fields and saves a profile made of them. *)
Lemma authenticate_assigns (file : string) (w : World) (a b c : string) :
  read_parameters file = (a, b, c) ->
  exists rest_events,
    events (authenticate file w)
    = EvPrint (PParameters a b c)
      :: EvConfigSave (mkSHConfig a b c (other_settings (saved_config w)))
      :: rest_events.
Proof.
  intros Hp. rewrite (authenticate_unfold _ _ _ _ Hp), authenticate_with_steps.
  rewrite events_prepend.
  destruct (save_failure w).
  - exists []. reflexivity.
  - rewrite events_prepend. eexists. reflexivity.
Qed.

(** C5: a readable credential source of three lines (the third ended by
    a line feed or by the end of the file) gives exactly the three
    trimmed lines, in file order, as instance id, client id and client
    secret; any text is accepted as a line. *)
Theorem credential_loader_three_lines (l1 l2 l3 tail : string) (w : World) :
  PyStr.no_newline l1 = true -> PyStr.no_newline l2 = true ->
  PyStr.no_newline l3 = true ->
  tail = EmptyString \/ (exists rest, tail = String PyStr.nl rest) ->
  let file := l1 +:+ nl_str +:+ l2 +:+ nl_str +:+ l3 +:+ tail in
  read_parameters file = (PyStr.strip l1, PyStr.strip l2, PyStr.strip l3)
  /\ exists rest_events,
       events (authenticate file w)
       = EvPrint (PParameters (PyStr.strip l1) (PyStr.strip l2) (PyStr.strip l3))
         :: EvConfigSave (mkSHConfig (PyStr.strip l1) (PyStr.strip l2) (PyStr.strip l3)
                                     (other_settings (saved_config w)))
         :: rest_events.
Proof.
  intros H1 H2 H3 Ht file.
  pose proof (read_parameters_lines l1 l2 l3 tail H1 H2 H3 Ht) as Hp.
  split; [exact Hp |].
  exact (authenticate_assigns _ w _ _ _ Hp).
Qed.

(** C10: when the client id or the client secret read from the file is
    empty, the profile is saved once, before the three prompts; the
    answers go to the returned configuration only, and the saved profile
    keeps the values read from the file. *)
Theorem prompted_credentials_not_persisted
        (file : string) (w : World) (a b c v1 v2 v3 : string) (rest : list string) :
  read_parameters file = (a, b, c) ->
  PyStr.is_empty b || PyStr.is_empty c = true ->
  save_failure w = None ->
  stdin w = v1 :: v2 :: v3 :: rest ->
  let r := authenticate file w in
  let others := other_settings (saved_config w) in
  outcome r = Ret (mkSHConfig v1 v2 v3 others)
  /\ saved_config (world r) = mkSHConfig a b c others
  /\ events r
     = [ EvPrint (PParameters a b c);
         EvConfigSave (mkSHConfig a b c others);
         EvPrint (PStr "ATTENTION! To use SentinelHub API, you need to provide an OAuth client ID and client secret.");
         EvInput "OAuth instance ID: " (Some v1);
         EvInput "OAuth client ID: " (Some v2);
         EvInput "OAuth client secret: " (Some v3) ].
Proof.
  intros Hp He Hs Hin r others. subst r others.
  rewrite (authenticate_unfold _ _ _ _ Hp), authenticate_with_steps.
  rewrite Hs, He.
  rewrite bind_print.
  erewrite bind_input by exact Hin.
  erewrite bind_input by reflexivity.
  erewrite bind_input by reflexivity.
  repeat split; reflexivity.
Qed.

(** The converse case: with both fields present and a save that goes
    through, nothing is asked and no input is read; the three values
    are printed, and the configuration returned is the one that was
    saved: the three values over the other settings of the profile. *)
Lemma authenticate_complete_file
      (file : string) (w : World) (a b c : string) :
  read_parameters file = (a, b, c) ->
  PyStr.is_empty b || PyStr.is_empty c = false ->
  save_failure w = None ->
  let cfg := mkSHConfig a b c (other_settings (saved_config w)) in
  let r := authenticate file w in
  outcome r = Ret cfg
  /\ saved_config (world r) = cfg
  /\ stdin (world r) = stdin w
  /\ events r = [EvPrint (PParameters a b c); EvConfigSave cfg].
Proof.
  intros Hp He Hs cfg r. subst cfg r.
  rewrite (authenticate_unfold _ _ _ _ Hp), authenticate_with_steps.
  rewrite Hs, He. repeat split; reflexivity.
Qed.

(** A failing [config.save()] leaves [authenticate] through the
    exception: the function has no handler of its own. *)
Lemma authenticate_save_failure (file : string) (w : World) (e : exn) :
  save_failure w = Some e ->
  exists l, authenticate file w = mkRes (Raise e) w l.
Proof.
  intros Hs.
  destruct (read_parameters file) as [[a b] c] eqn:Hp.
  rewrite (authenticate_unfold _ _ _ _ Hp), authenticate_with_steps.
  rewrite Hs. eexists. reflexivity.
Qed.

(** ** search_data *)

(** C6: the catalog is queried once; the query carries the filter
    [eo:cloud_cover < 2] (a strict bound of 2 on the cloud cover
    property), asks for the fields id, datetime and cloud cover and
    excludes none; the answer of the remote iterator is returned whole
    and in its order. *)
Theorem search_data_single_filtered_query
        (env : Env) (bbox : BBox) (time_interval : string * string)
        (config : SHConfig) (w : World) :
  let r := search_data env bbox time_interval config w in
  let q := search_query bbox time_interval in
  events r = [EvCatalogSearch config q]
  /\ q_collection q = SENTINEL2_L2A /\ q_bbox q = bbox /\ q_time q = time_interval
  /\ q_filter q = "eo:cloud_cover < 2"
  /\ cql_less_than (q_filter q) = Some ("eo:cloud_cover", 2%N)
  /\ q_include q = ["id"; "properties.datetime"; "properties.eo:cloud_cover"]
  /\ q_exclude q = []
  /\ outcome r = match catalog_search env config q with
                 | inr results => Ret results
                 | inl e => Raise e
                 end
  /\ world r = w.
Proof.
  intros r q. subst r. unfold search_data. fold q.
  rewrite bind_emit.
  destruct (catalog_search env config q) as [e | results]; repeat split; reflexivity.
Qed.

(** ** Trace invariants

    A computation [respects R P] when, from any world, every file system
    it passes through is [R]-related to the initial one and every event
    it emits satisfies [P]. *)

Section Respects.

Variable R : filesystem -> filesystem -> Prop.
Variable P : Event -> Prop.
Hypothesis R_refl : forall f, R f f.
Hypothesis R_trans : forall f g h, R f g -> R g h -> R f h.

Lemma respects_ret {A} (a : A) : respects R P (ret a).
Proof using R_refl. intros w. split; [apply R_refl | constructor]. Qed.

Lemma respects_raise {A} (e : exn) : respects R P (@raise A e).
Proof using R_refl. intros w. split; [apply R_refl | constructor]. Qed.

Lemma respects_sys_exit {A} (c : option Z) : respects R P (@sys_exit A c).
Proof using R_refl. intros w. split; [apply R_refl | constructor]. Qed.

Lemma respects_lift_lib {A} (x : exn + A) : respects R P (lift_lib x).
Proof using R_refl. destruct x; [apply respects_raise | apply respects_ret]. Qed.

Lemma respects_emit (e : Event) : P e -> respects R P (emit e).
Proof using R_refl.
  intros He w. split; [apply R_refl |].
  constructor; [split; [apply R_refl | exact He] | constructor].
Qed.

Lemma respects_bind {A B} (m : M A) (k : A -> M B) :
  respects R P m -> (forall a, respects R P (k a)) -> respects R P (bind m k).
Proof using R_refl R_trans.
  intros Hm Hk w. unfold bind.
  destruct (Hm w) as [Hw Hl].
  destruct (outcome (m w)) as [a | e | c]; simpl; try (split; assumption).
  destruct (Hk a (world (m w))) as [Hw' Hl'].
  split; [eapply R_trans; eassumption |].
  apply Forall_app. split; [exact Hl |].
  eapply Forall_impl; [exact Hl' |].
  intros o [Ho Hp]. split; [eapply R_trans; eassumption | exact Hp].
Qed.

Lemma respects_for_each {A} (l : list A) (body : A -> M unit) :
  (forall x, respects R P (body x)) -> respects R P (for_each l body).
Proof using R_refl R_trans.
  intros Hb. induction l as [|x l IH]; simpl.
  - apply respects_ret.
  - apply respects_bind; [apply Hb | intros _; exact IH].
Qed.

Lemma respects_state_dependent {A} (f : World -> M A) :
  (forall w, respects R P (f w)) -> respects R P (fun w => f w w).
Proof using R_refl R_trans. intros H w. apply (H w w). Qed.

Lemma respects_if {A} (b : bool) (m1 m2 : M A) :
  respects R P m1 -> respects R P m2 -> respects R P (if b then m1 else m2).
Proof using R_refl R_trans. destruct b; auto. Qed.

End Respects.

Lemma fs_grows_refl (f : filesystem) : fs_grows f f.
Proof. intros q. split; auto. Qed.

Lemma fs_grows_trans (f g h : filesystem) :
  fs_grows f g -> fs_grows g h -> fs_grows f h.
Proof.
  intros H1 H2 q. destruct (H1 q), (H2 q). split; auto.
Qed.

Lemma fs_grows_insert_dir (f : filesystem) (p : string) :
  f !! p = None \/ f !! p = Some Dir -> fs_grows f (<[p := Dir]> f).
Proof.
  intros Hp q. unfold Os.path_exists, Os.isdir.
  destruct (decide (p = q)) as [<- | Hne].
  - rewrite lookup_insert_eq. split; reflexivity.
  - rewrite lookup_insert_ne by exact Hne. split; auto.
Qed.

Lemma fs_grows_insert_file (f : filesystem) (p c : string) :
  f !! p <> Some Dir -> fs_grows f (<[p := File c]> f).
Proof.
  intros Hp q. unfold Os.path_exists, Os.isdir.
  destruct (decide (p = q)) as [<- | Hne].
  - rewrite lookup_insert_eq. split; [reflexivity |].
    destruct (f !! p) as [[|]|]; congruence.
  - rewrite lookup_insert_ne by exact Hne. split; auto.
Qed.

Lemma Forall_one {A} (P : A -> Prop) (x : A) : P x -> Forall P [x].
Proof. intros H. constructor; [exact H | constructor]. Qed.

Lemma store_grows (P : Event -> Prop) (folder : string) (entry : string * node) :
  (forall p, P (EvWrite p)) -> respects fs_grows P (store folder entry).
Proof.
  intros HP w. unfold store.
  assert (Hobs : forall p, Forall (fun o => fs_grows (fs w) (at_fs o) /\ P (ev o))
                                  [mkObs (fs w) (EvWrite p)]).
  { intros p. apply Forall_one. split; [apply fs_grows_refl | apply HP]. }
  destruct (Os.parent_check (fs w) _); simpl.
  - split; [apply fs_grows_refl | apply Hobs].
  - destruct (snd entry) as [|c];
      destruct (fs w !! PyStr.os_path_join folder (fst entry)) as [[|c']|] eqn:Hl; simpl;
      (split; [| apply Hobs]);
      try apply fs_grows_refl.
    + apply fs_grows_insert_dir. left. exact Hl.
    + apply fs_grows_insert_file. congruence.
    + apply fs_grows_insert_file. congruence.
Qed.

Section ScriptInvariants.

Context (env : Env).

Lemma get_data_respects (r : Request) :
  respects fs_grows transfer_event (get_data env r).
Proof.
  unfold get_data.
  apply (respects_bind _ _ fs_grows_refl fs_grows_trans).
  { apply (respects_emit _ _ fs_grows_refl). repeat split. }
  intros _. apply (respects_bind _ _ fs_grows_refl fs_grows_trans).
  { apply (respects_lift_lib _ _ fs_grows_refl). }
  intros entries. apply (respects_for_each _ _ fs_grows_refl fs_grows_trans).
  intros x. apply store_grows. repeat split.
Qed.

Lemma request_and_save_respects config data_folder bbox new_date :
  respects fs_grows transfer_event
           (request_and_save env config data_folder bbox new_date).
Proof.
  unfold request_and_save, print.
  apply (respects_bind _ _ fs_grows_refl fs_grows_trans).
  { apply (respects_lift_lib _ _ fs_grows_refl). }
  intros size. apply (respects_bind _ _ fs_grows_refl fs_grows_trans).
  { apply (respects_emit _ _ fs_grows_refl). repeat split. }
  intros _. apply (respects_bind _ _ fs_grows_refl fs_grows_trans).
  { apply (respects_lift_lib _ _ fs_grows_refl). }
  intros _. apply (respects_bind _ _ fs_grows_refl fs_grows_trans).
  { apply (respects_emit _ _ fs_grows_refl). repeat split. }
  intros _. apply (respects_bind _ _ fs_grows_refl fs_grows_trans).
  { apply get_data_respects. }
  intros _. apply (respects_bind _ _ fs_grows_refl fs_grows_trans).
  { apply (respects_emit _ _ fs_grows_refl). repeat split. }
  intros _.
  apply (respects_state_dependent fs_grows transfer_event fs_grows_refl fs_grows_trans
           (fun w0 => for_each (Os.walk_files (fs w0) _) (fun p => emit (EvPrint (PStr p))))).
  intros w0. apply (respects_for_each _ _ fs_grows_refl fs_grows_trans).
  intros p. apply (respects_emit _ _ fs_grows_refl). repeat split.
Qed.

End ScriptInvariants.

(** ** Folder creation *)

Lemma ensure_cases (p : string) (w : World) : ensure_case p w (ensure p w).
Proof.
  unfold ensure, bind, Os.exists_, Os.mkdir, Os.mkdir_fs; simpl.
  destruct (Os.path_exists (fs w) p) eqn:He; simpl.
  - destruct w; apply ensure_present; exact He.
  - unfold Os.path_exists in He.
    destruct (fs w !! p) eqn:Hl; [discriminate |].
    destruct (Os.parent_check (fs w) p) eqn:Hp; simpl.
    + apply ensure_failed; assumption.
    + apply ensure_made; assumption.
Qed.

Lemma ensure_result (p : string) (w : World) :
  (Os.path_exists (fs w) p = true /\ ensure p w = mkRes (Ret tt) w [])
  \/ (fs w !! p = None /\ Os.parent_check (fs w) p = None
      /\ ensure p w = mkRes (Ret tt) (Os.set_fs w (<[p := Dir]> (fs w)))
                            [mkObs (fs w) (EvMkdir p None)])
  \/ (exists k, fs w !! p = None /\ Os.parent_check (fs w) p = Some k
                /\ ensure p w = mkRes (Raise (OSError k p)) w
                                      [mkObs (fs w) (EvMkdir p (Some k))]).
Proof.
  unfold ensure, bind, Os.exists_, Os.mkdir, Os.mkdir_fs; simpl.
  destruct (Os.path_exists (fs w) p) eqn:He; simpl.
  - left. split; [reflexivity | destruct w; reflexivity].
  - unfold Os.path_exists in He.
    destruct (fs w !! p) eqn:Hl; [discriminate |].
    destruct (Os.parent_check (fs w) p) as [k |] eqn:Hp; simpl.
    + right. right. exists k. repeat split; reflexivity.
    + right. left. repeat split; reflexivity.
Qed.

Lemma parent_check_not_exists (f : filesystem) (p : string) :
  Os.parent_check f p <> Some FileExistsError.
Proof.
  unfold Os.parent_check.
  destruct (PyStr.is_empty _); [discriminate |].
  destruct (f !! _) as [[|]|]; discriminate.
Qed.

Lemma bind_assoc {A B C} (m : M A) (f : A -> M B) (g : B -> M C) (w : World) :
  bind (bind m f) g w = bind m (fun a => bind (f a) g) w.
Proof.
  unfold bind.
  destruct (outcome (m w)) as [a | e | c]; simpl; [| reflexivity | reflexivity].
  destruct (outcome (f a (world (m w)))) as [b | e | c]; simpl;
    rewrite ?app_assoc; reflexivity.
Qed.

Lemma bind_ext {A B} (m : M A) (k k' : A -> M B) (w : World) :
  (forall a w', k a w' = k' a w') -> bind m k w = bind m k' w.
Proof.
  intros H. unfold bind.
  destruct (outcome (m w)) as [a | e | c]; [| reflexivity | reflexivity].
  rewrite H. reflexivity.
Qed.

Lemma make_folders_unfold (path id : string) (w : World) :
  make_folders path id w
  = (ensure (PyStr.os_path_join path "data");;;
     ensure (PyStr.os_path_join (PyStr.os_path_join path "data") id);;;
     ret (PyStr.os_path_join (PyStr.os_path_join path "data") id)) w.
Proof.
  unfold make_folders, ensure. rewrite bind_assoc.
  apply bind_ext. intros e1 w1.
  apply bind_ext. intros _ w2.
  rewrite bind_assoc. reflexivity.
Qed.

Lemma files_kept_insert_dir (f : filesystem) (p : string) :
  files_kept f (<[p := Dir]> f).
Proof.
  intros q. unfold Os.isfile.
  destruct (decide (p = q)) as [<- | Hne].
  - rewrite lookup_insert_eq. discriminate.
  - rewrite lookup_insert_ne by exact Hne. auto.
Qed.

Lemma ensure_log (p : string) (w : World) :
  Forall fresh_mkdir (log (ensure p w)).
Proof.
  destruct (ensure_cases p w) as [He | Hl Hp | k Hl Hp]; simpl.
  - constructor.
  - repeat constructor. exists p, None. unfold Os.path_exists; simpl.
    rewrite Hl. repeat split; discriminate.
  - repeat constructor. exists p, (Some k). unfold Os.path_exists; simpl.
    rewrite Hl. repeat split.
    intros [= ->]. exact (parent_check_not_exists _ _ Hp).
Qed.

(** What [ensure] leaves behind. *)
Lemma ensure_world (p : string) (w : World) :
  fs_grows (fs w) (fs (world (ensure p w)))
  /\ files_kept (fs w) (fs (world (ensure p w)))
  /\ stdin (world (ensure p w)) = stdin w
  /\ saved_config (world (ensure p w)) = saved_config w
  /\ save_failure (world (ensure p w)) = save_failure w
  /\ (forall c, outcome (ensure p w) <> SysExit c)
  /\ (outcome (ensure p w) = Ret tt -> Os.path_exists (fs (world (ensure p w))) p = true)
  /\ (forall e, outcome (ensure p w) = Raise e ->
        exists k, e = OSError k p /\ In (EvMkdir p (Some k)) (events (ensure p w))).
Proof.
  destruct (ensure_cases p w) as [He | Hl Hp | k Hl Hp]; simpl.
  - repeat split; try (intros; auto; discriminate); auto.
    intros q H; exact H.
  - repeat split; try discriminate; auto.
    + apply fs_grows_insert_dir; auto.
    + apply fs_grows_insert_dir; auto.
    + apply files_kept_insert_dir.
    + intros _. unfold Os.path_exists. rewrite lookup_insert_eq. reflexivity.
  - repeat split; try discriminate; auto.
    + intros q H; exact H.
    + intros e [= <-]. exists k. split; [reflexivity | left; reflexivity].
Qed.

Lemma ensure_noop (p : string) (w : World) :
  Os.path_exists (fs w) p = true -> ensure p w = mkRes (Ret tt) w [].
Proof.
  intros He. unfold ensure, bind, Os.exists_; simpl. rewrite He; simpl.
  destruct w; reflexivity.
Qed.

Lemma files_kept_trans (f g h : filesystem) :
  files_kept f g -> files_kept g h -> files_kept f h.
Proof. intros H1 H2 q Hq. apply H1, H2, Hq. Qed.

Lemma events_app {A B} (r : Res A) (r' : Res B) (l : list Obs) :
  l = log r ++ log r' -> map ev l = events r ++ events r'.
Proof. intros ->. apply map_app. Qed.

Lemma make_folders_spec (path id : string) (w : World) :
  let p1 := PyStr.os_path_join path "data" in
  let p2 := PyStr.os_path_join p1 id in
  let r := make_folders path id w in
  Forall fresh_mkdir (log r)
  /\ fs_grows (fs w) (fs (world r))
  /\ files_kept (fs w) (fs (world r))
  /\ stdin (world r) = stdin w
  /\ saved_config (world r) = saved_config w
  /\ save_failure (world r) = save_failure w
  /\ (forall c, outcome r <> SysExit c)
  /\ (forall d, outcome r = Ret d ->
        d = p2 /\ Os.path_exists (fs (world r)) p1 = true
        /\ Os.path_exists (fs (world r)) p2 = true)
  /\ (forall e, outcome r = Raise e ->
        exists k p, e = OSError k p /\ In (EvMkdir p (Some k)) (events r)).
Proof.
  intros p1 p2 r. subst r. rewrite make_folders_unfold. fold p1. fold p2.
  pose proof (ensure_world p1 w) as (G1 & K1 & S1 & C1 & F1 & X1 & R1 & E1).
  pose proof (ensure_log p1 w) as L1.
  unfold events in *.
  destruct (ensure p1 w) as [o1 w1 l1] eqn:Q1. simpl in *.
  destruct o1 as [[] | e | c].
  - rewrite (bind_ret_step _ _ _ _ _ _ Q1).
    pose proof (ensure_world p2 w1) as (G2 & K2 & S2 & C2 & F2 & X2 & R2 & E2).
    pose proof (ensure_log p2 w1) as L2.
    unfold events in *.
    destruct (ensure p2 w1) as [o2 w2 l2] eqn:Q2. simpl in *.
    destruct o2 as [[] | e | c].
    + rewrite (bind_ret_step _ _ _ _ _ _ Q2). unfold prepend, ret; simpl.
      rewrite app_nil_r.
      split; [apply Forall_app; auto |].
      split; [eapply fs_grows_trans; eassumption |].
      split; [eapply files_kept_trans; eassumption |].
      repeat (split; [congruence |]).
      split.
      * intros d [= <-]. repeat split; [apply (G2 p1), R1 | apply R2]; reflexivity.
      * intros e [=].
    + rewrite (bind_raise_step _ _ _ _ _ _ Q2). unfold prepend; simpl.
      split; [apply Forall_app; auto |].
      split; [eapply fs_grows_trans; eassumption |].
      split; [eapply files_kept_trans; eassumption |].
      repeat (split; [congruence |]).
      intros e' [= <-]. destruct (E2 e eq_refl) as [k [-> Hin]].
      exists k, p2. split; [reflexivity |].
      rewrite map_app. apply in_or_app. right. exact Hin.
    + exfalso. exact (X2 c eq_refl).
  - rewrite (bind_raise_step _ _ _ _ _ _ Q1). simpl.
    split; [exact L1 |].
    split; [exact G1 |].
    split; [exact K1 |].
    repeat (split; [congruence |]).
    intros e' [= <-]. destruct (E1 e eq_refl) as [k [-> Hin]].
    exists k, p1. split; [reflexivity | exact Hin].
  - exfalso. exact (X1 c eq_refl).
Qed.

Lemma make_folders_present (path id : string) (w : World) :
  let p1 := PyStr.os_path_join path "data" in
  let p2 := PyStr.os_path_join p1 id in
  Os.path_exists (fs w) p1 = true -> Os.path_exists (fs w) p2 = true ->
  make_folders path id w = mkRes (Ret p2) w [].
Proof.
  intros p1 p2 H1 H2. rewrite make_folders_unfold. fold p1. fold p2.
  rewrite (bind_ret_step _ _ _ _ _ _ (ensure_noop p1 w H1)).
  rewrite (bind_ret_step _ _ _ _ _ _ (ensure_noop p2 w H2)).
  reflexivity.
Qed.

(** ** download_data *)

Section DownloadData.

Context (env : Env).

Lemma download_data_steps config path id bbox new_date (w : World) :
  download_data env config path id bbox new_date w
  = prepend [mkObs (fs w) (EvDownloadCall id new_date)]
      match outcome (make_folders path id w) with
      | Ret d => prepend (log (make_folders path id w))
                         (request_and_save env config d bbox new_date
                                           (world (make_folders path id w)))
      | Raise e => mkRes (Raise e) (world (make_folders path id w))
                         (log (make_folders path id w))
      | SysExit c => mkRes (SysExit c) (world (make_folders path id w))
                           (log (make_folders path id w))
      end.
Proof. unfold download_data. rewrite bind_emit, bind_unfold. reflexivity. Qed.

(** Where an observation of [download_data] comes from: the entry, the
    folder creation, or the part that follows a successful creation. *)
Lemma download_data_log config path id bbox new_date (w : World) (o : Obs) :
  In o (log (download_data env config path id bbox new_date w)) ->
  o = mkObs (fs w) (EvDownloadCall id new_date)
  \/ In o (log (make_folders path id w))
  \/ (exists d, outcome (make_folders path id w) = Ret d
                /\ In o (log (request_and_save env config d bbox new_date
                                               (world (make_folders path id w))))).
Proof.
  rewrite download_data_steps, log_prepend. cbn [app].
  intros [<- | Hin]; [left; reflexivity |].
  right. destruct (outcome (make_folders path id w)) as [d | e | c] eqn:Ho.
  - rewrite log_prepend in Hin. apply in_app_or in Hin as [Hin | Hin].
    + left. exact Hin.
    + right. exists d. split; [reflexivity | exact Hin].
  - left. exact Hin.
  - left. exact Hin.
Qed.

Lemma exists_not_file_isdir (f : filesystem) (p : string) :
  Os.path_exists f p = true -> Os.isfile f p = false -> Os.isdir f p = true.
Proof.
  unfold Os.path_exists, Os.isfile, Os.isdir.
  destruct (f !! p) as [[|c]|]; congruence.
Qed.

Lemma not_file_kept (f f' : filesystem) (p : string) :
  files_kept f f' -> Os.isfile f p = false -> Os.isfile f' p = false.
Proof.
  intros Hk Hf. destruct (Os.isfile f' p) eqn:H; [| reflexivity].
  rewrite (Hk p H) in Hf. discriminate.
Qed.

(** C4: whenever [download_data] builds the request, asks for the data
    or has an entry stored, both levels [<path>/data] and
    [<path>/data/<id>] already exist in the file system of that moment;
    they are directories unless the name was taken by a regular file
    before the call ([os.path.exists] does not tell the two apart). *)
Theorem folders_exist_before_transfer
        config path id bbox new_date (w : World) (o : Obs) :
  In o (log (download_data env config path id bbox new_date w)) ->
  is_request (ev o) || is_get_data (ev o) || is_write (ev o) = true ->
  let p1 := PyStr.os_path_join path "data" in
  let p2 := PyStr.os_path_join p1 id in
  Os.path_exists (at_fs o) p1 = true
  /\ Os.path_exists (at_fs o) p2 = true
  /\ (Os.isfile (fs w) p1 = false -> Os.isdir (at_fs o) p1 = true)
  /\ (Os.isfile (fs w) p2 = false -> Os.isdir (at_fs o) p2 = true).
Proof.
  intros Hin Hk p1 p2.
  destruct (make_folders_spec path id w) as (L & G & K & _ & _ & _ & _ & HR & _).
  apply download_data_log in Hin as [-> | [Hin | [d [Ho Hin]]]].
  - discriminate.
  - rewrite List.Forall_forall in L. destruct (L o Hin) as (p & k & He & _).
    rewrite He in Hk. discriminate.
  - destruct (HR d Ho) as (-> & E1 & E2). fold p1 in E1, E2. fold p2 in E2.
    destruct (request_and_save_respects env config p2 bbox new_date
                                        (world (make_folders path id w))) as [_ HF].
    rewrite List.Forall_forall in HF. destruct (HF o Hin) as [Hg _].
    split; [apply (Hg p1), E1 |].
    split; [apply (Hg p2), E2 |].
    split; intros Hf; apply Hg, exists_not_file_isdir; auto;
      eapply not_file_kept; eassumption.
Qed.

(** Nothing after the folder creation is a [mkdir]. *)
Lemma request_and_save_no_mkdir config d bbox new_date (w : World) (o : Obs) :
  In o (log (request_and_save env config d bbox new_date w)) ->
  is_mkdir (ev o) = false.
Proof.
  intros Hin.
  destruct (request_and_save_respects env config d bbox new_date w) as [_ HF].
  rewrite List.Forall_forall in HF. destruct (HF o Hin) as [_ [H _]]. exact H.
Qed.

(** C8: no [os.mkdir] call of [download_data] is made on a path that
    exists, so none is answered with [FileExistsError], in a first
    invocation or in a second one with the same path and scene id; and
    when the first invocation got through the folder creation, the
    second one calls [os.mkdir] not at all. *)
Theorem folder_creation_idempotent
        config1 config2 path id bbox1 bbox2 date1 date2 (w : World) :
  let r1 := download_data env config1 path id bbox1 date1 w in
  let r2 := download_data env config2 path id bbox2 date2 (world r1) in
  (forall o p k, In o (log r1 ++ log r2) -> ev o = EvMkdir p k ->
                 k <> Some FileExistsError /\ Os.path_exists (at_fs o) p = false)
  /\ ((forall o p k, In o (log r1) -> ev o <> EvMkdir p (Some k)) ->
      forall o, In o (log r2) -> is_mkdir (ev o) = false).
Proof.
  intros r1 r2. split.
  - assert (H : forall cfg bb dt w' o p k,
               In o (log (download_data env cfg path id bb dt w')) ->
               ev o = EvMkdir p k ->
               k <> Some FileExistsError /\ Os.path_exists (at_fs o) p = false).
    { intros cfg bb dt w' o p k Hin He.
      destruct (make_folders_spec path id w') as (L & _).
      apply download_data_log in Hin as [-> | [Hin | [d [Ho Hin]]]].
      - discriminate.
      - rewrite List.Forall_forall in L. destruct (L o Hin) as (p' & k' & He' & Hk & Hx).
        rewrite He in He'. injection He' as -> ->. split; assumption.
      - apply request_and_save_no_mkdir in Hin. rewrite He in Hin. discriminate. }
    intros o p k Hin He. apply in_app_or in Hin as [Hin | Hin]; eapply H; eassumption.
  - intros Hok o Hin.
    destruct (make_folders_spec path id w) as (_ & _ & _ & _ & _ & _ & HX & HR & HE).
    assert (Hsub : forall o', In o' (log (make_folders path id w)) -> In o' (log r1)).
    { intros o' Ho'. subst r1. rewrite download_data_steps, log_prepend.
      apply in_or_app. right.
      destruct (outcome (make_folders path id w));
        [rewrite log_prepend; apply in_or_app; left |..]; exact Ho'. }
    destruct (outcome (make_folders path id w)) as [d | e | c] eqn:Ho.
    + destruct (HR d eq_refl) as (-> & E1 & E2).
      assert (Hw : fs_grows (fs (world (make_folders path id w))) (fs (world r1))).
      { subst r1. rewrite download_data_steps, world_prepend, Ho, world_prepend.
        apply request_and_save_respects. }
      assert (P1 := proj1 (Hw _) E1). assert (P2 := proj1 (Hw _) E2).
      subst r2. rewrite download_data_steps, log_prepend in Hin.
      rewrite (make_folders_present path id (world r1) P1 P2) in Hin.
      simpl in Hin. destruct Hin as [<- | Hin]; [reflexivity |].
      eapply request_and_save_no_mkdir. exact Hin.
    + exfalso. destruct (HE e eq_refl) as (k & p & _ & Hev).
      unfold events in Hev. apply in_map_iff in Hev as (o' & He' & Ho').
      exact (Hok o' p k (Hsub o' Ho') He').
    + exfalso. exact (HX c eq_refl).
Qed.

Lemma store_and_list_events (rq : Request) (w : World) :
  Forall storage_event (events (store_and_list env rq w)).
Proof.
  assert (Hr : forall f, any_fs f f) by (intros; exact I).
  assert (Ht : forall f g h, any_fs f g -> any_fs g h -> any_fs f h) by (intros; exact I).
  assert (H : respects any_fs storage_event (store_and_list env rq)).
  { unfold store_and_list, print.
    apply (respects_bind _ _ Hr Ht).
    { apply (respects_bind _ _ Hr Ht); [apply (respects_lift_lib _ _ Hr) |].
      intros entries. apply (respects_for_each _ _ Hr Ht).
      intros x w0. unfold store.
      assert (Ho : forall p, Forall (fun o => any_fs (fs w0) (at_fs o) /\ storage_event (ev o))
                                    [mkObs (fs w0) (EvWrite p)]).
      { intros p. apply Forall_one. split; [exact I | left; eexists; reflexivity]. }
      split; [exact I |].
      destruct (Os.parent_check (fs w0) _); [apply Ho |].
      destruct (snd x); destruct (fs w0 !! _) as [[|]|]; apply Ho. }
    intros _. apply (respects_bind _ _ Hr Ht).
    { apply (respects_emit _ _ Hr). right. eexists. reflexivity. }
    intros _.
    apply (respects_state_dependent any_fs storage_event Hr Ht
             (fun w0 => for_each (Os.walk_files (fs w0) _) (fun p => emit (EvPrint (PStr p))))).
    intros w0. apply (respects_for_each _ _ Hr Ht).
    intros p. apply (respects_emit _ _ Hr). right. eexists. reflexivity. }
  destruct (H w) as [_ HF]. unfold events.
  rewrite List.Forall_forall in *. intros e He.
  apply in_map_iff in He as (o & <- & Ho). apply (HF o Ho).
Qed.

Lemma request_and_save_steps config d bbox new_date (w : World) :
  request_and_save env config d bbox new_date w
  = match bbox_to_dimensions env bbox 10 with
    | inl e => mkRes (Raise e) w []
    | inr size =>
        let rq := build_request config d bbox new_date size in
        prepend [mkObs (fs w) (EvPrint (PSize size))]
                match accept_request env rq with
                | inl e => mkRes (Raise e) w []
                | inr _ =>
                    prepend [mkObs (fs w) (EvRequest rq); mkObs (fs w) (EvGetData rq)]
                            (store_and_list env rq w)
                end
    end.
Proof.
  unfold request_and_save.
  destruct (bbox_to_dimensions env bbox 10) as [e | size]; [reflexivity |].
  cbn zeta.
  rewrite (bind_ret_step (lift_lib (inr size)) _ w w size [] eq_refl).
  rewrite bind_print.
  destruct (accept_request env _) as [e | []]; [reflexivity |].
  rewrite (bind_ret_step (lift_lib (inr tt)) _ w w tt [] eq_refl).
  rewrite bind_emit. unfold get_data.
  rewrite bind_assoc, bind_emit. reflexivity.
Qed.

(** The events of one call, in order. *)
Lemma download_data_events config path id bbox new_date (w : World) :
  let mf := make_folders path id w in
  events (download_data env config path id bbox new_date w)
  = EvDownloadCall id new_date
    :: events mf
    ++ match outcome mf, bbox_to_dimensions env bbox 10 with
       | Ret d, inr size =>
           EvPrint (PSize size)
           :: submitted env (build_request config d bbox new_date size) (world mf)
       | _, _ => []
       end.
Proof.
  intros mf. rewrite download_data_steps, events_prepend. fold mf.
  cbn [map app ev]. f_equal.
  destruct (outcome mf) as [d | e | c].
  - rewrite events_prepend. f_equal.
    rewrite request_and_save_steps.
    destruct (bbox_to_dimensions env bbox 10) as [e | size]; [reflexivity |].
    cbn zeta. rewrite events_prepend. unfold submitted.
    destruct (accept_request env _) as [e | []]; [reflexivity |].
    rewrite events_prepend. reflexivity.
  - symmetry. apply app_nil_r.
  - symmetry. apply app_nil_r.
Qed.

Lemma count_app (p : Event -> bool) (l1 l2 : list Event) :
  count p (l1 ++ l2) = (count p l1 + count p l2)%nat.
Proof. unfold count. rewrite List.filter_app. apply length_app. Qed.

Lemma count_none (p : Event -> bool) (l : list Event) :
  Forall (fun e => p e = false) l -> count p l = 0%nat.
Proof.
  unfold count. induction 1 as [|e l He _ IH]; simpl; [reflexivity |].
  rewrite He. exact IH.
Qed.

Lemma download_calls_none (l : list Event) :
  Forall (fun e => is_download_call e = false) l -> download_calls l = [].
Proof.
  induction 1 as [|e l He _ IH]; simpl; [reflexivity |].
  destruct e; try exact IH. discriminate.
Qed.

Lemma storage_event_kind (e : Event) :
  storage_event e ->
  is_request e = false /\ is_get_data e = false /\ is_mkdir e = false
  /\ is_download_call e = false /\ is_prompt e = false.
Proof. intros [[p ->] | [t ->]]; repeat split. Qed.

Lemma make_folders_events (path id : string) (w : World) :
  Forall (fun e => is_mkdir e = true) (events (make_folders path id w)).
Proof.
  destruct (make_folders_spec path id w) as (L & _).
  unfold events. rewrite List.Forall_forall in *. intros e He.
  apply in_map_iff in He as (o & <- & Ho).
  destruct (L o Ho) as (p & k & -> & _). reflexivity.
Qed.

Lemma mkdir_event_kind (e : Event) :
  is_mkdir e = true ->
  is_request e = false /\ is_get_data e = false
  /\ is_download_call e = false /\ is_prompt e = false.
Proof. destruct e; try discriminate. repeat split. Qed.

(** After its entry [download_data] emits nothing but what
    [download_event] lists. *)
Lemma download_data_tail config path id bbox new_date (w : World) :
  exists tail,
    events (download_data env config path id bbox new_date w)
    = EvDownloadCall id new_date :: tail
    /\ Forall (download_event env config path id bbox new_date) tail.
Proof.
  rewrite download_data_events. cbn zeta. eexists. split; [reflexivity |].
  apply Forall_app. split.
  { eapply Forall_impl; [apply make_folders_events |]. intros e He. left. exact He. }
  destruct (make_folders_spec path id w) as (_ & _ & _ & _ & _ & _ & _ & HR & _).
  destruct (outcome (make_folders path id w)) as [d | x | c]; try constructor.
  destruct (HR d eq_refl) as (-> & _).
  destruct (bbox_to_dimensions env bbox 10) as [x | size] eqn:Hs; constructor.
  { right. left. exists size. reflexivity. }
  unfold submitted.
  destruct (accept_request env _) as [x | []] eqn:Ha; constructor.
  { right. right. left. exists size. auto. }
  constructor.
  { right. right. left. exists size. auto. }
  eapply Forall_impl; [apply store_and_list_events |].
  intros e He. right. right. right. exact He.
Qed.

(** Every request [download_data] builds or sends is the one of lines
    172-187, for the size the library computes at resolution 10. *)
Lemma download_data_requests config path id bbox new_date (w : World) (rq : Request) :
  In (EvRequest rq) (events (download_data env config path id bbox new_date w))
  \/ In (EvGetData rq) (events (download_data env config path id bbox new_date w)) ->
  exists size,
    bbox_to_dimensions env bbox 10 = inr size
    /\ rq = build_request config
                          (PyStr.os_path_join (PyStr.os_path_join path "data") id)
                          bbox new_date size.
Proof.
  destruct (download_data_tail config path id bbox new_date w) as (tail & -> & Ht).
  rewrite List.Forall_forall in Ht.
  assert (Hcase : forall e, e = EvRequest rq \/ e = EvGetData rq ->
                            In e (EvDownloadCall id new_date :: tail) ->
                            exists size,
                              bbox_to_dimensions env bbox 10 = inr size
                              /\ rq = build_request config
                                     (PyStr.os_path_join (PyStr.os_path_join path "data") id)
                                     bbox new_date size).
  { intros e Hk [He | Hin]; [destruct Hk; congruence |].
    destruct (Ht e Hin) as [Hm | [[size ->] | [(size & Hs & _ & He) | Hst]]].
    - destruct Hk as [-> | ->]; discriminate.
    - destruct Hk; discriminate.
    - exists size. split; [exact Hs |].
      destruct Hk as [-> | ->]; destruct He as [He | He]; congruence.
    - destruct (storage_event_kind e Hst) as (H1 & H2 & _).
      destruct Hk as [-> | ->]; discriminate. }
  intros [H | H];
    [ exact (Hcase (EvRequest rq) (or_introl eq_refl) H)
    | exact (Hcase (EvGetData rq) (or_intror eq_refl) H) ].
Qed.

(** A request exists only when the client has accepted its arguments. *)
Lemma download_data_request_accepted config path id bbox new_date (w : World) (rq : Request) :
  In (EvRequest rq) (events (download_data env config path id bbox new_date w))
  \/ In (EvGetData rq) (events (download_data env config path id bbox new_date w)) ->
  accept_request env rq = inr tt.
Proof.
  destruct (download_data_tail config path id bbox new_date w) as (tail & -> & Ht).
  rewrite List.Forall_forall in Ht.
  assert (Hcase : forall e, e = EvRequest rq \/ e = EvGetData rq ->
                            In e (EvDownloadCall id new_date :: tail) ->
                            accept_request env rq = inr tt).
  { intros e Hk [He | Hin]; [destruct Hk; congruence |].
    destruct (Ht e Hin) as [Hm | [[size ->] | [(size & _ & Ha & He) | Hst]]].
    - destruct Hk as [-> | ->]; discriminate.
    - destruct Hk; discriminate.
    - destruct Hk as [-> | ->]; destruct He as [He | He];
        try discriminate; injection He as ->; exact Ha.
    - destruct (storage_event_kind e Hst) as (H1 & H2 & _).
      destruct Hk as [-> | ->]; discriminate. }
  intros [H | H];
    [ exact (Hcase (EvRequest rq) (or_introl eq_refl) H)
    | exact (Hcase (EvGetData rq) (or_intror eq_refl) H) ].
Qed.

Lemma download_event_kind config path id bbox new_date (e : Event) :
  download_event env config path id bbox new_date e ->
  is_download_call e = false /\ is_prompt e = false /\ is_config_save e = false.
Proof.
  intros [Hm | [[size ->] | [(size & _ & _ & [-> | ->]) | [[x ->] | [y ->]]]]];
    try (repeat split; reflexivity).
  destruct e; try discriminate. repeat split.
Qed.

(** One call is one entry event, and [download_data] asks nothing. *)
Lemma download_data_calls config path id bbox new_date (w : World) :
  download_calls (events (download_data env config path id bbox new_date w)) = [id]
  /\ count is_prompt (events (download_data env config path id bbox new_date w)) = 0%nat.
Proof.
  destruct (download_data_tail config path id bbox new_date w) as (tail & -> & Ht).
  split.
  - cbn [download_calls]. f_equal. apply download_calls_none.
    eapply Forall_impl; [exact Ht |].
    intros e He. apply (download_event_kind _ _ _ _ _ _ He).
  - change (count is_prompt (?a :: ?l)) with (count is_prompt l).
    apply count_none. eapply Forall_impl; [exact Ht |].
    intros e He. apply (download_event_kind _ _ _ _ _ _ He).
Qed.

(** C9: every request [download_data] submits carries [maxcc = 0.2],
    that is 20 percent, whatever the arguments; the bound of the
    catalog filter, 2 percent, is below it. *)
Theorem request_maxcc_is_one_fifth
        config path id bbox new_date (w : World) (rq : Request) :
  In (EvRequest rq) (events (download_data env config path id bbox new_date w)) ->
  exists i,
    rq_input_data rq = [i]
    /\ in_maxcc i = 0.2%Q
    /\ (100 * in_maxcc i == 20)%Q
    /\ forall bbox' time_interval,
         exists bound,
           cql_less_than (q_filter (search_query bbox' time_interval))
           = Some ("eo:cloud_cover", bound)
           /\ (inject_Z (Z.of_N bound) < 100 * in_maxcc i)%Q.
Proof.
  intros Hin.
  destruct (download_data_requests config path id bbox new_date w rq (or_introl Hin))
    as (size & _ & ->).
  eexists. split; [reflexivity |].
  split; [reflexivity |].
  split; [reflexivity |].
  intros bbox' ti. exists 2%N. split; reflexivity.
Qed.

End DownloadData.

(** ** The selection loop *)

Lemma accept_token_iff (t : string) :
  accept_token t = true <-> In t ["yes"; "y"; "oui"; "o"].
Proof.
  unfold accept_token. rewrite !orb_true_iff, !String.eqb_eq. simpl.
  intuition congruence.
Qed.

Lemma abort_token_iff (t : string) :
  abort_token t = true <-> In t ["exit"; "e"].
Proof.
  unfold abort_token. rewrite !orb_true_iff, !String.eqb_eq. simpl.
  intuition congruence.
Qed.

Lemma accept_excludes_abort (t : string) :
  accept_token t = true -> abort_token t = false.
Proof.
  rewrite accept_token_iff. simpl.
  intros [<- | [<- | [<- | [<- | []]]]]; reflexivity.
Qed.

Lemma abort_excludes_accept (t : string) :
  abort_token t = true -> accept_token t = false.
Proof.
  rewrite abort_token_iff. simpl.
  intros [<- | [<- | []]]; reflexivity.
Qed.

Lemma res_eta {A} (r : Res A) : mkRes (outcome r) (world r) (log r) = r.
Proof. destruct r; reflexivity. Qed.

Lemma bind_ret_tt (m : M unit) (w : World) : bind m (fun _ => ret tt) w = m w.
Proof.
  rewrite bind_unfold.
  destruct (m w) as [[[] | e | c] w' l]; simpl; try reflexivity.
  unfold prepend, ret; simpl. rewrite app_nil_r. reflexivity.
Qed.

Section Selection.

Context (env : Env) (config : SHConfig) (path : string) (bbox : BBox).

Lemma select_scene_steps (result : SceneRecord) (w : World) (tok : string) (rest : list string) :
  stdin w = tok :: rest ->
  select_scene env config path bbox result w
  = prepend (asked result tok w)
      (bind (if accept_token tok
             then download_data env config path (sc_id result) bbox
                                (PyStr.slice_to 10 (sc_datetime result))
             else ret tt)
            (fun _ => if abort_token tok then sys_exit None else ret tt)
            (answered w rest)).
Proof.
  intros Hin. unfold select_scene.
  rewrite bind_print. erewrite bind_input by exact Hin. reflexivity.
Qed.

Lemma select_scene_eof (result : SceneRecord) (w : World) :
  stdin w = [] ->
  select_scene env config path bbox result w
  = mkRes (Raise EOFError) w
          [mkObs (fs w) (EvPrint (PScene result));
           mkObs (fs w) (EvInput prompt_text None)].
Proof.
  intros Hin. unfold select_scene.
  rewrite bind_print. rewrite (bind_input_eof _ _ _ Hin). reflexivity.
Qed.

Lemma select_scene_accept (result : SceneRecord) (w : World) (tok : string) (rest : list string) :
  stdin w = tok :: rest -> accept_token tok = true ->
  select_scene env config path bbox result w
  = prepend (asked result tok w)
      (download_data env config path (sc_id result) bbox
                     (PyStr.slice_to 10 (sc_datetime result)) (answered w rest)).
Proof.
  intros Hin Ha. rewrite (select_scene_steps _ _ _ _ Hin).
  rewrite Ha, (accept_excludes_abort _ Ha), bind_ret_tt. reflexivity.
Qed.

Lemma select_scene_abort (result : SceneRecord) (w : World) (tok : string) (rest : list string) :
  stdin w = tok :: rest -> abort_token tok = true ->
  select_scene env config path bbox result w
  = mkRes (SysExit None) (answered w rest) (asked result tok w).
Proof.
  intros Hin Ha. rewrite (select_scene_steps _ _ _ _ Hin).
  rewrite Ha, (abort_excludes_accept _ Ha). reflexivity.
Qed.

Lemma select_scene_skip (result : SceneRecord) (w : World) (tok : string) (rest : list string) :
  stdin w = tok :: rest -> accept_token tok = false -> abort_token tok = false ->
  select_scene env config path bbox result w
  = mkRes (Ret tt) (answered w rest) (asked result tok w).
Proof.
  intros Hin Ha Hb. rewrite (select_scene_steps _ _ _ _ Hin).
  rewrite Ha, Hb. reflexivity.
Qed.

(** C3: at the prompt for a record, an accept token gives exactly one
    call of [download_data], for that record, after which the loop goes
    on when the call returns; an abort token ends the whole loop there,
    with no further prompt and no download; any other answer neither
    downloads nor stops the loop. *)
Theorem selection_prompt_decides
        (result : SceneRecord) (more : list SceneRecord)
        (w : World) (tok : string) (rest : list string) :
  stdin w = tok :: rest ->
  let body := select_scene env config path bbox in
  let loop := for_each (result :: more) body w in
  let download :=
    download_data env config path (sc_id result) bbox
                  (PyStr.slice_to 10 (sc_datetime result)) (answered w rest) in
  (In tok ["yes"; "y"; "oui"; "o"] ->
     body result w = prepend (asked result tok w) download
     /\ download_calls (events (body result w)) = [sc_id result]
     /\ count is_prompt (events (body result w)) = 1%nat
     /\ (outcome download = Ret tt ->
         loop = prepend (asked result tok w ++ log download)
                        (for_each more body (world download))))
  /\ (In tok ["exit"; "e"] ->
        loop = mkRes (SysExit None) (answered w rest) (asked result tok w)
        /\ download_calls (events loop) = []
        /\ count is_prompt (events loop) = 1%nat)
  /\ (~ In tok ["yes"; "y"; "oui"; "o"; "exit"; "e"] ->
        body result w = mkRes (Ret tt) (answered w rest) (asked result tok w)
        /\ download_calls (events (body result w)) = []
        /\ loop = prepend (asked result tok w) (for_each more body (answered w rest))).
Proof.
  intros Hin body loop download. subst body loop download.
  split; [| split].
  - intros Ha. apply accept_token_iff in Ha.
    rewrite (select_scene_accept _ _ _ _ Hin Ha).
    destruct (download_data_calls env config path (sc_id result) bbox
                (PyStr.slice_to 10 (sc_datetime result)) (answered w rest)) as [Hc Hp].
    split; [reflexivity |].
    rewrite events_prepend. split; [exact Hc |].
    split.
    + rewrite count_app, Hp. reflexivity.
    + intros Ho. cbn [for_each]. rewrite bind_unfold.
      rewrite (select_scene_accept _ _ _ _ Hin Ha), outcome_prepend, Ho.
      rewrite world_prepend, log_prepend. reflexivity.
  - intros Ha. apply abort_token_iff in Ha.
    cbn [for_each].
    rewrite (bind_exit_step _ _ _ _ _ _ (select_scene_abort _ _ _ _ Hin Ha)).
    repeat split; reflexivity.
  - intros Hn.
    assert (Ha : accept_token tok = false).
    { destruct (accept_token tok) eqn:H; [| reflexivity].
      apply accept_token_iff in H. exfalso. apply Hn. simpl in *. tauto. }
    assert (Hb : abort_token tok = false).
    { destruct (abort_token tok) eqn:H; [| reflexivity].
      apply abort_token_iff in H. exfalso. apply Hn. simpl in *. tauto. }
    rewrite (select_scene_skip _ _ _ _ Hin Ha Hb).
    split; [reflexivity |]. split; [reflexivity |].
    cbn [for_each].
    rewrite (bind_ret_step _ _ _ _ _ _ (select_scene_skip _ _ _ _ Hin Ha Hb)).
    reflexivity.
Qed.

Lemma download_data_request_count id new_date (w : World) :
  let n := match outcome (make_folders path id w), bbox_to_dimensions env bbox 10 with
           | Ret d, inr size =>
               match accept_request env (build_request config d bbox new_date size) with
               | inl _ => 0%nat
               | inr _ => 1%nat
               end
           | _, _ => 0%nat
           end in
  count is_request (events (download_data env config path id bbox new_date w)) = n
  /\ count is_get_data (events (download_data env config path id bbox new_date w)) = n.
Proof.
  intros n. subst n. rewrite download_data_events. cbn zeta.
  change (count is_request (EvDownloadCall id new_date :: ?l)) with (count is_request l).
  change (count is_get_data (EvDownloadCall id new_date :: ?l)) with (count is_get_data l).
  rewrite !count_app.
  assert (Hm : count is_request (events (make_folders path id w)) = 0%nat
               /\ count is_get_data (events (make_folders path id w)) = 0%nat).
  { split; apply count_none;
      (eapply Forall_impl; [apply make_folders_events |]);
      intros e He; destruct (mkdir_event_kind e He) as (? & ? & _); assumption. }
  destruct Hm as [-> ->].
  destruct (outcome (make_folders path id w)); try (split; reflexivity).
  destruct (bbox_to_dimensions env bbox 10); try (split; reflexivity).
  assert (Hs : forall rq w',
             count is_request (events (store_and_list env rq w')) = 0%nat
             /\ count is_get_data (events (store_and_list env rq w')) = 0%nat).
  { intros rq w'. split; apply count_none;
      (eapply Forall_impl; [apply store_and_list_events |]);
      intros e He; destruct (storage_event_kind e He) as (? & ? & _); assumption. }
  change (count is_request (EvPrint ?a :: ?l)) with (count is_request l).
  change (count is_get_data (EvPrint ?a :: ?l)) with (count is_get_data l).
  unfold submitted.
  destruct (accept_request env _) as [e | []]; [split; reflexivity |].
  split.
  - change (count is_request (EvRequest ?b :: EvGetData ?c :: ?l))
      with (S (count is_request l)).
    rewrite (proj1 (Hs _ _)). reflexivity.
  - change (count is_get_data (EvRequest ?b :: EvGetData ?c :: ?l))
      with (S (count is_get_data l)).
    rewrite (proj2 (Hs _ _)). reflexivity.
Qed.

(** When the client refuses the arguments of the request, the call ends
    in the exception it raised. *)
Lemma download_data_refused id new_date (w : World) (d : string) size (e : exn) :
  outcome (make_folders path id w) = Ret d ->
  bbox_to_dimensions env bbox 10 = inr size ->
  accept_request env (build_request config d bbox new_date size) = inl e ->
  outcome (download_data env config path id bbox new_date w) = Raise e.
Proof.
  intros Hd Hs Ha.
  rewrite download_data_steps, outcome_prepend, Hd, outcome_prepend.
  rewrite request_and_save_steps, Hs. cbn zeta.
  rewrite outcome_prepend, Ha. reflexivity.
Qed.

(** C7: for an accepted scene, every request built or sent is the one
    of lines 172-187: the folder of the scene, the fixed evaluation
    script (bands B02, B03, B04, sample type INT16), one input of the
    Sentinel-2 L2A collection whose interval is the first ten
    characters of the acquisition datetime at both ends, least cloud
    cover first, a TIFF response, the bounding box, and the size the
    library computes from the bounding box at resolution 10.  A request
    exists only when the client has accepted these arguments
    ([SentinelHubRequest.input_data] parses the time interval and raises
    when it cannot).  There is at most one request, and exactly one once
    the folders are made, the size is computed and the client accepts
    the arguments; when the client refuses them with an exception, the
    iteration ends in that exception and nothing is built or sent. *)
Theorem accepted_scene_request
        (result : SceneRecord) (w : World) (tok : string) (rest : list string) :
  stdin w = tok :: rest -> accept_token tok = true ->
  let r := select_scene env config path bbox result w in
  let day := PyStr.slice_to 10 (sc_datetime result) in
  let folder := PyStr.os_path_join (PyStr.os_path_join path "data") (sc_id result) in
  let request_for size :=
    mkRequest folder evalscript_all_bands
              [mkInputData SENTINEL2_L2A (day, day) 0.2 LEAST_CC]
              [("default", TIFF)] bbox size config in
  (forall rq, In (EvRequest rq) (events r) \/ In (EvGetData rq) (events r) ->
     exists size,
       bbox_to_dimensions env bbox 10 = inr size
       /\ rq = request_for size
       /\ accept_request env rq = inr tt)
  /\ (count is_request (events r) <= 1)%nat
  /\ (count is_get_data (events r) <= 1)%nat
  /\ (forall d size,
        outcome (make_folders path (sc_id result) (answered w rest)) = Ret d ->
        bbox_to_dimensions env bbox 10 = inr size ->
        accept_request env (request_for size) = inr tt ->
        count is_request (events r) = 1%nat
        /\ count is_get_data (events r) = 1%nat
        /\ In (EvRequest (request_for size)) (events r)
        /\ In (EvGetData (request_for size)) (events r))
  /\ (forall d size e,
        outcome (make_folders path (sc_id result) (answered w rest)) = Ret d ->
        bbox_to_dimensions env bbox 10 = inr size ->
        accept_request env (request_for size) = inl e ->
        outcome r = Raise e
        /\ count is_request (events r) = 0%nat
        /\ count is_get_data (events r) = 0%nat)
  /\ evalscript_input_bands evalscript_all_bands = Some ["B02"; "B03"; "B04"]
  /\ evalscript_sample_type evalscript_all_bands = Some "INT16".
Proof.
  intros Hin Ha r day folder request_for. subst r.
  rewrite (select_scene_accept _ _ _ _ Hin Ha), events_prepend, outcome_prepend.
  fold day.
  set (dl := download_data env config path (sc_id result) bbox day (answered w rest)).
  assert (Hpre : forall e, In e (map ev (asked result tok w)) ->
                           is_request e = false /\ is_get_data e = false).
  { intros e [<- | [<- | []]]; split; reflexivity. }
  destruct (download_data_request_count (sc_id result) day (answered w rest)) as [Hc1 Hc2].
  fold dl in Hc1, Hc2.
  destruct (make_folders_spec path (sc_id result) (answered w rest))
    as (_ & _ & _ & _ & _ & _ & _ & HR & _).
  split; [| split; [| split; [| split; [| split; [| split]]]]].
  - intros rq Hrq.
    assert (Hdl : In (EvRequest rq) (events dl) \/ In (EvGetData rq) (events dl)).
    { destruct Hrq as [H | H]; apply in_app_or in H as [H | H];
        try (destruct (Hpre _ H); discriminate); [left | right]; exact H. }
    destruct (download_data_requests env config path (sc_id result) bbox day _ rq Hdl)
      as (size & Hs & Hq).
    exists size. split; [exact Hs |]. split; [exact Hq |].
    apply (download_data_request_accepted env config path (sc_id result) bbox day _ rq Hdl).
  - rewrite count_app, Hc1. cbn.
    destruct (outcome _); try lia. destruct (bbox_to_dimensions _ _ _); try lia.
    destruct (accept_request _ _); lia.
  - rewrite count_app, Hc2. cbn.
    destruct (outcome _); try lia. destruct (bbox_to_dimensions _ _ _); try lia.
    destruct (accept_request _ _); lia.
  - intros d size Hd Hs Hq. destruct (HR d Hd) as (Hdd & _).
    assert (Hq' : accept_request env (build_request config d bbox day size) = inr tt).
    { rewrite Hdd. exact Hq. }
    rewrite !count_app, Hc1, Hc2, Hd, Hs, Hq'.
    split; [reflexivity |]. split; [reflexivity |].
    subst dl. rewrite download_data_events. cbn zeta. rewrite Hd, Hs.
    unfold submitted. rewrite Hq', Hdd.
    split; apply in_or_app; right; right; apply in_or_app; right.
    + right. left. reflexivity.
    + right. right. left. reflexivity.
  - intros d size e Hd Hs Hq. destruct (HR d Hd) as (Hdd & _).
    assert (Hq' : accept_request env (build_request config d bbox day size) = inl e).
    { rewrite Hdd. exact Hq. }
    split; [exact (download_data_refused (sc_id result) day _ d size e Hd Hs Hq') |].
    rewrite !count_app, Hc1, Hc2, Hd, Hs, Hq'. split; reflexivity.
  - reflexivity.
  - reflexivity.
Qed.

End Selection.

(** ** Leaving the process *)

Lemma no_exit_ret {A} (a : A) : no_exit (ret a).
Proof. intros w c. discriminate. Qed.

Lemma no_exit_raise {A} (e : exn) : no_exit (@raise A e).
Proof. intros w c. discriminate. Qed.

Lemma no_exit_lift_lib {A} (x : exn + A) : no_exit (lift_lib x).
Proof. destruct x; [apply no_exit_raise | apply no_exit_ret]. Qed.

Lemma no_exit_emit (e : Event) : no_exit (emit e).
Proof. intros w c. discriminate. Qed.

Lemma no_exit_input (prompt : string) : no_exit (input prompt).
Proof. intros w c. unfold input. destruct (stdin w); discriminate. Qed.

Lemma no_exit_config_save (cfg : SHConfig) : no_exit (config_save cfg).
Proof. intros w c. unfold config_save. destruct (save_failure w); discriminate. Qed.

Lemma no_exit_open_rw (p : string) : no_exit (Os.open_rw p).
Proof. intros w c. unfold Os.open_rw. destruct (fs w !! p) as [[|]|]; discriminate. Qed.

Lemma no_exit_store (folder : string) (entry : string * node) : no_exit (store folder entry).
Proof.
  intros w c. unfold store.
  destruct (Os.parent_check _ _); [discriminate |].
  destruct (snd entry); destruct (fs w !! _) as [[|]|]; discriminate.
Qed.

Lemma no_exit_bind {A B} (m : M A) (k : A -> M B) :
  no_exit m -> (forall a, no_exit (k a)) -> no_exit (bind m k).
Proof.
  intros Hm Hk w c. rewrite bind_unfold.
  destruct (outcome (m w)) as [a | e | c'] eqn:Ho.
  - rewrite outcome_prepend. apply Hk.
  - discriminate.
  - exfalso. exact (Hm w c' Ho).
Qed.

Lemma no_exit_for_each {A} (l : list A) (body : A -> M unit) :
  (forall x, no_exit (body x)) -> no_exit (for_each l body).
Proof.
  intros Hb. induction l as [|x l IH]; simpl.
  - apply no_exit_ret.
  - apply no_exit_bind; [apply Hb | intros _; exact IH].
Qed.

Lemma no_exit_make_folders (path id : string) : no_exit (make_folders path id).
Proof.
  intros w c. destruct (make_folders_spec path id w) as (_ & _ & _ & _ & _ & _ & H & _).
  apply H.
Qed.

Lemma no_exit_authenticate (file : string) : no_exit (authenticate file).
Proof.
  intros w c.
  destruct (read_parameters file) as [[a b] c0] eqn:Hp.
  rewrite (authenticate_unfold _ _ _ _ Hp). revert w c.
  unfold authenticate_with, print.
  apply no_exit_bind; [apply no_exit_emit | intros _].
  apply no_exit_bind; [intros w c; discriminate | intros cfg].
  apply no_exit_bind; [apply no_exit_config_save | intros _].
  destruct (_ || _); [| apply no_exit_ret].
  apply no_exit_bind; [apply no_exit_emit | intros _].
  apply no_exit_bind; [apply no_exit_input | intros v1].
  apply no_exit_bind; [apply no_exit_input | intros v2].
  apply no_exit_bind; [apply no_exit_input | intros v3].
  apply no_exit_ret.
Qed.

Section Main.

Context (env : Env).

Lemma no_exit_download_data config path id bbox new_date :
  no_exit (download_data env config path id bbox new_date).
Proof.
  unfold download_data, request_and_save, get_data, print.
  apply no_exit_bind; [apply no_exit_emit | intros _].
  apply no_exit_bind; [apply no_exit_make_folders | intros d].
  apply no_exit_bind; [apply no_exit_lift_lib | intros size].
  apply no_exit_bind; [apply no_exit_emit | intros _].
  apply no_exit_bind; [apply no_exit_lift_lib | intros _].
  apply no_exit_bind; [apply no_exit_emit | intros _].
  apply no_exit_bind.
  { apply no_exit_bind; [apply no_exit_emit | intros _].
    apply no_exit_bind; [apply no_exit_lift_lib | intros entries].
    apply no_exit_for_each. intros x. apply no_exit_store. }
  intros _.
  apply no_exit_bind; [apply no_exit_emit | intros _].
  intros w c. revert c. revert w.
  intros w. apply (no_exit_for_each _ _ (fun p => no_exit_emit (EvPrint (PStr p))) w).
Qed.

Lemma no_exit_get_catalog_info config : no_exit (get_catalog_info env config).
Proof.
  unfold get_catalog_info, print.
  apply no_exit_bind; [apply no_exit_emit | intros _].
  apply no_exit_bind; [apply no_exit_lift_lib | intros info].
  apply no_exit_emit.
Qed.

Lemma no_exit_search_data bbox ti config : no_exit (search_data env bbox ti config).
Proof.
  unfold search_data.
  apply no_exit_bind; [apply no_exit_emit | intros _].
  apply no_exit_bind; [apply no_exit_lift_lib | intros l].
  apply no_exit_ret.
Qed.

Lemma no_exit_attempt (path : string) : no_exit (attempt path).
Proof.
  unfold attempt.
  apply no_exit_bind; [apply no_exit_open_rw | intros file].
  apply no_exit_authenticate.
Qed.

Lemma main_steps (your_path : string) (x_min y_min x_max y_max : Q) (w : World) :
  let a := attempt your_path w in
  main env your_path x_min y_min x_max y_max w
  = match outcome a with
    | Ret config =>
        prepend (log a)
                (after_authenticate env your_path (mkBBox x_min y_min x_max y_max WGS84)
                                    config (world a))
    | Raise e =>
        mkRes (SysExit None) (world a)
              (log a ++ [mkObs (fs (world a)) (EvPrint (PExn e))])
    | SysExit c => mkRes (SysExit c) (world a) (log a)
    end.
Proof.
  intros a. unfold main. cbn zeta. rewrite bind_unfold.
  unfold try_except. fold (attempt your_path). fold a.
  destruct (outcome a) as [config | e | c] eqn:Ho.
  - rewrite Ho. reflexivity.
  - reflexivity.
  - rewrite Ho. reflexivity.
Qed.

End Main.

(** ** How a run ends *)

Lemma last_event_app (l1 l2 : list Event) (e : Event) :
  last_event l2 = Some e -> last_event (l1 ++ l2) = Some e.
Proof.
  unfold last_event. intros H. induction l1 as [|x l1 IH]; [exact H |].
  cbn [app map]. cbn [map] in IH.
  destruct (map Some (l1 ++ l2)) eqn:Hm; [| exact IH].
  simpl in IH. discriminate.
Qed.

Lemma last_event_snoc (l : list Event) (e : Event) :
  last_event (l ++ [e]) = Some e.
Proof. apply last_event_app. reflexivity. Qed.

Lemma any_fs_refl (f : filesystem) : any_fs f f.
Proof. exact I. Qed.

Lemma any_fs_trans (f g h : filesystem) : any_fs f g -> any_fs g h -> any_fs f h.
Proof. intros _ _. exact I. Qed.

Lemma respects_events (P : Event -> Prop) {A} (m : M A) (w : World) :
  respects any_fs P m -> Forall P (events (m w)).
Proof.
  intros H. destruct (H w) as [_ HF]. unfold events.
  rewrite List.Forall_forall in *. intros e He.
  apply in_map_iff in He as (o & <- & Ho). apply (HF o Ho).
Qed.

Lemma respects_input (P : Event -> Prop) (prompt : string) :
  (forall a, P (EvInput prompt a)) -> respects any_fs P (input prompt).
Proof.
  intros HP w. split; [exact I |]. unfold input.
  destruct (stdin w); apply Forall_one; (split; [exact I | apply HP]).
Qed.

Lemma respects_config_save (P : Event -> Prop) (cfg : SHConfig) :
  P (EvConfigSave cfg) -> respects any_fs P (config_save cfg).
Proof.
  intros HP w. split; [exact I |]. unfold config_save.
  destruct (save_failure w); apply Forall_one; (split; [exact I | apply HP]).
Qed.

Lemma respects_open_rw (P : Event -> Prop) (p : string) :
  P (EvOpen p "r+") -> respects any_fs P (Os.open_rw p).
Proof.
  intros HP w. split; [exact I |]. unfold Os.open_rw.
  destruct (fs w !! p) as [[|]|]; apply Forall_one; (split; [exact I | apply HP]).
Qed.

Lemma authenticate_not_selection (file : string) :
  respects any_fs not_selection_answer (authenticate file).
Proof.
  destruct (read_parameters file) as [[a b] c0] eqn:Hp.
  intros w. rewrite (authenticate_unfold _ _ _ _ Hp). revert w.
  assert (Hi : forall p, p <> prompt_text -> forall a, not_selection_answer (EvInput p a)).
  { intros p Hne x [y [= H _]]. exact (Hne H). }
  unfold authenticate_with, print.
  apply (respects_bind _ _ any_fs_refl any_fs_trans).
  { apply (respects_emit _ _ any_fs_refl). intros [x [=]]. }
  intros _. apply (respects_bind _ _ any_fs_refl any_fs_trans).
  { intros w. split; [exact I | constructor]. }
  intros cfg. apply (respects_bind _ _ any_fs_refl any_fs_trans).
  { apply respects_config_save. intros [x [=]]. }
  intros _. destruct (_ || _); [| apply (respects_ret _ _ any_fs_refl)].
  apply (respects_bind _ _ any_fs_refl any_fs_trans).
  { apply (respects_emit _ _ any_fs_refl). intros [x [=]]. }
  intros _. apply (respects_bind _ _ any_fs_refl any_fs_trans).
  { apply respects_input, Hi. discriminate. }
  intros v1. apply (respects_bind _ _ any_fs_refl any_fs_trans).
  { apply respects_input, Hi. discriminate. }
  intros v2. apply (respects_bind _ _ any_fs_refl any_fs_trans).
  { apply respects_input, Hi. discriminate. }
  intros v3. apply (respects_ret _ _ any_fs_refl).
Qed.

Lemma attempt_not_selection (path : string) (w : World) :
  Forall not_selection_answer (events (attempt path w)).
Proof.
  apply respects_events. unfold attempt.
  apply (respects_bind _ _ any_fs_refl any_fs_trans).
  { apply respects_open_rw. intros [x [=]]. }
  intros file. apply authenticate_not_selection.
Qed.

Lemma count_zero_forall (p : Event -> bool) (l : list Event) :
  count p l = 0%nat -> Forall (fun e => p e = false) l.
Proof.
  unfold count. induction l as [|e l IH]; simpl; intros H; [constructor |].
  destruct (p e) eqn:He; [discriminate |].
  constructor; [exact He | exact (IH H)].
Qed.

(** ** Loops *)

Lemma for_each_cons {A} (body : A -> M unit) (x : A) (l : list A) (w : World) :
  for_each (x :: l) body w
  = match outcome (body x w) with
    | Ret _ => prepend (log (body x w)) (for_each l body (world (body x w)))
    | Raise e => mkRes (Raise e) (world (body x w)) (log (body x w))
    | SysExit c => mkRes (SysExit c) (world (body x w)) (log (body x w))
    end.
Proof. exact (bind_unfold (body x) (fun _ => for_each l body) w). Qed.

(** Once the iterations over [done] have returned, the loop goes on with
    the rest from the world they left. *)
Lemma for_each_app {A} (body : A -> M unit) (done more : list A) (w : World) :
  outcome (for_each done body w) = Ret tt ->
  outcome (for_each (done ++ more) body w)
  = outcome (for_each more body (world (for_each done body w))).
Proof.
  revert w. induction done as [|x done IH]; intros w H; [reflexivity |].
  cbn [app]. rewrite !for_each_cons. rewrite for_each_cons in H.
  destruct (outcome (body x w)) as [[] | e | c]; try discriminate.
  rewrite outcome_prepend in H. rewrite outcome_prepend, world_prepend.
  apply IH, H.
Qed.

(** An exception of any iteration is the outcome of the loop: no
    iteration is guarded. *)
Lemma for_each_raises {A} (body : A -> M unit) (done : list A) (x : A) (more : list A)
      (w : World) (e : exn) :
  outcome (for_each done body w) = Ret tt ->
  outcome (body x (world (for_each done body w))) = Raise e ->
  outcome (for_each (done ++ x :: more) body w) = Raise e.
Proof.
  intros Hd Hx. rewrite (for_each_app _ _ _ _ Hd), for_each_cons, Hx. reflexivity.
Qed.

Section EndOfRun.

Context (env : Env) (config : SHConfig) (path : string) (bbox : BBox).

Local Abbreviation body := (select_scene env config path bbox).

(** One iteration, by what standard input holds. *)
Lemma select_scene_cases (result : SceneRecord) (w : World) :
  (stdin w = []
   /\ outcome (body result w) = Raise EOFError
   /\ events (body result w) = [EvPrint (PScene result); EvInput prompt_text None])
  \/ (exists tok rest tail,
        stdin w = tok :: rest
        /\ events (body result w)
           = EvPrint (PScene result) :: EvInput prompt_text (Some tok) :: tail
        /\ Forall (fun e => is_prompt e = false) tail
        /\ (abort_token tok = true ->
            outcome (body result w) = SysExit None /\ tail = [])
        /\ (abort_token tok = false -> forall c, outcome (body result w) <> SysExit c)).
Proof.
  destruct (stdin w) as [|tok rest] eqn:Hin.
  - left. rewrite (select_scene_eof _ _ _ _ _ _ Hin). repeat split; reflexivity.
  - right. exists tok, rest.
    destruct (abort_token tok) eqn:Hb.
    + exists []. rewrite (select_scene_abort _ _ _ _ _ _ _ _ Hin Hb).
      repeat split; try reflexivity; try constructor. discriminate.
    + destruct (accept_token tok) eqn:Ha.
      * exists (events (download_data env config path (sc_id result) bbox
                                      (PyStr.slice_to 10 (sc_datetime result))
                                      (answered w rest))).
        rewrite (select_scene_accept _ _ _ _ _ _ _ _ Hin Ha).
        split; [reflexivity |]. split; [apply events_prepend |].
        split; [apply count_zero_forall, download_data_calls |].
        split; [discriminate |].
        intros _ c. rewrite outcome_prepend. apply no_exit_download_data.
      * exists []. rewrite (select_scene_skip _ _ _ _ _ _ _ _ Hin Ha Hb).
        repeat split; try reflexivity; try constructor; discriminate.
Qed.

Lemma for_each_step (result : SceneRecord) (more : list SceneRecord) (w : World) :
  for_each (result :: more) body w
  = match outcome (body result w) with
    | Ret _ => prepend (log (body result w)) (for_each more body (world (body result w)))
    | Raise e => mkRes (Raise e) (world (body result w)) (log (body result w))
    | SysExit c => mkRes (SysExit c) (world (body result w)) (log (body result w))
    end.
Proof. cbn [for_each]. apply bind_unfold. Qed.

(** The loop raises [SystemExit] only with no argument, and only right
    after an abort token was read. *)
Lemma loop_exit (rs : list SceneRecord) (w : World) (c : option Z) :
  outcome (for_each rs body w) = SysExit c ->
  c = None
  /\ exists tok, abort_token tok = true
                 /\ last_event (events (for_each rs body w))
                    = Some (EvInput prompt_text (Some tok)).
Proof.
  revert w. induction rs as [|result more IH]; intros w H; [discriminate |].
  rewrite for_each_step in *.
  destruct (select_scene_cases result w)
    as [(_ & Ho & _) | (tok & rest & tail & _ & He & _ & Hab & Hna)].
  - rewrite Ho in H. discriminate.
  - destruct (outcome (body result w)) as [[] | e | c0] eqn:Ho.
    + rewrite outcome_prepend in H. destruct (IH _ H) as (-> & t & Ht & Hl).
      split; [reflexivity |]. exists t. split; [exact Ht |].
      rewrite events_prepend. apply last_event_app, Hl.
    + discriminate.
    + destruct (abort_token tok) eqn:Hb.
      * destruct (Hab eq_refl) as [[= ->] ->]. injection H as <-.
        split; [reflexivity |]. exists tok. split; [exact Hb |].
        unfold events. cbn [log].
        change (map ev (log (body result w))) with (events (body result w)).
        rewrite He. reflexivity.
      * exfalso. exact (Hna eq_refl c0 eq_refl).
Qed.

(** An abort token read at the selection prompt ends the loop there. *)
Lemma loop_abort_answer (rs : list SceneRecord) (w : World) (tok : string) :
  abort_token tok = true ->
  In (EvInput prompt_text (Some tok)) (events (for_each rs body w)) ->
  outcome (for_each rs body w) = SysExit None
  /\ last_event (events (for_each rs body w)) = Some (EvInput prompt_text (Some tok)).
Proof.
  intros Hb. revert w. induction rs as [|result more IH]; intros w Hin; [destruct Hin |].
  rewrite for_each_step in *.
  assert (Hbody : In (EvInput prompt_text (Some tok)) (events (body result w)) ->
                  outcome (body result w) = SysExit None
                  /\ events (body result w)
                     = [EvPrint (PScene result); EvInput prompt_text (Some tok)]).
  { intros Hi.
    destruct (select_scene_cases result w)
      as [(_ & _ & He) | (t & rest & tail & _ & He & Hp & Hab & _)];
      rewrite He in Hi.
    - destruct Hi as [[=] | [[=] | []]].
    - destruct Hi as [[=] | [[= ->] | Hi]].
      + destruct (Hab Hb) as [Ho ->]. split; [exact Ho | exact He].
      + rewrite List.Forall_forall in Hp. specialize (Hp _ Hi). discriminate. }
  destruct (outcome (body result w)) as [[] | e | c0] eqn:Ho.
  - rewrite events_prepend in Hin. apply in_app_or in Hin as [Hi | Hi].
    + destruct (Hbody Hi) as [[=] _].
    + destruct (IH _ Hi) as [Hout Hl]. rewrite outcome_prepend, events_prepend.
      split; [exact Hout | apply last_event_app, Hl].
  - destruct (Hbody Hin) as [[=] _].
  - destruct (Hbody Hin) as [[= ->] He]. split; [reflexivity |].
    unfold events. cbn [log].
    change (map ev (log (body result w))) with (events (body result w)).
    rewrite He. reflexivity.
Qed.

(** The loop returns exactly when every iteration goes through. *)
Lemma loop_returns_spec (rs : list SceneRecord) (w : World) :
  loop_returns env config path bbox rs w <-> outcome (for_each rs body w) = Ret tt.
Proof.
  revert w. induction rs as [|result more IH]; intros w.
  { split; [reflexivity | exact (fun _ => I)]. }
  rewrite for_each_step. cbn [loop_returns].
  destruct (stdin w) as [|tok rest] eqn:Hin.
  { rewrite (select_scene_eof _ _ _ _ _ _ Hin). cbn [outcome].
    split; [intros [] | discriminate]. }
  destruct (abort_token tok) eqn:Hb.
  { rewrite (select_scene_abort _ _ _ _ _ _ _ _ Hin Hb). cbn [outcome].
    split; [intros [[=] _] | discriminate]. }
  destruct (accept_token tok) eqn:Ha.
  - rewrite (select_scene_accept _ _ _ _ _ _ _ _ Hin Ha). cbn zeta.
    rewrite outcome_prepend, world_prepend, log_prepend.
    destruct (outcome (download_data env config path (sc_id result) bbox
                                     (PyStr.slice_to 10 (sc_datetime result))
                                     (answered w rest))) as [[] | e | c].
    + rewrite outcome_prepend, <- IH.
      split; [intros (_ & _ & H); exact H | intros H; auto].
    + split; [intros (_ & [=] & _) | discriminate].
    + split; [intros (_ & [=] & _) | discriminate].
  - rewrite (select_scene_skip _ _ _ _ _ _ _ _ Hin Ha Hb). cbn [outcome world log].
    rewrite outcome_prepend, <- IH.
    split; [intros [_ H]; exact H | auto].
Qed.

End EndOfRun.

Section MainRun.

Context (env : Env).

Lemma attempt_open_failure (path : string) (w : World) (e : exn) :
  open_error (fs w) (PyStr.os_path_join path "parameters.txt") = Some e ->
  attempt path w
  = mkRes (Raise e) w
          [mkObs (fs w) (EvOpen (PyStr.os_path_join path "parameters.txt") "r+")].
Proof.
  unfold open_error, attempt. intros H.
  apply bind_raise_step. unfold Os.open_rw.
  destruct (fs w !! _) as [[|]|]; try discriminate; injection H as <-; reflexivity.
Qed.

Lemma attempt_opened (path : string) (w : World) (text : string) :
  fs w !! PyStr.os_path_join path "parameters.txt" = Some (File text) ->
  attempt path w
  = prepend [mkObs (fs w) (EvOpen (PyStr.os_path_join path "parameters.txt") "r+")]
            (authenticate text w).
Proof.
  unfold attempt. intros H.
  apply bind_ret_step. unfold Os.open_rw. rewrite H. reflexivity.
Qed.

Lemma after_authenticate_steps (path : string) (bbox : BBox) (config : SHConfig) (w : World) :
  let q := search_query bbox ("first-date", "second-date") in
  after_authenticate env path bbox config w
  = match catalog_get_info env config with
    | inl e => mkRes (Raise e) w [mkObs (fs w) (EvCatalogInfo config)]
    | inr info =>
        match catalog_search env config q with
        | inl e => mkRes (Raise e) w
                         [mkObs (fs w) (EvCatalogInfo config);
                          mkObs (fs w) (EvPrint (PInfo info));
                          mkObs (fs w) (EvCatalogSearch config q)]
        | inr results =>
            prepend [mkObs (fs w) (EvCatalogInfo config);
                     mkObs (fs w) (EvPrint (PInfo info));
                     mkObs (fs w) (EvCatalogSearch config q);
                     mkObs (fs w) (EvPrint (PTotal "Total number of results: "
                                                   (length results)))]
                    (for_each results (select_scene env config path bbox) w)
        end
    end.
Proof.
  intros q. unfold after_authenticate, get_catalog_info, search_data. fold q.
  rewrite bind_assoc, bind_emit.
  destruct (catalog_get_info env config) as [e | info]; [reflexivity |].
  rewrite bind_assoc.
  rewrite (bind_ret_step (lift_lib (inr info)) _ w w info [] eq_refl).
  rewrite bind_print, bind_assoc, bind_emit.
  destruct (catalog_search env config q) as [e | results]; [reflexivity |].
  rewrite bind_assoc.
  rewrite (bind_ret_step (lift_lib (inr results)) _ w w results [] eq_refl).
  rewrite bind_ret, bind_print. reflexivity.
Qed.

(** Before the loop, [__main__] reads no answer to the selection prompt. *)
Lemma after_authenticate_answers path bbox config (w : World) (tok : string) :
  In (EvInput prompt_text (Some tok)) (events (after_authenticate env path bbox config w)) ->
  exists results,
    catalog_search env config (search_query bbox ("first-date", "second-date"))
    = inr results
    /\ In (EvInput prompt_text (Some tok))
          (events (for_each results (select_scene env config path bbox) w))
    /\ outcome (after_authenticate env path bbox config w)
       = outcome (for_each results (select_scene env config path bbox) w)
    /\ forall e, last_event (events (for_each results (select_scene env config path bbox) w))
                 = Some e ->
                 last_event (events (after_authenticate env path bbox config w)) = Some e.
Proof.
  rewrite after_authenticate_steps. cbn zeta.
  destruct (catalog_get_info env config) as [e | info].
  { intros [[=] | []]. }
  destruct (catalog_search env config _) as [e | results].
  { intros [[=] | [[=] | [[=] | []]]]. }
  rewrite events_prepend. intros Hin.
  apply in_app_or in Hin as [[[=] | [[=] | [[=] | [[=] | []]]]] | Hin].
  exists results. split; [reflexivity |]. split; [exact Hin |].
  split; [reflexivity |].
  intros e He. apply last_event_app, He.
Qed.

Lemma after_authenticate_exit path bbox config (w : World) (c : option Z) :
  outcome (after_authenticate env path bbox config w) = SysExit c ->
  c = None
  /\ exists tok, abort_token tok = true
                 /\ last_event (events (after_authenticate env path bbox config w))
                    = Some (EvInput prompt_text (Some tok)).
Proof.
  rewrite after_authenticate_steps. cbn zeta.
  destruct (catalog_get_info env config) as [e | info]; [discriminate |].
  destruct (catalog_search env config _) as [e | results]; [discriminate |].
  rewrite outcome_prepend. intros H.
  destruct (loop_exit env config path bbox results w c H) as (-> & tok & Hb & Hl).
  split; [reflexivity |]. exists tok. split; [exact Hb |].
  rewrite events_prepend. apply last_event_app, Hl.
Qed.

End MainRun.

Section ExitStatus.

Context (env : Env).

(** A failure of the transfer, or of the storing of any entry, is the
    outcome of what follows the request. *)
Lemma store_and_list_raises (rq : Request) (w : World) (e : exn) :
  process env rq = inl e
  \/ (exists entries,
        process env rq = inr entries
        /\ outcome (for_each entries (store (rq_data_folder rq)) w) = Raise e) ->
  outcome (store_and_list env rq w) = Raise e.
Proof.
  intros H. unfold store_and_list. rewrite bind_unfold.
  assert (Hg : outcome ((entries <- lift_lib (process env rq);;
                         for_each entries (store (rq_data_folder rq))) w) = Raise e).
  { destruct H as [H | (entries & H & Hf)]; rewrite H.
    - reflexivity.
    - rewrite (bind_ret_step (lift_lib (inr entries)) _ w w entries [] eq_refl).
      rewrite outcome_prepend. exact Hf. }
  rewrite Hg. reflexivity.
Qed.

(** A [mkdir] that fails at either level is the outcome of the folder
    creation. *)
Lemma make_folders_raises (path id : string) (w : World) (k : OSErrorKind) :
  let p1 := PyStr.os_path_join path "data" in
  let p2 := PyStr.os_path_join p1 id in
  (Os.path_exists (fs w) p1 = false -> Os.mkdir_fs (fs w) p1 = inl k ->
   outcome (make_folders path id w) = Raise (OSError k p1))
  /\ (Os.path_exists (fs w) p1 = true ->
      Os.path_exists (fs w) p2 = false -> Os.mkdir_fs (fs w) p2 = inl k ->
      outcome (make_folders path id w) = Raise (OSError k p2)).
Proof.
  intros p1 p2.
  assert (Hfail : forall p, Os.path_exists (fs w) p = false -> Os.mkdir_fs (fs w) p = inl k ->
                            ensure p w = mkRes (Raise (OSError k p)) w
                                               [mkObs (fs w) (EvMkdir p (Some k))]).
  { intros p Hx Hk.
    destruct (ensure_result p w)
      as [[Hx' _] | [(Hl & Hp & _) | (k' & Hl & Hp & Heq)]].
    - congruence.
    - unfold Os.mkdir_fs in Hk. rewrite Hl, Hp in Hk. discriminate.
    - unfold Os.mkdir_fs in Hk. rewrite Hl, Hp in Hk. injection Hk as <-. exact Heq. }
  split.
  - intros Hx Hk. rewrite make_folders_unfold. fold p1. fold p2.
    rewrite (bind_raise_step _ _ _ _ _ _ (Hfail p1 Hx Hk)). reflexivity.
  - intros Hx1 Hx2 Hk. rewrite make_folders_unfold. fold p1. fold p2.
    destruct (ensure_result p1 w)
      as [[_ Heq] | [(Hl & _ & _) | (k' & Hl & _ & _)]].
    + rewrite (bind_ret_step _ _ _ _ _ _ Heq), outcome_prepend.
      rewrite (bind_raise_step _ _ _ _ _ _ (Hfail p2 Hx2 Hk)). reflexivity.
    + unfold Os.path_exists in Hx1. rewrite Hl in Hx1. discriminate.
    + unfold Os.path_exists in Hx1. rewrite Hl in Hx1. discriminate.
Qed.

(** C1, as the code has it: [sys.exit()] is called without an
    argument, so a failure to open the credential file, like any other
    exception raised in the guarded block of lines 205-210 (while the
    file is opened or inside [authenticate]), and an abort token at the
    selection prompt end the process at once with exit status 0; the
    script raises [SystemExit] in no other way.  A run whose guarded
    block returns, whose two catalogue calls answer and whose
    iterations all go through (an answer is read, it is no abort token,
    the download of an accepted scene returns) runs to its end with
    status 0, and no other run does; a run ended by an exception has
    status 1, and the exception is one raised after [authenticate]. *)
Theorem exit_status_of_run
        (your_path : string) (x_min y_min x_max y_max : Q) (w : World) :
  let r := main env your_path x_min y_min x_max y_max w in
  let path_txt := PyStr.os_path_join your_path "parameters.txt" in
  let bbox := mkBBox x_min y_min x_max y_max WGS84 in
  let q := search_query bbox ("first-date", "second-date") in
  (forall e, open_error (fs w) path_txt = Some e ->
     r = mkRes (SysExit None) w
               [mkObs (fs w) (EvOpen path_txt "r+"); mkObs (fs w) (EvPrint (PExn e))]
     /\ exit_status (outcome r) = 0%Z)
  /\ (forall e,
        outcome (attempt your_path w) = Raise e ->
        outcome r = SysExit None
        /\ exit_status (outcome r) = 0%Z
        /\ last_event (events r) = Some (EvPrint (PExn e)))
  /\ (forall tok,
        abort_token tok = true ->
        In (EvInput prompt_text (Some tok)) (events r) ->
        outcome r = SysExit None
        /\ exit_status (outcome r) = 0%Z
        /\ last_event (events r) = Some (EvInput prompt_text (Some tok)))
  /\ (forall c,
        outcome r = SysExit c ->
        c = None
        /\ exit_status (outcome r) = 0%Z
        /\ ((exists e, outcome (attempt your_path w) = Raise e
                       /\ last_event (events r) = Some (EvPrint (PExn e)))
            \/ (exists tok, abort_token tok = true
                            /\ last_event (events r)
                               = Some (EvInput prompt_text (Some tok)))))
  /\ (forall config info results,
        outcome (attempt your_path w) = Ret config ->
        catalog_get_info env config = inr info ->
        catalog_search env config q = inr results ->
        loop_returns env config your_path bbox results (world (attempt your_path w)) ->
        outcome r = Ret tt /\ exit_status (outcome r) = 0%Z)
  /\ (outcome r = Ret tt ->
      exists config info results,
        outcome (attempt your_path w) = Ret config
        /\ catalog_get_info env config = inr info
        /\ catalog_search env config q = inr results
        /\ loop_returns env config your_path bbox results (world (attempt your_path w)))
  /\ (forall e,
        outcome r = Raise e ->
        exit_status (outcome r) = 1%Z
        /\ exists config,
             outcome (attempt your_path w) = Ret config
             /\ outcome (after_authenticate env your_path bbox config
                                            (world (attempt your_path w)))
                = Raise e).
Proof.
  intros r path_txt bbox q. subst r q bbox.
  rewrite main_steps. cbn zeta.
  pose proof (no_exit_attempt your_path w) as Hne.
  pose proof (attempt_not_selection your_path w) as Hns.
  split; [| split; [| split; [| split; [| split; [| split]]]]].
  - intros e He. rewrite (attempt_open_failure your_path w e He).
    split; reflexivity.
  - intros e ->. split; [reflexivity |]. split; [reflexivity |].
    unfold events. cbn [log]. rewrite map_app. apply last_event_snoc.
  - intros tok Hb Hin.
    destruct (outcome (attempt your_path w)) as [config | e | c] eqn:Ho.
    + rewrite events_prepend in Hin. apply in_app_or in Hin as [Hin | Hin].
      { rewrite List.Forall_forall in Hns. exfalso.
        apply (Hns _ Hin). eexists. reflexivity. }
      destruct (after_authenticate_answers env _ _ _ _ _ Hin)
        as (results & _ & Hl & Hout & Hlast).
      destruct (loop_abort_answer env config your_path _ results _ tok Hb Hl) as [Hx Hy].
      rewrite outcome_prepend, events_prepend, Hout, Hx.
      split; [reflexivity |]. split; [reflexivity |].
      apply last_event_app, Hlast, Hy.
    + exfalso. unfold events in Hin. cbn [log] in Hin. rewrite map_app in Hin.
      apply in_app_or in Hin as [Hin | [[=] | []]].
      rewrite List.Forall_forall in Hns. apply (Hns _ Hin). eexists. reflexivity.
    + exfalso. exact (Hne c eq_refl).
  - intros c H.
    destruct (outcome (attempt your_path w)) as [config | e | c0] eqn:Ho.
    + rewrite outcome_prepend in H.
      destruct (after_authenticate_exit env _ _ _ _ _ H) as (-> & tok & Hb & Hl).
      split; [reflexivity |]. rewrite outcome_prepend, H.
      split; [reflexivity |]. right. exists tok. split; [exact Hb |].
      rewrite events_prepend. apply last_event_app, Hl.
    + injection H as <-. split; [reflexivity |]. split; [reflexivity |].
      left. exists e. split; [reflexivity |].
      unfold events. cbn [log]. rewrite map_app. apply last_event_snoc.
    + exfalso. exact (Hne c0 eq_refl).
  - intros config info results -> Hc Hs Hl.
    rewrite outcome_prepend, after_authenticate_steps. cbn zeta.
    rewrite Hc, Hs, outcome_prepend.
    rewrite (proj1 (loop_returns_spec env config your_path _ results _) Hl).
    split; reflexivity.
  - intros H.
    destruct (outcome (attempt your_path w)) as [config | e | c] eqn:Ho;
      [| discriminate | exfalso; exact (Hne c eq_refl)].
    rewrite outcome_prepend, after_authenticate_steps in H. cbn zeta in H.
    destruct (catalog_get_info env config) as [e | info] eqn:Hc; [discriminate |].
    destruct (catalog_search env config _) as [e | results] eqn:Hs; [discriminate |].
    rewrite outcome_prepend in H.
    exists config, info, results.
    split; [reflexivity |]. split; [exact Hc |]. split; [exact Hs |].
    apply (loop_returns_spec env config your_path _ results _), H.
  - intros e H.
    destruct (outcome (attempt your_path w)) as [config | e0 | c] eqn:Ho;
      [| discriminate | exfalso; exact (Hne c eq_refl)].
    rewrite outcome_prepend in H. rewrite outcome_prepend, H.
    split; [reflexivity |]. exists config. split; [reflexivity | exact H].
Qed.

(** C2, as the code has it: the one handler guards the opening of the
    credential file together with the whole of [authenticate]; any
    exception raised there (a failed [config.save()] included) is
    printed and ends the process through [sys.exit()].  Nothing else is
    guarded: [authenticate] itself lets a failed save through, and
    after it every failure is the outcome of the run: of the catalog,
    of the search, of any iteration of the selection loop (the end of
    the input at the prompt, or a failure of [download_data]), and
    inside [download_data] of a [mkdir], of the size computation, of
    the construction of the request, of the transfer and of the storing
    of any entry. *)
Theorem only_the_attempt_is_guarded
        (your_path : string) (x_min y_min x_max y_max : Q) (w : World) :
  let r := main env your_path x_min y_min x_max y_max w in
  let bbox := mkBBox x_min y_min x_max y_max WGS84 in
  let a := attempt your_path w in
  (forall e, outcome a = Raise e ->
     outcome r = SysExit None
     /\ events r = events a ++ [EvPrint (PExn e)])
  /\ (forall file w0 e, save_failure w0 = Some e ->
        outcome (authenticate file w0) = Raise e)
  /\ (forall text e,
        fs w !! PyStr.os_path_join your_path "parameters.txt" = Some (File text) ->
        save_failure w = Some e ->
        outcome r = SysExit None /\ last_event (events r) = Some (EvPrint (PExn e)))
  /\ (forall config,
        outcome a = Ret config ->
        r = prepend (log a) (after_authenticate env your_path bbox config (world a))
        /\ forall e,
             outcome (after_authenticate env your_path bbox config (world a)) = Raise e ->
             outcome r = Raise e)
  /\ (forall config w1 e,
        catalog_get_info env config = inl e ->
        outcome (after_authenticate env your_path bbox config w1) = Raise e)
  /\ (forall config w1 info e,
        catalog_get_info env config = inr info ->
        catalog_search env config (search_query bbox ("first-date", "second-date")) = inl e ->
        outcome (after_authenticate env your_path bbox config w1) = Raise e)
  /\ (forall config w1 info done result more e,
        catalog_get_info env config = inr info ->
        catalog_search env config (search_query bbox ("first-date", "second-date"))
        = inr (done ++ result :: more) ->
        outcome (for_each done (select_scene env config your_path bbox) w1) = Ret tt ->
        outcome (select_scene env config your_path bbox result
                              (world (for_each done (select_scene env config your_path bbox)
                                               w1)))
        = Raise e ->
        outcome (after_authenticate env your_path bbox config w1) = Raise e)
  /\ (forall config result w1,
        stdin w1 = [] ->
        outcome (select_scene env config your_path bbox result w1) = Raise EOFError)
  /\ (forall config result w1 tok rest e,
        stdin w1 = tok :: rest -> accept_token tok = true ->
        outcome (download_data env config your_path (sc_id result) bbox
                               (PyStr.slice_to 10 (sc_datetime result)) (answered w1 rest))
        = Raise e ->
        outcome (select_scene env config your_path bbox result w1) = Raise e)
  /\ (forall config path id new_date w1 e,
        outcome (make_folders path id w1) = Raise e ->
        outcome (download_data env config path id bbox new_date w1) = Raise e)
  /\ (forall path id w1 k,
        let p1 := PyStr.os_path_join path "data" in
        let p2 := PyStr.os_path_join p1 id in
        (Os.path_exists (fs w1) p1 = false -> Os.mkdir_fs (fs w1) p1 = inl k ->
         outcome (make_folders path id w1) = Raise (OSError k p1))
        /\ (Os.path_exists (fs w1) p1 = true ->
            Os.path_exists (fs w1) p2 = false -> Os.mkdir_fs (fs w1) p2 = inl k ->
            outcome (make_folders path id w1) = Raise (OSError k p2)))
  /\ (forall config path id new_date w1 d e,
        outcome (make_folders path id w1) = Ret d ->
        outcome (request_and_save env config d bbox new_date (world (make_folders path id w1)))
        = Raise e ->
        outcome (download_data env config path id bbox new_date w1) = Raise e)
  /\ (forall config d new_date w1 e,
        bbox_to_dimensions env bbox 10 = inl e ->
        outcome (request_and_save env config d bbox new_date w1) = Raise e)
  /\ (forall config d new_date w1 size e,
        bbox_to_dimensions env bbox 10 = inr size ->
        accept_request env (build_request config d bbox new_date size) = inl e ->
        outcome (request_and_save env config d bbox new_date w1) = Raise e)
  /\ (forall config d new_date w1 size e,
        bbox_to_dimensions env bbox 10 = inr size ->
        accept_request env (build_request config d bbox new_date size) = inr tt ->
        process env (build_request config d bbox new_date size) = inl e ->
        outcome (request_and_save env config d bbox new_date w1) = Raise e)
  /\ (forall config d new_date w1 size done entry more e,
        bbox_to_dimensions env bbox 10 = inr size ->
        accept_request env (build_request config d bbox new_date size) = inr tt ->
        process env (build_request config d bbox new_date size)
        = inr (done ++ entry :: more) ->
        outcome (for_each done (store d) w1) = Ret tt ->
        outcome (store d entry (world (for_each done (store d) w1))) = Raise e ->
        outcome (request_and_save env config d bbox new_date w1) = Raise e).
Proof.
  intros r bbox a. subst r.
  rewrite main_steps. cbn zeta. fold a. fold bbox.
  repeat match goal with |- _ /\ _ => split end.
  - intros e ->. split; [reflexivity |].
    unfold events. cbn [log]. rewrite map_app. reflexivity.
  - intros file w0 e Hs.
    destruct (authenticate_save_failure file w0 e Hs) as [l ->]. reflexivity.
  - intros text e Hf Hs. subst a.
    rewrite (attempt_opened your_path w text Hf).
    destruct (authenticate_save_failure text w e Hs) as [l Hl].
    rewrite outcome_prepend, Hl. cbn [outcome].
    split; [reflexivity |].
    unfold events. cbn [log]. rewrite map_app. apply last_event_snoc.
  - intros config ->. split; [reflexivity |].
    intros e He. rewrite outcome_prepend. exact He.
  - intros config w1 e Hc. rewrite after_authenticate_steps. cbn zeta.
    rewrite Hc. reflexivity.
  - intros config w1 info e Hc Hs. rewrite after_authenticate_steps. cbn zeta.
    rewrite Hc. fold bbox. rewrite Hs. reflexivity.
  - intros config w1 info done result more e Hc Hs Hd Hb.
    rewrite after_authenticate_steps. cbn zeta.
    rewrite Hc. fold bbox. rewrite Hs, outcome_prepend.
    apply for_each_raises; assumption.
  - intros config result w1 Hin.
    rewrite (select_scene_eof _ _ _ _ _ _ Hin). reflexivity.
  - intros config result w1 tok rest e Hin Ha Hd.
    rewrite (select_scene_accept _ _ _ _ _ _ _ _ Hin Ha), outcome_prepend. exact Hd.
  - intros config path id new_date w1 e Hm.
    rewrite download_data_steps, outcome_prepend, Hm. reflexivity.
  - intros path id w1 k. apply make_folders_raises.
  - intros config path id new_date w1 d e Hm Hq.
    rewrite download_data_steps, outcome_prepend, Hm, outcome_prepend. exact Hq.
  - intros config d new_date w1 e Hs.
    rewrite request_and_save_steps, Hs. reflexivity.
  - intros config d new_date w1 size e Hs Ha.
    rewrite request_and_save_steps, Hs. cbn zeta.
    rewrite outcome_prepend, Ha. reflexivity.
  - intros config d new_date w1 size e Hs Ha Hp.
    rewrite request_and_save_steps, Hs. cbn zeta.
    rewrite outcome_prepend, Ha, outcome_prepend.
    apply store_and_list_raises. left. exact Hp.
  - intros config d new_date w1 size done entry more e Hs Ha Hp Hd He.
    rewrite request_and_save_steps, Hs. cbn zeta.
    rewrite outcome_prepend, Ha, outcome_prepend.
    apply store_and_list_raises. right. exists (done ++ entry :: more).
    split; [exact Hp |]. apply for_each_raises; assumption.
Qed.

End ExitStatus.

Example scenario_accept_S1_skip_S2 :
  let r := Scenario.run (Scenario.at_home ["yes"; "no"]) in
  outcome r = Ret tt
  /\ download_calls (events r) = ["S1"]
  /\ Os.isdir (fs (world r)) "/w/data/S1" = true
  /\ Os.isfile (fs (world r)) "/w/data/S1/a1b2/response.tiff" = true
  /\ Os.path_exists (fs (world r)) "/w/data/S2" = false
  /\ saved_config (world r) = Scenario.profile.
Proof. vm_compute. repeat split; reflexivity. Qed.

(** The same run, iteration by iteration. *)
Example scenario_loop_returns :
  loop_returns Scenario.env Scenario.profile "/w" Scenario.bbox [Scenario.S1; Scenario.S2]
               (world (attempt "/w" (Scenario.at_home ["yes"; "no"]))).
Proof. apply loop_returns_spec. vm_compute. reflexivity. Qed.

(** The input ends before the second scene is answered: the exception
    of the second iteration is the outcome of the run. *)
Example scenario_input_ends :
  let r := Scenario.run (Scenario.at_home ["no"]) in
  outcome r = Raise EOFError
  /\ exit_status (outcome r) = 1%Z
  /\ last_event (events r) = Some (EvInput prompt_text None).
Proof. vm_compute. repeat split; reflexivity. Qed.

(** A scene whose acquisition date the client cannot read: the folders
    are made, the request is refused, and the exception leaves the
    iteration. *)
Example scenario_undated_scene :
  let r := select_scene Edge.env_strict_dates Scenario.profile "/w" Scenario.bbox
                        Edge.undated (Scenario.at_home ["yes"]) in
  outcome r = Raise (SHError "time_interval")
  /\ download_calls (events r) = ["S3"]
  /\ Os.isdir (fs (world r)) "/w/data/S3" = true
  /\ count is_request (events r) = 0%nat
  /\ count is_get_data (events r) = 0%nat.
Proof. vm_compute. repeat split; reflexivity. Qed.

(** ** The theorems at the concrete run *)

Lemma exit_status_zero_on_open_failure_and_abort :
  exit_status (outcome (Scenario.run Scenario.without_file)) = 0%Z
  /\ events (Scenario.run Scenario.without_file)
     = [EvOpen "/w/parameters.txt" "r+";
        EvPrint (PExn (OSError FileNotFoundError "/w/parameters.txt"))]
  /\ exit_status (outcome (Scenario.run (Scenario.at_home ["exit"]))) = 0%Z
  /\ outcome (Scenario.run (Scenario.at_home ["exit"])) = SysExit None
  /\ outcome (main Scenario.env_catalog_down "/w" 13 52 13.5 52.5 (Scenario.at_home ["yes"]))
     = Raise (SHError "503")
  /\ exit_status
       (outcome (main Scenario.env_catalog_down "/w" 13 52 13.5 52.5 (Scenario.at_home ["yes"])))
     = 1%Z.
Proof. vm_compute. repeat split; reflexivity. Qed.

Lemma failed_save_is_caught :
  outcome (authenticate Scenario.credentials Scenario.read_only_profile)
  = Raise (OSError PermissionError "config.toml")
  /\ outcome (Scenario.run Scenario.read_only_profile) = SysExit None
  /\ events (Scenario.run Scenario.read_only_profile)
     = [EvOpen "/w/parameters.txt" "r+";
        EvPrint (PParameters "my-instance" "my-client-id" "my-secret");
        EvConfigSave Scenario.profile;
        EvPrint (PExn (OSError PermissionError "config.toml"))].
Proof. vm_compute. repeat split; reflexivity. Qed.

Lemma credential_loader_three_lines_witness :
  PyStr.no_newline "my-instance" = true
  /\ PyStr.no_newline " my-client-id " = true
  /\ PyStr.no_newline "my-secret" = true
  /\ read_parameters Scenario.credentials = ("my-instance", "my-client-id", "my-secret").
Proof.
  split; [reflexivity |]. split; [reflexivity |]. split; [reflexivity |].
  exact (proj1 (credential_loader_three_lines
                  "my-instance" " my-client-id " "my-secret" nl_str
                  (Scenario.at_home [])
                  eq_refl eq_refl eq_refl
                  (or_intror (ex_intro _ EmptyString eq_refl)))).
Defined.

Lemma prompted_credentials_not_persisted_witness :
  read_parameters Scenario.only_instance = ("my-instance", "", "")
  /\ saved_config
       (world (authenticate Scenario.only_instance (Scenario.at_home ["i"; "c"; "s"])))
     = mkSHConfig "my-instance" "" "" []
  /\ outcome (authenticate Scenario.only_instance (Scenario.at_home ["i"; "c"; "s"]))
     = Ret (mkSHConfig "i" "c" "s" []).
Proof.
  split; [reflexivity |].
  pose proof (prompted_credentials_not_persisted
                Scenario.only_instance (Scenario.at_home ["i"; "c"; "s"])
                "my-instance" "" "" "i" "c" "s" []
                eq_refl eq_refl eq_refl eq_refl) as H.
  split; [exact (proj1 (proj2 H)) | exact (proj1 H)].
Defined.

Lemma selection_prompt_decides_witness :
  stdin (Scenario.at_home ["y"; "e"]) = "y" :: ["e"]
  /\ download_calls
       (events (select_scene Scenario.env Scenario.profile "/w" Scenario.bbox Scenario.S1
                             (Scenario.at_home ["y"; "e"])))
     = ["S1"]
  /\ for_each [Scenario.S2]
              (select_scene Scenario.env Scenario.profile "/w" Scenario.bbox)
              (Scenario.at_home ["e"; "y"])
     = mkRes (SysExit None) (Scenario.at_home ["y"])
             (asked Scenario.S2 "e" (Scenario.at_home ["e"; "y"])).
Proof.
  split; [reflexivity |]. split.
  - exact (proj1 (proj2 (proj1 (selection_prompt_decides
             Scenario.env Scenario.profile "/w" Scenario.bbox Scenario.S1 []
             (Scenario.at_home ["y"; "e"]) "y" ["e"] eq_refl)
             (or_intror (or_introl eq_refl))))).
  - exact (proj1 (proj1 (proj2 (selection_prompt_decides
             Scenario.env Scenario.profile "/w" Scenario.bbox Scenario.S2 []
             (Scenario.at_home ["e"; "y"]) "e" ["y"] eq_refl))
             (or_intror (or_introl eq_refl)))).
Defined.

Lemma folders_exist_before_transfer_witness :
  let o := mkObs (<["/w/data/S1/a1b2" := Dir]> Scenario.home_S1)
                 (EvWrite "/w/data/S1/a1b2/request.json") in
  In o (log (download_data Scenario.env Scenario.profile "/w" "S1" Scenario.bbox "2023-06-01"
                           (Scenario.at_home [])))
  /\ Os.isdir (at_fs o) "/w/data" = true
  /\ Os.isdir (at_fs o) "/w/data/S1" = true.
Proof.
  assert (Hin : In (mkObs (<["/w/data/S1/a1b2" := Dir]> Scenario.home_S1)
                          (EvWrite "/w/data/S1/a1b2/request.json"))
                   (log (download_data Scenario.env Scenario.profile "/w" "S1" Scenario.bbox
                                       "2023-06-01" (Scenario.at_home [])))).
  { apply (nth_error_In _ 7). vm_compute. reflexivity. }
  split; [exact Hin |].
  pose proof (folders_exist_before_transfer
                Scenario.env Scenario.profile "/w" "S1" Scenario.bbox "2023-06-01"
                (Scenario.at_home []) _ Hin eq_refl) as H.
  split.
  - exact (proj1 (proj2 (proj2 H)) eq_refl).
  - exact (proj2 (proj2 (proj2 H)) eq_refl).
Defined.

Lemma accepted_scene_request_witness :
  stdin (Scenario.at_home ["oui"]) = "oui" :: []
  /\ accept_token "oui" = true
  /\ In (EvRequest
           (mkRequest "/w/data/S1" evalscript_all_bands
                      [mkInputData SENTINEL2_L2A ("2023-06-01", "2023-06-01") 0.2 LEAST_CC]
                      [("default", TIFF)] Scenario.bbox (3406%Z, 5567%Z) Scenario.profile))
        (events (select_scene Scenario.env Scenario.profile "/w" Scenario.bbox Scenario.S1
                              (Scenario.at_home ["oui"]))).
Proof.
  split; [reflexivity |]. split; [reflexivity |].
  pose proof (accepted_scene_request
                Scenario.env Scenario.profile "/w" Scenario.bbox Scenario.S1
                (Scenario.at_home ["oui"]) "oui" [] eq_refl eq_refl) as H.
  exact (proj1 (proj2 (proj2 (proj1 (proj2 (proj2 (proj2 H)))
                                    "/w/data/S1" (3406%Z, 5567%Z)
                                    eq_refl eq_refl eq_refl)))).
Defined.

Lemma request_maxcc_is_one_fifth_witness :
  let rq := build_request Scenario.profile "/w/data/S1" Scenario.bbox "2023-06-01"
                          (3406%Z, 5567%Z) in
  In (EvRequest rq)
     (events (download_data Scenario.env Scenario.profile "/w" "S1" Scenario.bbox "2023-06-01"
                            (Scenario.at_home [])))
  /\ exists i, rq_input_data rq = [i] /\ in_maxcc i = 0.2%Q.
Proof.
  assert (Hin : In (EvRequest (build_request Scenario.profile "/w/data/S1" Scenario.bbox
                                             "2023-06-01" (3406%Z, 5567%Z)))
                   (events (download_data Scenario.env Scenario.profile "/w" "S1" Scenario.bbox
                                          "2023-06-01" (Scenario.at_home [])))).
  { apply (nth_error_In _ 4). vm_compute. reflexivity. }
  split; [exact Hin |].
  destruct (request_maxcc_is_one_fifth
              Scenario.env Scenario.profile "/w" "S1" Scenario.bbox "2023-06-01"
              (Scenario.at_home []) _ Hin) as (i & Hi & Hm & _).
  exists i. split; assumption.
Defined.

(** * Further properties of the script *)

(** ** What a run leaves untouched *)

Section Steady.

Variable R : World -> World -> Prop.
Hypothesis R_refl : forall w, R w w.
Hypothesis R_trans : forall u v w, R u v -> R v w -> R u w.

Lemma steady_ret {A} (a : A) : steady R (ret a).
Proof using R_refl. intros w. apply R_refl. Qed.

Lemma steady_raise {A} (e : exn) : steady R (@raise A e).
Proof using R_refl. intros w. apply R_refl. Qed.

Lemma steady_sys_exit {A} (c : option Z) : steady R (@sys_exit A c).
Proof using R_refl. intros w. apply R_refl. Qed.

Lemma steady_lift_lib {A} (x : exn + A) : steady R (lift_lib x).
Proof using R_refl. destruct x; [apply steady_raise | apply steady_ret]. Qed.

Lemma steady_emit (e : Event) : steady R (emit e).
Proof using R_refl. intros w. apply R_refl. Qed.

Lemma steady_bind {A B} (m : M A) (k : A -> M B) :
  steady R m -> (forall a, steady R (k a)) -> steady R (bind m k).
Proof using R_trans.
  intros Hm Hk w. rewrite bind_unfold.
  destruct (outcome (m w)) as [a | e | c]; try apply Hm.
  rewrite world_prepend. eapply R_trans; [apply Hm | apply Hk].
Qed.

Lemma steady_for_each {A} (l : list A) (body : A -> M unit) :
  (forall x, steady R (body x)) -> steady R (for_each l body).
Proof using R_refl R_trans.
  intros Hb. induction l as [|x l IH]; simpl.
  - apply steady_ret.
  - apply steady_bind; [apply Hb | intros _; exact IH].
Qed.

Lemma steady_try_except {A} (body : M A) (handler : exn -> M A) :
  steady R body -> (forall e, steady R (handler e)) -> steady R (try_except body handler).
Proof using R_trans.
  intros Hb Hh w. unfold try_except.
  destruct (outcome (body w)) as [a | e | c]; try apply Hb.
  cbn [world]. eapply R_trans; [apply Hb | apply Hh].
Qed.

Lemma steady_state_dependent {A} (f : World -> M A) :
  (forall w, steady R (f w)) -> steady R (fun w => f w w).
Proof using Type. intros H w. apply (H w w). Qed.

End Steady.

Lemma same_io_refl (w : World) : same_io w w.
Proof. reflexivity. Qed.

Lemma same_io_trans (u v w : World) : same_io u v -> same_io v w -> same_io u w.
Proof. unfold same_io. congruence. Qed.

Lemma same_fs_refl (w : World) : same_fs w w.
Proof. reflexivity. Qed.

Lemma same_fs_trans (u v w : World) : same_fs u v -> same_fs v w -> same_fs u w.
Proof. unfold same_fs. congruence. Qed.

Lemma grown_fs_refl (w : World) : grown_fs w w.
Proof. apply fs_grows_refl. Qed.

Lemma grown_fs_trans (u v w : World) : grown_fs u v -> grown_fs v w -> grown_fs u w.
Proof. apply fs_grows_trans. Qed.

Lemma same_fs_grown {A} (m : M A) : steady same_fs m -> steady grown_fs m.
Proof. intros H w. unfold grown_fs. rewrite (H w). apply fs_grows_refl. Qed.

Lemma store_same_io (folder : string) (entry : string * node) :
  steady same_io (store folder entry).
Proof.
  intros w. unfold store.
  destruct (Os.parent_check _ _); [reflexivity |].
  destruct (snd entry); destruct (fs w !! _) as [[|]|]; reflexivity.
Qed.

Lemma store_grown_fs (folder : string) (entry : string * node) :
  steady grown_fs (store folder entry).
Proof.
  intros w. apply (store_grows (fun _ => True)). intros; exact I.
Qed.

Lemma make_folders_same_io (path id : string) : steady same_io (make_folders path id).
Proof.
  intros w. destruct (make_folders_spec path id w) as (_ & _ & _ & H1 & H2 & H3 & _).
  unfold same_io, io_state. rewrite H1, H2, H3. reflexivity.
Qed.

Lemma make_folders_grown_fs (path id : string) : steady grown_fs (make_folders path id).
Proof.
  intros w. destruct (make_folders_spec path id w) as (_ & H & _). exact H.
Qed.

Lemma input_same_fs (prompt : string) : steady same_fs (input prompt).
Proof. intros w. unfold input. destruct (stdin w); reflexivity. Qed.

Lemma config_save_same_fs (cfg : SHConfig) : steady same_fs (config_save cfg).
Proof. intros w. unfold config_save. destruct (save_failure w); reflexivity. Qed.

Lemma open_rw_same_fs (p : string) : steady same_fs (Os.open_rw p).
Proof. intros w. unfold Os.open_rw. destruct (fs w !! p) as [[|]|]; reflexivity. Qed.

Lemma authenticate_same_fs (file : string) : steady same_fs (authenticate file).
Proof.
  unfold authenticate. destruct (read_parameters file) as [[a b] c].
  unfold authenticate_with, print.
  apply (steady_bind _ same_fs_trans); [apply (steady_emit _ same_fs_refl) | intros _].
  apply (steady_bind _ same_fs_trans); [intros w; reflexivity | intros cfg].
  apply (steady_bind _ same_fs_trans); [apply config_save_same_fs | intros _].
  destruct (_ || _); [| apply (steady_ret _ same_fs_refl)].
  apply (steady_bind _ same_fs_trans); [apply (steady_emit _ same_fs_refl) | intros _].
  apply (steady_bind _ same_fs_trans); [apply input_same_fs | intros v1].
  apply (steady_bind _ same_fs_trans); [apply input_same_fs | intros v2].
  apply (steady_bind _ same_fs_trans); [apply input_same_fs | intros v3].
  apply (steady_ret _ same_fs_refl).
Qed.

Section Frames.

Context (env : Env).

Lemma request_and_save_steady (R : World -> World -> Prop) config d bbox new_date :
  (forall w, R w w) -> (forall u v w, R u v -> R v w -> R u w) ->
  (forall folder entry, steady R (store folder entry)) ->
  steady R (request_and_save env config d bbox new_date).
Proof.
  intros Hr Ht Hs. unfold request_and_save, get_data, print.
  apply (steady_bind _ Ht); [apply (steady_lift_lib _ Hr) | intros size].
  apply (steady_bind _ Ht); [apply (steady_emit _ Hr) | intros _].
  apply (steady_bind _ Ht); [apply (steady_lift_lib _ Hr) | intros _].
  apply (steady_bind _ Ht); [apply (steady_emit _ Hr) | intros _].
  apply (steady_bind _ Ht).
  { apply (steady_bind _ Ht); [apply (steady_emit _ Hr) | intros _].
    apply (steady_bind _ Ht); [apply (steady_lift_lib _ Hr) | intros entries].
    apply (steady_for_each _ Hr Ht). intros x. apply Hs. }
  intros _.
  apply (steady_bind _ Ht); [apply (steady_emit _ Hr) | intros _].
  apply (steady_state_dependent R
           (fun w0 => for_each (Os.walk_files (fs w0) _) (fun p => emit (EvPrint (PStr p))))).
  intros w0. apply (steady_for_each _ Hr Ht). intros p. apply (steady_emit _ Hr).
Qed.

Lemma download_data_steady (R : World -> World -> Prop) config path id bbox new_date :
  (forall w, R w w) -> (forall u v w, R u v -> R v w -> R u w) ->
  (forall folder entry, steady R (store folder entry)) ->
  steady R (make_folders path id) ->
  steady R (download_data env config path id bbox new_date).
Proof.
  intros Hr Ht Hs Hm. unfold download_data.
  apply (steady_bind _ Ht); [apply (steady_emit _ Hr) | intros _].
  apply (steady_bind _ Ht); [exact Hm | intros d].
  apply request_and_save_steady; assumption.
Qed.

Lemma download_data_same_io config path id bbox new_date :
  steady same_io (download_data env config path id bbox new_date).
Proof.
  apply download_data_steady;
    auto using same_io_refl, store_same_io, make_folders_same_io.
  apply same_io_trans.
Qed.

(** [download_data] reads no input, leaves the saved profile alone and
    removes nothing from the file system, whatever its outcome. *)
Theorem download_data_frame config path id bbox new_date (w : World) :
  let r := download_data env config path id bbox new_date w in
  stdin (world r) = stdin w
  /\ saved_config (world r) = saved_config w
  /\ save_failure (world r) = save_failure w
  /\ (forall q, Os.path_exists (fs w) q = true -> Os.path_exists (fs (world r)) q = true)
  /\ (forall q, Os.isdir (fs w) q = true -> Os.isdir (fs (world r)) q = true)
  /\ count is_prompt (events r) = 0%nat
  /\ count is_config_save (events r) = 0%nat.
Proof.
  intros r.
  pose proof (download_data_same_io config path id bbox new_date w) as Hio.
  pose proof (download_data_steady grown_fs config path id bbox new_date
                grown_fs_refl grown_fs_trans store_grown_fs
                (make_folders_grown_fs path id) w) as Hfs.
  fold r in Hio, Hfs. unfold same_io, io_state in Hio. injection Hio as H1 H2 H3.
  repeat (split; [assumption |]).
  split; [intros q; apply (Hfs q) |].
  split; [intros q; apply (Hfs q) |].
  split; [apply download_data_calls |].
  subst r.
  destruct (download_data_tail env config path id bbox new_date w) as (tail & -> & Ht).
  change (count is_config_save (EvDownloadCall id new_date :: ?l))
    with (count is_config_save l).
  apply count_none. eapply Forall_impl; [exact Ht |].
  intros e He. apply (download_event_kind _ _ _ _ _ _ _ He).
Qed.

End Frames.

(** ** The selection loop as a whole *)

Lemma download_calls_app (l1 l2 : list Event) :
  download_calls (l1 ++ l2) = download_calls l1 ++ download_calls l2.
Proof.
  induction l1 as [|e l1 IH]; [reflexivity |].
  destruct e; cbn [app download_calls]; rewrite IH; reflexivity.
Qed.

Section WholeLoop.

Context (env : Env) (config : SHConfig) (path : string) (bbox : BBox).

Local Abbreviation body := (select_scene env config path bbox).

(** The loop calls [download_data] for the accepted records, in their
    order, and for no other: the calls made are an initial part of the
    ids the answers select, and all of them when the loop returns or ends
    on an abort token.  It asks at most once per record. *)
Theorem selection_loop_downloads (rs : list SceneRecord) (w : World) :
  let r := for_each rs body w in
  (exists pending,
      accepted_ids rs (stdin w) = download_calls (events r) ++ pending
      /\ (outcome r = Ret tt -> pending = [])
      /\ (forall c, outcome r = SysExit c -> pending = []))
  /\ (count is_prompt (events r) <= length rs)%nat.
Proof.
  revert w. induction rs as [|result more IH]; intros w.
  { split; [exists []; repeat split | cbn; lia]. }
  cbn zeta. rewrite for_each_step.
  destruct (stdin w) as [|tok rest] eqn:Hin.
  { rewrite (select_scene_eof _ _ _ _ _ _ Hin). cbn [outcome log world].
    split; [exists []; repeat split; try discriminate | cbn; lia]. }
  destruct (accept_token tok) eqn:Ha.
  - rewrite (select_scene_accept _ _ _ _ _ _ _ _ Hin Ha).
    set (dl := download_data env config path (sc_id result) bbox
                             (PyStr.slice_to 10 (sc_datetime result)) (answered w rest)).
    destruct (download_data_calls env config path (sc_id result) bbox
                (PyStr.slice_to 10 (sc_datetime result)) (answered w rest)) as [Hc Hp].
    fold dl in Hc, Hp.
    assert (Hst : stdin (world dl) = rest).
    { pose proof (download_data_same_io env config path (sc_id result) bbox
                    (PyStr.slice_to 10 (sc_datetime result)) (answered w rest)) as Hio.
      fold dl in Hio. unfold same_io, io_state in Hio. injection Hio as H1 _ _. exact H1. }
    cbn [accepted_ids]. rewrite Ha.
    rewrite outcome_prepend, world_prepend, log_prepend.
    destruct (outcome dl) as [[] | e | c] eqn:Ho.
    + destruct (IH (world dl)) as [(pending & Hacc & Hret & Hexit) Hcount].
      cbn zeta in *. rewrite Hst in Hacc.
      rewrite outcome_prepend, !events_prepend, map_app.
      fold (events dl).
      split.
      * exists pending. rewrite !download_calls_app, Hc. cbn [asked map ev download_calls app].
        rewrite Hacc. split; [reflexivity | split; assumption].
      * rewrite !count_app, Hp. cbn. cbn in Hcount. lia.
    + cbn [outcome log]. unfold events. cbn [log]. rewrite map_app. fold (events dl).
      split.
      * exists (accepted_ids more rest). rewrite download_calls_app, Hc.
        split; [reflexivity |]. split; [discriminate | intros c [=]].
      * rewrite count_app, Hp. cbn. lia.
    + exfalso. exact (no_exit_download_data env _ _ _ _ _ _ _ Ho).
  - destruct (abort_token tok) eqn:Hb.
    + rewrite (select_scene_abort _ _ _ _ _ _ _ _ Hin Hb). cbn [outcome log world].
      cbn [accepted_ids]. rewrite Ha, Hb.
      split; [exists []; repeat split | cbn; lia].
    + rewrite (select_scene_skip _ _ _ _ _ _ _ _ Hin Ha Hb). cbn [outcome log world].
      cbn [accepted_ids]. rewrite Ha, Hb.
      destruct (IH (answered w rest)) as [(pending & Hacc & Hret & Hexit) Hcount].
      cbn zeta in *. change (stdin (answered w rest)) with rest in Hacc.
      rewrite outcome_prepend, events_prepend.
      split.
      * exists pending. rewrite download_calls_app. cbn [asked map ev download_calls app].
        split; [exact Hacc | split; assumption].
      * rewrite count_app. cbn. cbn in Hcount. lia.
Qed.

(** No answer both downloads and aborts: an iteration that raises
    [SystemExit] has made no call of [download_data], and an iteration
    that has made one has not raised [SystemExit]. *)
Theorem abort_never_downloads (result : SceneRecord) (w : World) :
  let r := body result w in
  (forall t, accept_token t = true -> abort_token t = false)
  /\ (forall c, outcome r = SysExit c -> c = None /\ download_calls (events r) = [])
  /\ (download_calls (events r) <> [] -> forall c, outcome r <> SysExit c).
Proof.
  intros r.
  assert (H : forall c, outcome r = SysExit c -> c = None /\ download_calls (events r) = []).
  { intros c Hc. subst r.
    destruct (select_scene_cases env config path bbox result w)
      as [(_ & Ho & _) | (tok & rest & tail & _ & He & _ & Hab & Hna)].
    - rewrite Ho in Hc. discriminate.
    - destruct (abort_token tok) eqn:Hb.
      + destruct (Hab eq_refl) as [Ho ->]. rewrite Ho in Hc. injection Hc as <-.
        rewrite He. split; reflexivity.
      + exfalso. exact (Hna eq_refl c Hc). }
  split; [exact accept_excludes_abort |].
  split; [exact H |].
  intros Hd c Hc. apply Hd. exact (proj2 (H c Hc)).
Qed.

End WholeLoop.

(** ** The paths the script builds *)

Lemma app_cons (c : ascii) (a b : string) : String c a +:+ b = String c (a +:+ b).
Proof. reflexivity. Qed.

Lemma endswith_sep_cons (d : ascii) (x : string) :
  x <> EmptyString -> PyStr.endswith_sep (String d x) = PyStr.endswith_sep x.
Proof. destruct x; [congruence | reflexivity]. Qed.

Lemma endswith_sep_app (a : string) (c : ascii) (b : string) :
  PyStr.endswith_sep (a +:+ String c b) = PyStr.endswith_sep (String c b).
Proof.
  induction a as [|d a IH]; [reflexivity |].
  rewrite app_cons, endswith_sep_cons; [exact IH |].
  destruct a; discriminate.
Qed.

Lemma join_plain_root (a b : string) :
  plain_root a = true -> PyStr.startswith_sep b = false ->
  PyStr.os_path_join a b = a +:+ "/" +:+ b.
Proof.
  unfold plain_root, PyStr.os_path_join. intros Ha ->.
  apply andb_prop in Ha as [H1 H2].
  apply negb_true_iff in H1, H2. rewrite H1, H2. reflexivity.
Qed.

Lemma plain_root_data (path : string) :
  plain_root path = true -> plain_root (path +:+ "/data") = true.
Proof.
  intros _. unfold plain_root.
  change (path +:+ "/data") with (path +:+ String "/" "data").
  rewrite endswith_sep_app. destruct path; reflexivity.
Qed.

Lemma head_of_join (a b : string) :
  no_slash b = true -> Os.head_of (a +:+ String PyStr.slash b) = Some a.
Proof.
  intros Hb.
  assert (Hn : Os.head_of b = None).
  { induction b as [|c b IH]; [reflexivity |].
    cbn in Hb. apply andb_prop in Hb as [Hc Hb]. apply negb_true_iff in Hc.
    cbn [Os.head_of]. rewrite (IH Hb), Hc. reflexivity. }
  induction a as [|c a IH].
  - change (EmptyString +:+ String PyStr.slash b) with (String PyStr.slash b).
    cbn [Os.head_of]. rewrite Hn. reflexivity.
  - rewrite app_cons. cbn [Os.head_of]. rewrite IH. reflexivity.
Qed.

Lemma rstrip_sep_plain (a : string) :
  PyStr.endswith_sep a = false -> Os.rstrip_sep (a +:+ "/") = a.
Proof.
  induction a as [|c a IH]; intros H; [reflexivity |].
  rewrite app_cons. cbn [Os.rstrip_sep].
  destruct a as [|d a].
  - cbn in H. cbn. rewrite H. reflexivity.
  - rewrite IH by exact H. cbn [PyStr.is_empty]. rewrite andb_false_r. reflexivity.
Qed.

(** [os.path.dirname] undoes [os.path.join] of a single component. *)
Lemma dirname_join (a b : string) :
  plain_root a = true -> no_slash b = true ->
  Os.dirname (a +:+ "/" +:+ b) = a.
Proof.
  intros Ha Hb. unfold Os.dirname.
  change (a +:+ "/" +:+ b) with (a +:+ String PyStr.slash b).
  unfold plain_root in Ha. apply andb_prop in Ha as [Ha He].
  apply negb_true_iff in Ha, He.
  rewrite (head_of_join a b Hb), (rstrip_sep_plain a He), Ha. reflexivity.
Qed.

Lemma no_slash_starts (b : string) : no_slash b = true -> PyStr.startswith_sep b = false.
Proof.
  destruct b as [|c b]; [reflexivity |]. cbn.
  intros H. apply andb_prop in H as [H _]. apply negb_true_iff in H. exact H.
Qed.

Lemma parent_check_join (f : filesystem) (a b : string) :
  plain_root a = true -> no_slash b = true ->
  Os.parent_check f (PyStr.os_path_join a b)
  = match f !! a with
    | Some Dir => None
    | Some (File _) => Some NotADirectoryError
    | None => Some FileNotFoundError
    end.
Proof.
  intros Ha Hb. rewrite (join_plain_root a b Ha (no_slash_starts b Hb)).
  unfold Os.parent_check. rewrite (dirname_join a b Ha Hb).
  unfold plain_root in Ha. apply andb_prop in Ha as [Ha _]. apply negb_true_iff in Ha.
  rewrite Ha. reflexivity.
Qed.

Lemma str_app_assoc (a b c : string) : (a +:+ b) +:+ c = a +:+ (b +:+ c).
Proof.
  induction a as [|x a IH]; [reflexivity |].
  rewrite !app_cons, IH. reflexivity.
Qed.

Lemma data_level (path : string) :
  plain_root path = true -> PyStr.os_path_join path "data" = path +:+ "/data".
Proof. intros H. apply (join_plain_root path "data" H eq_refl). Qed.

Lemma scene_level (path id : string) :
  plain_root path = true -> PyStr.startswith_sep id = false ->
  PyStr.os_path_join (PyStr.os_path_join path "data") id = path +:+ "/data/" +:+ id.
Proof.
  intros Hp Hi. rewrite (data_level path Hp).
  rewrite (join_plain_root _ id (plain_root_data path Hp) Hi).
  rewrite str_app_assoc. reflexivity.
Qed.

Section Folders.

Context (env : Env).

(** Where the data goes: a scene id that starts with a separator is
    taken as the folder itself, whatever the root; otherwise, under a
    root that is not empty and does not end in a separator, the folder is
    [<path>/data/<id>]. *)
Theorem data_folder_of_request config path id bbox new_date (w : World) (rq : Request) :
  In (EvRequest rq) (events (download_data env config path id bbox new_date w)) ->
  (PyStr.startswith_sep id = true -> rq_data_folder rq = id)
  /\ (plain_root path = true -> PyStr.startswith_sep id = false ->
      rq_data_folder rq = path +:+ "/data/" +:+ id).
Proof.
  intros Hin.
  destruct (download_data_requests env config path id bbox new_date w rq (or_introl Hin))
    as (size & _ & ->).
  cbn [build_request rq_data_folder]. split.
  - intros Hs. unfold PyStr.os_path_join at 1. rewrite Hs. reflexivity.
  - intros Hp Hi. apply scene_level; assumption.
Qed.

(** Without a root to create [data] in, [download_data] stops at its
    first [os.mkdir]: the error is raised, no request is built and the
    world is as before. *)
Theorem missing_root_stops_download config path id bbox new_date (w : World) (k : OSErrorKind) :
  plain_root path = true ->
  Os.path_exists (fs w) (path +:+ "/data") = false ->
  root_error (fs w) path = Some k ->
  download_data env config path id bbox new_date w
  = mkRes (Raise (OSError k (path +:+ "/data"))) w
          [mkObs (fs w) (EvDownloadCall id new_date);
           mkObs (fs w) (EvMkdir (path +:+ "/data") (Some k))].
Proof.
  intros Hp He Hr. unfold download_data. rewrite bind_emit.
  assert (Hpc : Os.parent_check (fs w) (path +:+ "/data") = Some k).
  { rewrite <- (data_level path Hp), (parent_check_join (fs w) path "data" Hp eq_refl).
    exact Hr. }
  assert (Hm : make_folders path id w
               = mkRes (Raise (OSError k (path +:+ "/data"))) w
                       [mkObs (fs w) (EvMkdir (path +:+ "/data") (Some k))]).
  { rewrite make_folders_unfold, (data_level path Hp).
    apply bind_raise_step.
    destruct (ensure_result (path +:+ "/data") w)
      as [[Hx _] | [(_ & Hn & _) | (k' & _ & Hk & Heq)]]; try congruence. }
  rewrite (bind_raise_step _ _ _ _ _ _ Hm). reflexivity.
Qed.

(** Under a root that is a directory and for a scene id that is a single
    path component, [download_data] calls [os.mkdir] only on a name that
    is absent and whose parent is a directory at that moment, so that no
    call can fail for a missing parent, a parent that is a regular file
    or a name that is taken.  Whenever the folder creation returns, it
    returns [<path>/data/<id>], both levels are directories when
    [download_data] ends, and the data is asked for as soon as the size
    is computed and the client accepts the arguments of the request. *)
Theorem existing_root_folders_made config path id bbox new_date (w : World) :
  plain_root path = true ->
  no_slash id = true -> PyStr.is_empty id = false ->
  Os.isdir (fs w) path = true ->
  Os.isfile (fs w) (path +:+ "/data") = false ->
  Os.isfile (fs w) (path +:+ "/data/" +:+ id) = false ->
  let r := download_data env config path id bbox new_date w in
  (forall o p k,
      In o (log r) -> ev o = EvMkdir p k ->
      Os.path_exists (at_fs o) p = false /\ Os.parent_check (at_fs o) p = None)
  /\ (forall d,
        outcome (make_folders path id w) = Ret d ->
        d = path +:+ "/data/" +:+ id
        /\ Os.isdir (fs (world r)) (path +:+ "/data") = true
        /\ Os.isdir (fs (world r)) (path +:+ "/data/" +:+ id) = true
        /\ (forall size,
              bbox_to_dimensions env bbox 10 = inr size ->
              accept_request env (build_request config d bbox new_date size) = inr tt ->
              In (EvRequest (build_request config d bbox new_date size)) (events r)
              /\ In (EvGetData (build_request config d bbox new_date size)) (events r))).
Proof.
  intros Hp Hns Hne Hroot Hf1 Hf2 r.
  pose proof (data_level path Hp) as E1.
  pose proof (scene_level path id Hp (no_slash_starts id Hns)) as E2.
  assert (Hpc1 : forall f, Os.isdir f path = true ->
                           Os.parent_check f (path +:+ "/data") = None).
  { intros f Hd. rewrite <- E1, (parent_check_join f path "data" Hp eq_refl).
    unfold Os.isdir in Hd. destruct (f !! path) as [[|]|]; congruence. }
  assert (Hpc2 : forall f, Os.isdir f (path +:+ "/data") = true ->
                           Os.parent_check f (path +:+ "/data/" +:+ id) = None).
  { intros f Hd. rewrite <- E2, E1.
    rewrite (parent_check_join f (path +:+ "/data") id (plain_root_data path Hp) Hns).
    unfold Os.isdir in Hd. destruct (f !! (path +:+ "/data")) as [[|]|]; congruence. }
  assert (Habsent : forall (f : filesystem) q, f !! q = None -> Os.path_exists f q = false).
  { intros f q Hq. unfold Os.path_exists. rewrite Hq. reflexivity. }
  set (sound := fun o : Obs =>
                  forall p k, ev o = EvMkdir p k ->
                              Os.path_exists (at_fs o) p = false
                              /\ Os.parent_check (at_fs o) p = None).
  assert (Hlog : Forall sound (log (make_folders path id w))).
  { rewrite make_folders_unfold, E1.
    replace (PyStr.os_path_join (path +:+ "/data") id) with (path +:+ "/data/" +:+ id)
      by (rewrite <- E1; symmetry; exact E2).
    destruct (ensure_result (path +:+ "/data") w)
      as [[Hx Heq] | [(Hl & _ & Heq) | (k' & _ & Hk & _)]];
      [| | rewrite (Hpc1 _ Hroot) in Hk; discriminate];
      rewrite (bind_ret_step _ _ _ _ _ _ Heq), log_prepend.
    - assert (Hd : Os.isdir (fs w) (path +:+ "/data") = true)
        by (apply exists_not_file_isdir; assumption).
      cbn [app].
      destruct (ensure_result (path +:+ "/data/" +:+ id) w)
        as [[_ Heq2] | [(Hl2 & _ & Heq2) | (k' & _ & Hk & _)]];
        [| | rewrite (Hpc2 _ Hd) in Hk; discriminate];
        rewrite (bind_ret_step _ _ _ _ _ _ Heq2), log_prepend; cbn [app ret log].
      + constructor.
      + constructor; [| constructor].
        intros p k [= <- _]. cbn [at_fs]. split; [apply Habsent, Hl2 | apply Hpc2, Hd].
    - set (w1 := Os.set_fs w (<[path +:+ "/data" := Dir]> (fs w))) in *.
      assert (Hd : Os.isdir (fs w1) (path +:+ "/data") = true).
      { unfold w1, Os.isdir; cbn. rewrite lookup_insert_eq. reflexivity. }
      apply Forall_app. split.
      { constructor; [| constructor].
        intros p k [= <- _]. cbn [at_fs]. split; [apply Habsent, Hl | apply Hpc1, Hroot]. }
      destruct (ensure_result (path +:+ "/data/" +:+ id) w1)
        as [[_ Heq2] | [(Hl2 & _ & Heq2) | (k' & _ & Hk & _)]];
        [| | rewrite (Hpc2 _ Hd) in Hk; discriminate];
        rewrite (bind_ret_step _ _ _ _ _ _ Heq2), log_prepend; cbn [app ret log].
      + constructor.
      + constructor; [| constructor].
        intros p k [= <- _]. cbn [at_fs]. split; [apply Habsent, Hl2 | apply Hpc2, Hd]. }
  split.
  { intros o p k Hin He.
    apply download_data_log in Hin as [-> | [Hin | (d & _ & Hin)]].
    - discriminate.
    - rewrite List.Forall_forall in Hlog. exact (Hlog o Hin p k He).
    - apply request_and_save_no_mkdir in Hin. rewrite He in Hin. discriminate. }
  intros d Hmf.
  destruct (make_folders_spec path id w) as (_ & G & K & _ & _ & _ & _ & HR & _).
  destruct (HR _ Hmf) as (Hd & X1 & X2). rewrite E1 in X1. rewrite E2 in X2.
  assert (Hfinal : fs_grows (fs (world (make_folders path id w))) (fs (world r))).
  { subst r. rewrite download_data_steps, world_prepend, Hmf, world_prepend.
    apply request_and_save_respects. }
  split; [rewrite Hd; exact E2 |].
  split.
  { apply Hfinal, exists_not_file_isdir; [exact X1 |]. eapply not_file_kept; eassumption. }
  split.
  { apply Hfinal, exists_not_file_isdir; [exact X2 |]. eapply not_file_kept; eassumption. }
  intros size Hs Ha. subst r. rewrite download_data_events. cbn zeta. rewrite Hmf, Hs.
  unfold submitted. rewrite Ha.
  split; right; apply in_or_app; right; right.
  - left. reflexivity.
  - right. left. reflexivity.
Qed.

End Folders.

(** ** The credential loader on any file *)

Lemma readline_shape (s : string) :
  exists l0, PyStr.no_newline l0 = true
             /\ (fst (PyStr.readline s) = l0 \/ fst (PyStr.readline s) = l0 +:+ nl_str).
Proof.
  induction s as [|c s [l0 [Hn Hl]]].
  - exists EmptyString. split; [reflexivity | left; reflexivity].
  - cbn [PyStr.readline]. destruct (Ascii.eqb c PyStr.nl) eqn:Hc.
    + apply Ascii.eqb_eq in Hc. subst c.
      exists EmptyString. split; [reflexivity | right; reflexivity].
    + destruct (PyStr.readline s) as [l r]. cbn [fst] in *.
      exists (String c l0). split.
      * cbn. rewrite Hc, Hn. reflexivity.
      * destruct Hl as [-> | ->]; [left | right]; reflexivity.
Qed.

Lemma no_newline_lstrip (s : string) :
  PyStr.no_newline s = true -> PyStr.no_newline (PyStr.lstrip s) = true.
Proof.
  induction s as [|c s IH]; [reflexivity |]. intros H.
  cbn [PyStr.lstrip]. destruct (PyStr.isspace c); [| exact H].
  cbn in H. apply andb_prop in H as [_ H]. exact (IH H).
Qed.

Lemma no_newline_rstrip (s : string) :
  PyStr.no_newline s = true -> PyStr.no_newline (PyStr.rstrip s) = true.
Proof.
  induction s as [|c s IH]; [reflexivity |]. intros H.
  cbn in H. apply andb_prop in H as [Hc H].
  cbn [PyStr.rstrip]. destruct (_ && _); [reflexivity |].
  cbn. rewrite Hc, (IH H). reflexivity.
Qed.

Lemma strip_readline_clean (s : string) : clean (PyStr.strip (fst (PyStr.readline s))).
Proof.
  destruct (readline_shape s) as (l0 & Hn & Hl).
  assert (E : PyStr.strip (fst (PyStr.readline s)) = PyStr.strip l0).
  { destruct Hl as [-> | ->]; [reflexivity | apply strip_line_feed]. }
  rewrite E. split.
  - unfold PyStr.strip. apply no_newline_rstrip, no_newline_lstrip, Hn.
  - apply strip_trimmed.
Qed.

Lemma read_parameters_clean (file : string) :
  let '(a, b, c) := read_parameters file in clean a /\ clean b /\ clean c.
Proof.
  unfold read_parameters.
  pose proof (strip_readline_clean file) as H1.
  destruct (PyStr.readline file) as [l1 f1].
  pose proof (strip_readline_clean f1) as H2.
  destruct (PyStr.readline f1) as [l2 f2].
  pose proof (strip_readline_clean f2) as H3.
  destruct (PyStr.readline f2) as [l3 f3].
  cbn [fst] in *. auto.
Qed.

Lemma same_profile_refl (w : World) : same_profile w w.
Proof. reflexivity. Qed.

Lemma same_profile_trans (u v w : World) :
  same_profile u v -> same_profile v w -> same_profile u w.
Proof. unfold same_profile. congruence. Qed.

Lemma input_same_profile (prompt : string) : steady same_profile (input prompt).
Proof. intros w. unfold input. destruct (stdin w); reflexivity. Qed.

(** After [config.save()], [authenticate] only prints and asks. *)
Lemma authenticate_saved (file : string) (w : World) (a b c : string) :
  read_parameters file = (a, b, c) ->
  save_failure w = None ->
  saved_config (world (authenticate file w))
  = mkSHConfig a b c (other_settings (saved_config w)).
Proof.
  intros Hp Hs. rewrite (authenticate_unfold _ _ _ _ Hp), authenticate_with_steps.
  rewrite world_prepend, Hs, world_prepend.
  destruct (_ || _); [| reflexivity].
  match goal with
  | |- saved_config (world (?m ?w')) = _ =>
      assert (H : steady same_profile m); [| exact (H w')]
  end.
  unfold print.
  apply (steady_bind _ same_profile_trans); [apply (steady_emit _ same_profile_refl) | intros _].
  apply (steady_bind _ same_profile_trans); [apply input_same_profile | intros v1].
  apply (steady_bind _ same_profile_trans); [apply input_same_profile | intros v2].
  apply (steady_bind _ same_profile_trans); [apply input_same_profile | intros v3].
  apply (steady_ret _ same_profile_refl).
Qed.

(** Whatever the credential file holds, the three fields
    [config.save()] writes are each on one line and free of white space
    at both ends. *)
Theorem saved_credentials_are_clean (file : string) (w : World) :
  save_failure w = None ->
  let cfg := saved_config (world (authenticate file w)) in
  clean (instance_id cfg) /\ clean (sh_client_id cfg) /\ clean (sh_client_secret cfg).
Proof.
  intros Hs cfg. subst cfg.
  pose proof (read_parameters_clean file) as Hc.
  destruct (read_parameters file) as [[a b] c] eqn:Hp.
  rewrite (authenticate_saved file w a b c Hp Hs). exact Hc.
Qed.

Lemma str_app_nil (s : string) : s +:+ EmptyString = s.
Proof. induction s as [|c s IH]; [reflexivity | rewrite app_cons, IH; reflexivity]. Qed.

Lemma read_parameters_short (l1 l2 file : string) :
  PyStr.no_newline l1 = true -> PyStr.no_newline l2 = true ->
  In file [l1; l1 +:+ nl_str; l1 +:+ nl_str +:+ l2; l1 +:+ nl_str +:+ l2 +:+ nl_str] ->
  exists b, read_parameters file = (PyStr.strip l1, b, EmptyString).
Proof.
  intros H1 H2 Hin. unfold read_parameters.
  assert (E0 : PyStr.readline EmptyString = (EmptyString, EmptyString)) by reflexivity.
  destruct Hin as [<- | [<- | [<- | [<- | []]]]].
  - rewrite (readline_unterminated l1 H1), E0. eexists. reflexivity.
  - change (l1 +:+ nl_str) with (l1 +:+ String PyStr.nl EmptyString).
    rewrite (readline_terminated l1 _ H1), E0, strip_line_feed. eexists. reflexivity.
  - change (l1 +:+ nl_str +:+ l2) with (l1 +:+ String PyStr.nl l2).
    rewrite (readline_terminated l1 _ H1), (readline_unterminated l2 H2), E0, strip_line_feed.
    eexists. reflexivity.
  - change (l1 +:+ nl_str +:+ l2 +:+ nl_str)
      with (l1 +:+ String PyStr.nl (l2 +:+ String PyStr.nl EmptyString)).
    rewrite (readline_terminated l1 _ H1), (readline_terminated l2 _ H2), E0, !strip_line_feed.
    eexists. reflexivity.
Qed.

(** A credential file of fewer than three lines (the empty file
    included) leaves the client secret empty: the profile is saved with
    an empty secret, all three values are then asked for, and the answers
    are what [authenticate] returns. *)
Theorem short_credential_file
        (l1 l2 file : string) (w : World) (v1 v2 v3 : string) (rest : list string) :
  PyStr.no_newline l1 = true -> PyStr.no_newline l2 = true ->
  In file [l1; l1 +:+ nl_str; l1 +:+ nl_str +:+ l2; l1 +:+ nl_str +:+ l2 +:+ nl_str] ->
  save_failure w = None ->
  stdin w = v1 :: v2 :: v3 :: rest ->
  let r := authenticate file w in
  outcome r = Ret (mkSHConfig v1 v2 v3 (other_settings (saved_config w)))
  /\ instance_id (saved_config (world r)) = PyStr.strip l1
  /\ sh_client_secret (saved_config (world r)) = EmptyString
  /\ count is_prompt (events r) = 3%nat
  /\ stdin (world r) = rest.
Proof.
  intros H1 H2 Hin Hs Hst r.
  destruct (read_parameters_short l1 l2 file H1 H2 Hin) as [b Hp].
  assert (Hsaved := authenticate_saved file w _ _ _ Hp Hs). fold r in Hsaved.
  rewrite Hsaved. subst r.
  rewrite (authenticate_unfold _ _ _ _ Hp), authenticate_with_steps.
  rewrite Hs, orb_true_r.
  rewrite bind_print.
  erewrite bind_input by exact Hst.
  erewrite bind_input by reflexivity.
  erewrite bind_input by reflexivity.
  repeat split; reflexivity.
Qed.

Section EndOfInput.

Context (env : Env).

(** When the file leaves the client id or the secret empty and fewer
    than three answers are left on standard input, [authenticate] raises
    [EOFError] after it has saved the incomplete profile; [__main__]
    catches it, prints it and exits with status 0. *)
Theorem credential_prompt_end_of_input
        (file : string) (w : World) (a b c : string)
        (your_path : string) (x_min y_min x_max y_max : Q) :
  read_parameters file = (a, b, c) ->
  PyStr.is_empty b || PyStr.is_empty c = true ->
  save_failure w = None ->
  (length (stdin w) < 3)%nat ->
  fs w !! PyStr.os_path_join your_path "parameters.txt" = Some (File file) ->
  let r := authenticate file w in
  let run := main env your_path x_min y_min x_max y_max w in
  outcome r = Raise EOFError
  /\ saved_config (world r) = mkSHConfig a b c (other_settings (saved_config w))
  /\ stdin (world r) = []
  /\ outcome run = SysExit None
  /\ exit_status (outcome run) = 0%Z
  /\ last_event (events run) = Some (EvPrint (PExn EOFError)).
Proof.
  intros Hp He Hs Hlen Hf r run.
  assert (Hr : outcome r = Raise EOFError /\ stdin (world r) = []).
  { subst r. rewrite (authenticate_unfold _ _ _ _ Hp), authenticate_with_steps.
    rewrite Hs, He, bind_print.
    destruct (stdin w) as [|v1 [|v2 [|v3 rest]]] eqn:Hst.
    - rewrite bind_input_eof by reflexivity. split; reflexivity.
    - erewrite bind_input by reflexivity.
      rewrite bind_input_eof by reflexivity. split; reflexivity.
    - erewrite bind_input by reflexivity.
      erewrite bind_input by reflexivity.
      rewrite bind_input_eof by reflexivity. split; reflexivity.
    - cbn in Hlen. lia. }
  destruct Hr as [Ho Hst].
  split; [exact Ho |].
  split; [exact (authenticate_saved file w a b c Hp Hs) |].
  split; [exact Hst |].
  subst run. rewrite main_steps. cbn zeta.
  rewrite (attempt_opened your_path w file Hf), outcome_prepend. fold r. rewrite Ho.
  cbn [outcome].
  split; [reflexivity |]. split; [reflexivity |].
  unfold events. cbn [log]. rewrite map_app. apply last_event_snoc.
Qed.

(** A search that finds nothing: the total 0 is printed, nothing is
    asked, nothing is downloaded, and the run returns. *)
Theorem empty_search_asks_nothing
        (your_path : string) (x_min y_min x_max y_max : Q) (w : World)
        (config : SHConfig) (info : string) :
  let bbox := mkBBox x_min y_min x_max y_max WGS84 in
  let q := search_query bbox ("first-date", "second-date") in
  let a := attempt your_path w in
  let r := main env your_path x_min y_min x_max y_max w in
  outcome a = Ret config ->
  catalog_get_info env config = inr info ->
  catalog_search env config q = inr [] ->
  outcome r = Ret tt
  /\ exit_status (outcome r) = 0%Z
  /\ world r = world a
  /\ events r
     = events a
       ++ [EvCatalogInfo config; EvPrint (PInfo info); EvCatalogSearch config q;
           EvPrint (PTotal "Total number of results: " 0)].
Proof.
  intros bbox q a r Ha Hc Hq. subst r.
  rewrite main_steps. cbn zeta. fold a. rewrite Ha.
  rewrite after_authenticate_steps. cbn zeta. fold bbox. fold q. rewrite Hc, Hq.
  rewrite outcome_prepend, world_prepend, events_prepend.
  cbn [for_each].
  repeat split; reflexivity.
Qed.

(** Over a whole run no entry of the tree [fs] is removed and no
    directory stops being one; the two catalogue calls change no entry.
    (The profile [config.save()] writes is [saved_config]; it is no
    entry of [fs].) *)
Theorem run_removes_nothing
        (your_path : string) (x_min y_min x_max y_max : Q) (w : World) :
  let r := main env your_path x_min y_min x_max y_max w in
  (forall p, Os.path_exists (fs w) p = true -> Os.path_exists (fs (world r)) p = true)
  /\ (forall p, Os.isdir (fs w) p = true -> Os.isdir (fs (world r)) p = true)
  /\ (forall bbox ti config w1,
        fs (world (search_data env bbox ti config w1)) = fs w1
        /\ fs (world (get_catalog_info env config w1)) = fs w1).
Proof.
  intros r.
  assert (Ha : steady same_fs (attempt your_path)).
  { unfold attempt.
    apply (steady_bind _ same_fs_trans); [apply open_rw_same_fs | intros file].
    apply authenticate_same_fs. }
  assert (Hc : forall config, steady same_fs (get_catalog_info env config)).
  { intros config. unfold get_catalog_info, print.
    apply (steady_bind _ same_fs_trans); [apply (steady_emit _ same_fs_refl) | intros _].
    apply (steady_bind _ same_fs_trans); [apply (steady_lift_lib _ same_fs_refl) | intros i].
    apply (steady_emit _ same_fs_refl). }
  assert (Hq : forall bbox ti config, steady same_fs (search_data env bbox ti config)).
  { intros bbox ti config. unfold search_data.
    apply (steady_bind _ same_fs_trans); [apply (steady_emit _ same_fs_refl) | intros _].
    apply (steady_bind _ same_fs_trans); [apply (steady_lift_lib _ same_fs_refl) | intros l].
    apply (steady_ret _ same_fs_refl). }
  assert (Hmain : steady grown_fs (main env your_path x_min y_min x_max y_max)).
  { unfold main. cbn zeta.
    apply (steady_bind _ grown_fs_trans).
    { apply (steady_try_except _ grown_fs_trans).
      - apply same_fs_grown. exact Ha.
      - intros e. unfold print.
        apply (steady_bind _ grown_fs_trans); [apply (steady_emit _ grown_fs_refl) | intros _].
        apply (steady_sys_exit _ grown_fs_refl). }
    intros config.
    apply (steady_bind _ grown_fs_trans); [apply same_fs_grown, Hc | intros _].
    apply (steady_bind _ grown_fs_trans); [apply same_fs_grown, Hq | intros results].
    unfold print.
    apply (steady_bind _ grown_fs_trans); [apply (steady_emit _ grown_fs_refl) | intros _].
    apply (steady_for_each _ grown_fs_refl grown_fs_trans). intros result.
    unfold select_scene, print.
    apply (steady_bind _ grown_fs_trans); [apply (steady_emit _ grown_fs_refl) | intros _].
    apply (steady_bind _ grown_fs_trans); [apply same_fs_grown, input_same_fs | intros t].
    apply (steady_bind _ grown_fs_trans).
    { destruct (accept_token t); [| apply (steady_ret _ grown_fs_refl)].
      apply (download_data_steady env grown_fs); auto using grown_fs_refl, store_grown_fs,
        make_folders_grown_fs. apply grown_fs_trans. }
    intros _. destruct (abort_token t);
      [apply (steady_sys_exit _ grown_fs_refl) | apply (steady_ret _ grown_fs_refl)]. }
  split; [intros p; apply (Hmain w p) |].
  split; [intros p; apply (Hmain w p) |].
  intros bbox ti config w1. split; [apply Hq | apply Hc].
Qed.

End EndOfInput.

(** ** One configuration, one bounding box *)

Lemma attempt_events_kind (path : string) (w : World) :
  Forall credential_event (events (attempt path w)).
Proof.
  apply respects_events. unfold attempt.
  apply (respects_bind _ _ any_fs_refl any_fs_trans).
  { apply respects_open_rw. exact I. }
  intros file. unfold authenticate. destruct (read_parameters file) as [[a b] c].
  unfold authenticate_with, print.
  apply (respects_bind _ _ any_fs_refl any_fs_trans).
  { apply (respects_emit _ _ any_fs_refl). exact I. }
  intros _. apply (respects_bind _ _ any_fs_refl any_fs_trans).
  { intros w0. split; [exact I | constructor]. }
  intros cfg. apply (respects_bind _ _ any_fs_refl any_fs_trans).
  { apply respects_config_save. exact I. }
  intros _. destruct (_ || _); [| apply (respects_ret _ _ any_fs_refl)].
  apply (respects_bind _ _ any_fs_refl any_fs_trans).
  { apply (respects_emit _ _ any_fs_refl). exact I. }
  intros _. apply (respects_bind _ _ any_fs_refl any_fs_trans).
  { apply respects_input. intros; exact I. }
  intros v1. apply (respects_bind _ _ any_fs_refl any_fs_trans).
  { apply respects_input. intros; exact I. }
  intros v2. apply (respects_bind _ _ any_fs_refl any_fs_trans).
  { apply respects_input. intros; exact I. }
  intros v3. apply (respects_ret _ _ any_fs_refl).
Qed.

Section OneConfiguration.

Context (env : Env).

Lemma download_data_uses config path id bbox new_date (w : World) :
  Forall (uses config bbox) (events (download_data env config path id bbox new_date w)).
Proof.
  apply List.Forall_forall. intros e He.
  assert (Hk : forall e', In e' (events (download_data env config path id bbox new_date w)) ->
                          (exists i d, e' = EvDownloadCall i d)
                          \/ download_event env config path id bbox new_date e').
  { destruct (download_data_tail env config path id bbox new_date w) as (tail & -> & Ht).
    rewrite List.Forall_forall in Ht.
    intros e' [<- | Hin]; [left; eauto | right; exact (Ht e' Hin)]. }
  destruct e; try exact I.
  - exfalso.
    destruct (Hk _ He)
      as [(i & d & [=]) | [[=] | [[x [=]] | [(x & _ & _ & [[=] | [=]]) | [[x [=]] | [y [=]]]]]]].
  - exfalso.
    destruct (Hk _ He)
      as [(i & d & [=]) | [[=] | [[x [=]] | [(x & _ & _ & [[=] | [=]]) | [[x [=]] | [y [=]]]]]]].
  - destruct (download_data_requests env config path id bbox new_date w r (or_introl He))
      as (size & _ & ->). split; reflexivity.
  - destruct (download_data_requests env config path id bbox new_date w r (or_intror He))
      as (size & _ & ->). split; reflexivity.
Qed.

Lemma loop_uses config path bbox (rs : list SceneRecord) (w : World) :
  Forall (uses config bbox) (events (for_each rs (select_scene env config path bbox) w)).
Proof.
  revert w. induction rs as [|result more IH]; intros w; [constructor |].
  rewrite for_each_step.
  assert (Hb : Forall (uses config bbox)
                      (events (select_scene env config path bbox result w))).
  { destruct (stdin w) as [|tok rest] eqn:Hin.
    - rewrite (select_scene_eof _ _ _ _ _ _ Hin). repeat constructor.
    - rewrite (select_scene_steps _ _ _ _ _ _ _ _ Hin), events_prepend.
      apply Forall_app. split; [repeat constructor |].
      rewrite bind_unfold.
      assert (Hx : Forall (uses config bbox)
                     (events ((if accept_token tok
                               then download_data env config path (sc_id result) bbox
                                      (PyStr.slice_to 10 (sc_datetime result))
                               else ret tt) (answered w rest)))).
      { destruct (accept_token tok); [apply download_data_uses | constructor]. }
      destruct (outcome _) as [[] | e | c]; try exact Hx.
      rewrite events_prepend. apply Forall_app. split; [exact Hx |].
      destruct (abort_token tok); constructor. }
  destruct (outcome (select_scene env config path bbox result w)) as [[] | e | c];
    try exact Hb.
  rewrite events_prepend. apply Forall_app. split; [exact Hb | apply IH].
Qed.

(** Whatever [authenticate] returns, that configuration and the one
    bounding box built from the four coordinates are what the catalog
    information, the search and every processing request are given. *)
Theorem one_configuration_throughout
        (your_path : string) (x_min y_min x_max y_max : Q) (w : World) (config : SHConfig) :
  outcome (attempt your_path w) = Ret config ->
  Forall (uses config (mkBBox x_min y_min x_max y_max WGS84))
         (events (main env your_path x_min y_min x_max y_max w)).
Proof.
  intros Ha. rewrite main_steps. cbn zeta. rewrite Ha, events_prepend.
  apply Forall_app. split.
  - eapply Forall_impl; [apply attempt_events_kind |].
    intros e He. destruct e; try exact I; destruct He.
  - rewrite after_authenticate_steps. cbn zeta.
    destruct (catalog_get_info env config) as [e | info].
    { repeat constructor. }
    destruct (catalog_search env config _) as [e | results].
    { repeat constructor. }
    rewrite events_prepend. apply Forall_app. split; [| apply loop_uses].
    repeat constructor.
Qed.

End OneConfiguration.

(** ** The further properties at concrete runs *)

Lemma saved_credentials_are_clean_witness :
  save_failure (Scenario.at_home []) = None
  /\ clean (sh_client_id
              (saved_config (world (authenticate Scenario.credentials (Scenario.at_home []))))).
Proof.
  split; [reflexivity |].
  exact (proj1 (proj2 (saved_credentials_are_clean
                         Scenario.credentials (Scenario.at_home []) eq_refl))).
Defined.

Lemma short_credential_file_witness :
  In Scenario.only_instance
     ["my-instance"; "my-instance" +:+ nl_str; "my-instance" +:+ nl_str +:+ "";
      "my-instance" +:+ nl_str +:+ "" +:+ nl_str]
  /\ outcome (authenticate Scenario.only_instance (Scenario.at_home ["i"; "c"; "s"]))
     = Ret (mkSHConfig "i" "c" "s" []).
Proof.
  assert (Hin : In Scenario.only_instance
                   ["my-instance"; "my-instance" +:+ nl_str; "my-instance" +:+ nl_str +:+ "";
                    "my-instance" +:+ nl_str +:+ "" +:+ nl_str]).
  { right. left. reflexivity. }
  split; [exact Hin |].
  exact (proj1 (short_credential_file
                  "my-instance" "" Scenario.only_instance (Scenario.at_home ["i"; "c"; "s"])
                  "i" "c" "s" [] eq_refl eq_refl Hin eq_refl eq_refl)).
Defined.

Lemma credential_prompt_end_of_input_witness :
  read_parameters Scenario.only_instance = ("my-instance", "", "")
  /\ (length (stdin (Edge.at_home_short ["i"])) < 3)%nat
  /\ outcome (authenticate Scenario.only_instance (Edge.at_home_short ["i"])) = Raise EOFError
  /\ outcome (main Scenario.env "/w" 13 52 13.5 52.5 (Edge.at_home_short ["i"]))
     = SysExit None.
Proof.
  assert (Hlen : (length (stdin (Edge.at_home_short ["i"])) < 3)%nat) by (cbn; lia).
  pose proof (credential_prompt_end_of_input
                Scenario.env Scenario.only_instance (Edge.at_home_short ["i"])
                "my-instance" "" "" "/w" 13 52 13.5 52.5
                eq_refl eq_refl eq_refl Hlen eq_refl) as H.
  split; [reflexivity |]. split; [exact Hlen |].
  split; [exact (proj1 H) | exact (proj1 (proj2 (proj2 (proj2 H))))].
Defined.

Lemma empty_search_asks_nothing_witness :
  outcome (attempt "/w" (Scenario.at_home ["yes"])) = Ret Scenario.profile
  /\ outcome (main Edge.env_nothing_found "/w" 13 52 13.5 52.5 (Scenario.at_home ["yes"]))
     = Ret tt
  /\ stdin (world (main Edge.env_nothing_found "/w" 13 52 13.5 52.5 (Scenario.at_home ["yes"])))
     = ["yes"].
Proof.
  assert (Ha : outcome (attempt "/w" (Scenario.at_home ["yes"])) = Ret Scenario.profile)
    by (vm_compute; reflexivity).
  pose proof (empty_search_asks_nothing
                Edge.env_nothing_found "/w" 13 52 13.5 52.5 (Scenario.at_home ["yes"])
                Scenario.profile "catalog" Ha eq_refl eq_refl) as H.
  split; [exact Ha |]. split; [exact (proj1 H) |].
  rewrite (proj1 (proj2 (proj2 H))). vm_compute. reflexivity.
Defined.

Lemma data_folder_of_request_witness :
  let rq := build_request Scenario.profile "/tmp/S1" Scenario.bbox "2023-06-01"
                          (3406%Z, 5567%Z) in
  In (EvRequest rq)
     (events (download_data Scenario.env Scenario.profile "/w" "/tmp/S1" Scenario.bbox
                            "2023-06-01" (Edge.with_tmp [])))
  /\ rq_data_folder rq = "/tmp/S1".
Proof.
  assert (Hin : In (EvRequest (build_request Scenario.profile "/tmp/S1" Scenario.bbox
                                             "2023-06-01" (3406%Z, 5567%Z)))
                   (events (download_data Scenario.env Scenario.profile "/w" "/tmp/S1"
                                          Scenario.bbox "2023-06-01" (Edge.with_tmp [])))).
  { apply (nth_error_In _ 4). vm_compute. reflexivity. }
  split; [exact Hin |].
  exact (proj1 (data_folder_of_request
                  Scenario.env Scenario.profile "/w" "/tmp/S1" Scenario.bbox "2023-06-01"
                  (Edge.with_tmp []) _ Hin) eq_refl).
Defined.

Lemma missing_root_stops_download_witness :
  plain_root "/gone" = true
  /\ root_error (fs (Scenario.at_home [])) "/gone" = Some FileNotFoundError
  /\ outcome (download_data Scenario.env Scenario.profile "/gone" "S1" Scenario.bbox
                            "2023-06-01" (Scenario.at_home []))
     = Raise (OSError FileNotFoundError "/gone/data").
Proof.
  split; [reflexivity |]. split; [reflexivity |].
  rewrite (missing_root_stops_download
             Scenario.env Scenario.profile "/gone" "S1" Scenario.bbox "2023-06-01"
             (Scenario.at_home []) FileNotFoundError eq_refl eq_refl eq_refl).
  reflexivity.
Defined.

Lemma existing_root_folders_made_witness :
  Os.isdir (fs (Scenario.at_home [])) "/w" = true
  /\ Os.isdir (fs (world (download_data Scenario.env Scenario.profile "/w" "S1" Scenario.bbox
                                        "2023-06-01" (Scenario.at_home []))))
              "/w/data/S1" = true.
Proof.
  split; [reflexivity |].
  exact (proj1 (proj2 (proj2 (proj2 (existing_root_folders_made
                                       Scenario.env Scenario.profile "/w" "S1" Scenario.bbox
                                       "2023-06-01" (Scenario.at_home [])
                                       eq_refl eq_refl eq_refl eq_refl eq_refl eq_refl)
                                    "/w/data/S1" eq_refl)))).
Defined.

Lemma authenticate_complete_file_witness :
  read_parameters Scenario.credentials = ("my-instance", "my-client-id", "my-secret")
  /\ outcome (authenticate Scenario.credentials (Scenario.at_home ["yes"]))
     = Ret Scenario.profile
  /\ events (authenticate Scenario.credentials (Scenario.at_home ["yes"]))
     = [EvPrint (PParameters "my-instance" "my-client-id" "my-secret");
        EvConfigSave Scenario.profile].
Proof.
  split; [reflexivity |].
  pose proof (authenticate_complete_file
                Scenario.credentials (Scenario.at_home ["yes"])
                "my-instance" "my-client-id" "my-secret" eq_refl eq_refl eq_refl) as H.
  exact (conj (proj1 H) (proj2 (proj2 (proj2 H)))).
Defined.

Lemma one_configuration_throughout_witness :
  outcome (attempt "/w" (Scenario.at_home ["yes"; "no"])) = Ret Scenario.profile
  /\ Forall (uses Scenario.profile Scenario.bbox)
            (events (Scenario.run (Scenario.at_home ["yes"; "no"]))).
Proof.
  assert (Ha : outcome (attempt "/w" (Scenario.at_home ["yes"; "no"])) = Ret Scenario.profile)
    by (vm_compute; reflexivity).
  split; [exact Ha |].
  exact (one_configuration_throughout
           Scenario.env "/w" 13 52 13.5 52.5 (Scenario.at_home ["yes"; "no"])
           Scenario.profile Ha).
Defined.
